(** * Category matching scripts: a shallow embedding and its properties

    The repository is a set of Python scripts that align two point-of-interest
    category taxonomies (Foursquare, "FSQ", and Overture Maps, "OM") by text
    similarity, and flatten Overture categories into broad buckets.

    Modelling conventions.
    - A Python [str] is the list of its code points ([pystr], a [list N]).
    - Scores are Python floats (IEEE binary64).  The model evaluates the same
      expressions in exact rational arithmetic ([Q]); the concrete scores
      quoted below are the exact values, which the float computation rounds
      to the nearest double (86, 6, 1 and 0 are exact in both).  Where the
      code compares a score with 0.3, 0.4, 0.6 or 0.8, the model compares the
      exact score with the exact fraction; the program compares the rounded
      score with the nearest double, so a score within rounding error of one
      of these thresholds can fall on the other side.  The statements below
      name none of these four constants.
    - [difflib.SequenceMatcher] (Python standard library) is embedded from the
      CPython source; the RapidFuzz scorers are taken as parameters.
    - Pandas data frames and CSV files are lists of records, in row order. *)

From Stdlib Require Import List Sorted Bool Arith NArith ZArith QArith Lia Lqa String Ascii.
Import ListNotations.

Set Implicit Arguments.

(** ** Python strings *)

Module Py.

Local Open Scope N_scope.

Definition pystr := list N.

(** A string literal, as the code points of its (ASCII) characters. *)
Definition u (s : string) : pystr := map N_of_ascii (list_ascii_of_string s).

Fixpoint str_eqb (a b : pystr) : bool :=
  match a, b with
  | [], [] => true
  | x :: a', y :: b' => N.eqb x y && str_eqb a' b'
  | _, _ => false
  end.

(** [b.startswith(a)] *)
Fixpoint startswith (a b : pystr) : bool :=
  match a, b with
  | [], _ => true
  | x :: a', y :: b' => N.eqb x y && startswith a' b'
  | _ :: _, [] => false
  end.

(** [needle in hay] on strings: substring test; the empty string is in
    every string. *)
Fixpoint contains (needle hay : pystr) : bool :=
  startswith needle hay ||
  match hay with
  | [] => false
  | _ :: t => contains needle t
  end.

(** [x in xs] on a list or set of strings. *)
Definition mem (x : pystr) (xs : list pystr) : bool := existsb (str_eqb x) xs.

(** *** The fragment of the Unicode tables that is modelled

    The tables are exact on ASCII (code points below 128) and on three
    further code points: U+00C9 and U+00E9 (capital and small e with acute
    accent) and U+2122 (trade mark sign).  Any other code point is passed
    through unchanged and classified as neither alphanumeric nor white space:
    it is outside the model. *)

Definition is_ascii (c : N) : bool := (c <? 128)%N.

Definition is_upper (c : N) : bool := ((65 <=? c) && (c <=? 90))%N.
Definition is_lower_az (c : N) : bool := ((97 <=? c) && (c <=? 122))%N.
Definition is_digit (c : N) : bool := ((48 <=? c) && (c <=? 57))%N.

(** [str.isspace] / regex [\s]: TAB, LF, VT, FF, CR, FS, GS, RS, US, SPACE. *)
Definition isspace (c : N) : bool :=
  (((9 <=? c) && (c <=? 13)) || ((28 <=? c) && (c <=? 32)))%N.

(** [str.isalnum] on one code point. *)
Definition isalnum (c : N) : bool :=
  is_upper c || is_lower_az c || is_digit c || (c =? 201)%N || (c =? 233)%N.

(** regex [\w] for [str] patterns: alphanumeric or underscore. *)
Definition is_word (c : N) : bool := isalnum c || (c =? 95)%N.

Definition lower_cp (c : N) : N :=
  if is_upper c || (c =? 201)%N then (c + 32)%N else c.

(** [s.lower()] *)
Definition lower (s : pystr) : pystr := map lower_cp s.

Definition upper_cp (c : N) : N :=
  if is_lower_az c || (c =? 233)%N then (c - 32)%N else c.

(** [s.upper()] *)
Definition upper (s : pystr) : pystr := map upper_cp s.

(** [unicodedata.normalize('NFKD', s)], one code point at a time. *)
Definition nfkd_cp (c : N) : pystr :=
  if (c =? 201)%N then [69; 769]           (* U+00C9 -> E, U+0301 *)
  else if (c =? 233)%N then [101; 769]     (* U+00E9 -> e, U+0301 *)
  else if (c =? 8482)%N then [84; 77]       (* U+2122 -> T, M *)
  else [c].

Definition nfkd (s : pystr) : pystr := flat_map nfkd_cp s.

(** [s.encode('ascii', 'ignore').decode('ascii')] *)
Definition ascii_ignore (s : pystr) : pystr := filter is_ascii s.

(** [s.lstrip()], [s.rstrip()], [s.strip()] *)
Fixpoint lstrip (s : pystr) : pystr :=
  match s with
  | c :: t => if isspace c then lstrip t else s
  | [] => []
  end.

Definition rstrip (s : pystr) : pystr := rev (lstrip (rev s)).

Definition strip (s : pystr) : pystr := rstrip (lstrip s).

(** [s.split()]: the maximal runs of non-space characters.  [cur] is the word
    being read, reversed. *)
Fixpoint split_aux (cur : pystr) (s : pystr) : list pystr :=
  match s with
  | [] => match cur with [] => [] | _ => [rev cur] end
  | c :: t =>
      if isspace c
      then match cur with [] => split_aux [] t | _ => rev cur :: split_aux [] t end
      else split_aux (c :: cur) t
  end.

Definition split (s : pystr) : list pystr := split_aux [] s.

(** [sep.join(words)] *)
Fixpoint join (sep : pystr) (words : list pystr) : pystr :=
  match words with
  | [] => []
  | [w] => w
  | w :: ws => w ++ sep ++ join sep ws
  end.

(** [s.replace(old, new)] for a non-empty [old]: left to right, non
    overlapping.  [skip] counts the characters of a match still to be dropped. *)
Fixpoint replace_aux (old new : pystr) (skip : nat) (s : pystr) : pystr :=
  match s with
  | [] => []
  | c :: t =>
      match skip with
      | S k => replace_aux old new k t
      | O =>
          if startswith old s
          then new ++ replace_aux old new (List.length old - 1)%nat t
          else c :: replace_aux old new 0%nat t
      end
  end.

Definition replace (old new : pystr) (s : pystr) : pystr := replace_aux old new 0%nat s.

(** [s.split(sep)] for a non-empty separator: always at least one part. *)
Fixpoint split_on_aux (sep : pystr) (skip : nat) (cur : pystr) (s : pystr) : list pystr :=
  match s with
  | [] => [rev cur]
  | c :: t =>
      match skip with
      | S k => split_on_aux sep k cur t
      | O =>
          if startswith sep s
          then rev cur :: split_on_aux sep (List.length sep - 1)%nat [] t
          else split_on_aux sep 0%nat (c :: cur) t
      end
  end.

Definition split_on (sep : pystr) (s : pystr) : list pystr := split_on_aux sep 0%nat [] s.

(** *** The regular expressions the scripts use *)

(** [re.sub(r"[class]", new, s)]: every character of the class is replaced. *)
Definition sub_chars (p : N -> bool) (new : pystr) (s : pystr) : pystr :=
  flat_map (fun c => if p c then new else [c]) s.

(** [re.sub(r"[class]+", new, s)]: every maximal run of characters of the
    class is replaced.  [in_run] tells that the previous character was in
    the class. *)
Fixpoint sub_runs_aux (p : N -> bool) (new : pystr) (in_run : bool) (s : pystr) : pystr :=
  match s with
  | [] => []
  | c :: t =>
      if p c
      then (if in_run then [] else new) ++ sub_runs_aux p new true t
      else c :: sub_runs_aux p new false t
  end.

Definition sub_runs (p : N -> bool) (new : pystr) (s : pystr) : pystr :=
  sub_runs_aux p new false s.

Definition is_word_opt (c : option N) : bool :=
  match c with Some x => is_word x | None => false end.

(** [\b] between two neighbouring characters ([None] at either end of the
    string). *)
Definition boundary (before after : option N) : bool :=
  xorb (is_word_opt before) (is_word_opt after).

(** [\b alt \b] matches at the head of [s], [prev] being the character
    before it. *)
Definition word_match (alt : pystr) (prev : option N) (s : pystr) : bool :=
  boundary prev (hd_error s)
  && startswith alt s
  && boundary (hd_error (rev alt)) (nth_error s (List.length alt)).

(** [re.sub(r"\b(alt1|alt2|...)\b", new, s)] for non-empty alternatives:
    left to right, non overlapping, the first alternative that matches. *)
Fixpoint sub_words_aux (alts : list pystr) (new : pystr) (skip : nat)
    (prev : option N) (s : pystr) : pystr :=
  match s with
  | [] => []
  | c :: t =>
      match skip with
      | S k => sub_words_aux alts new k (Some c) t
      | O =>
          match find (fun alt => word_match alt prev s) alts with
          | Some alt =>
              new ++ sub_words_aux alts new (List.length alt - 1)%nat (Some c) t
          | None => c :: sub_words_aux alts new 0%nat (Some c) t
          end
      end
  end.

Definition sub_words (alts : list pystr) (new : pystr) (s : pystr) : pystr :=
  sub_words_aux alts new 0%nat None s.

(** [set(words)]: the distinct elements. *)
Fixpoint dedup (ws : list pystr) : list pystr :=
  match ws with
  | [] => []
  | w :: t => if mem w t then dedup t else w :: dedup t
  end.

End Py.
Import Py.

(** ** simplify_overture_categories.py: the taxonomy flattener *)

Module Simplify.

Local Open Scope string_scope.

(** [any(x in cat for x in xs)] *)
Definition any_in (xs : list pystr) (cat : pystr) : bool :=
  existsb (fun x => contains x cat) xs.

(** ['x1' not in cat and ... and 'xn' not in cat] *)
Definition none_in (xs : list pystr) (cat : pystr) : bool :=
  forallb (fun x => negb (contains x cat)) xs.

(** The keyword lists of the rules, in the order of the source. *)

Definition food_dining_kw : list pystr :=
  map u ["restaurant"; "cafe"; "coffee"; "food"; "dining"; "bar"; "pub";
         "brewery"; "winery"; "bakery"; "pizza"; "burger"; "sandwich";
         "diner"; "bistro"; "eatery"; "caterer"; "donuts"; "ice_cream";
         "dessert"; "candy"; "chocolate"; "patisserie"; "bagel"; "taco";
         "barbecue"; "steakhouse"; "gastropub"; "brasserie"; "lounge";
         "_bar"; "cocktail"; "wine_bar"; "beer_bar"; "speakeasy";
         "champagne_bar"; "sake_bar"; "hookah"; "cigar_bar"; "tea_room";
         "juice_bar"; "smoothie"; "meat_shop"; "butcher"; "seafood";
         "delicatessen"; "cheese_shop"; "pasta_shop"; "pie_shop"; "cupcake";
         "empanadas"; "pretzel"; "popcorn"; "hot_dog"; "chicken_wings";
         "poke"; "doner"; "falafel"; "dumpling"; "noodles"; "sushi";
         "dim_sum"; "waffle"; "pancake"; "gelato"; "frozen_yoghurt";
         "shaved_ice"; "acai"; "kombucha"; "bubble_tea"; "cidery";
         "distillery"; "eat_and_drink"; "tapas"; "gastropub"].

Definition healthcare_medical_kw : list pystr :=
  map u ["doctor"; "physician"; "medical"; "health"; "clinic"; "hospital";
         "dentist"; "dental"; "surgeon"; "surgery"; "therapist"; "therapy";
         "chiropractor"; "acupuncture"; "optometrist"; "ophthalmologist";
         "podiatrist"; "dermatologist"; "cardiologist"; "neurologist";
         "oncologist"; "pediatric"; "obstetrician"; "gynecologist";
         "urologist"; "radiologist"; "anesthesiologist"; "pathologist";
         "psychiatrist"; "psychologist"; "counselor"; "psychotherapist";
         "pharmacy"; "medicine"; "veterinarian"; "veterinary";
         "animal_hospital"; "emergency_room"; "urgent_care";
         "rehabilitation"; "hospice"; "nursing"; "dialysis"; "orthopedist";
         "allergist"; "endocrinologist"; "gastroenterologist";
         "nephrologist"; "pulmonologist"; "rheumatologist"; "hematology";
         "hepatologist"; "proctologist"; "toxicologist"; "immunologist";
         "geneticist"; "retina_specialist"; "otologist"; "audiologist";
         "speech_therapist"; "occupational_therapy"; "physical_therapy";
         "massage_therapy"; "naturopathic"; "holistic";
         "alternative_medicine"; "homeopathic"; "ayurveda"; "acne_treatment";
         "laser_eye"; "cannabis_clinic"; "fertility"; "midwife"; "doula";
         "maternity"; "prenatal"; "lactation"; "abortion"; "mohel"].

Definition retail_shopping_kw : list pystr :=
  map u ["store"; "shop"; "retail"; "boutique"; "market"; "supermarket";
         "grocery"; "department_store"; "discount_store"; "outlet"; "thrift";
         "pawn"; "convenience_store"; "drugstore"; "mall"; "shopping_center";
         "bookstore"; "toy_store"; "gift_shop"; "souvenir"; "clothing";
         "apparel"; "shoe_store"; "jewelry_store"; "watch_store"; "eyewear";
         "optical"; "furniture_store"; "home_goods"; "hardware_store";
         "paint_store"; "flooring_store"; "carpet_store"; "tile_store";
         "lighting_store"; "appliance_store"; "electronics";
         "computer_store"; "mobile_phone_store"; "sporting_goods";
         "outdoor_gear"; "bike_shop"; "surf_shop"; "dive_shop";
         "gun_and_ammo"; "pet_store"; "aquatic_pet"; "bird_shop";
         "reptile_shop"; "art_supply"; "craft_shop"; "fabric_store";
         "knitting"; "yarn"; "music_store"; "instrument_store";
         "vinyl_record"; "video_game_store"; "comic_books"; "antique";
         "vintage"; "flea_market"; "farmers_market"; "shopping";
         "superstore"; "kiosk"; "dispensary"; "liquor_store"; "tobacco_shop";
         "vape"; "e_cigarette"].

Definition automotive_kw : list pystr :=
  map u ["auto"; "automotive"; "car_"; "vehicle"; "truck_"; "motorcycle";
         "scooter_dealer"; "dealer"; "repair"; "mechanic"; "tire"; "brake";
         "transmission"; "muffler"; "body_shop"; "detailing"; "car_wash";
         "towing"; "gas_station"; "fuel_"; "oil_change"; "smog";
         "inspection"; "emissions"; "windshield"; "window_tint";
         "upholstery"; "customization"; "restoration"].

Definition beauty_wellness_kw : list pystr :=
  map u ["salon"; "barber"; "hair_"; "nail_"; "spa"; "beauty"; "esthetician";
         "aesthetician"; "massage"; "facial"; "wax"; "laser_hair"; "eyelash";
         "eyebrow"; "tanning"; "tattoo"; "piercing"; "makeup"; "cosmetic";
         "skin_care"; "aromatherapy"; "reiki"; "halotherapy"; "cryotherapy";
         "hydrotherapy"; "float_spa"; "sauna"; "fitness"; "gym"; "yoga";
         "pilates"; "boxing"; "martial_arts"; "karate"; "taekwondo";
         "jiu_jitsu"; "muay_thai"; "kickboxing"; "boot_camp"; "trainer";
         "weight_loss"; "nutrition"; "dietitian"; "health_coach"; "blow_dry";
         "threading"; "sugaring"; "boudoir"].

Definition sports_recreation_kw : list pystr :=
  map u ["sports"; "stadium"; "arena"; "field"; "court"; "track"; "pitch";
         "golf"; "bowling"; "skating"; "ski_"; "climbing"; "swimming_pool";
         "tennis"; "basketball"; "football"; "soccer"; "baseball"; "hockey";
         "volleyball"; "rugby"; "cricket"; "squash"; "racquetball";
         "handball"; "badminton"; "table_tennis"; "bocce"; "disc_golf";
         "mini_golf"; "go_kart"; "race_track"; "shooting_range"; "archery";
         "paintball"; "laser_tag"; "trampoline"; "bounce_house";
         "batting_cage"; "skate_park"; "bmx"; "mountain_bike"; "trail";
         "hiking"; "scuba"; "diving"; "snorkel"; "surf"; "kite"; "paddle";
         "kayak"; "canoe"; "sailing"; "rowing"; "fishing"; "hunting";
         "horse_"; "equestrian"; "ski_resort"; "tubing"; "sledding";
         "snowboard"; "ice_rink"; "gym"; "fitness"; "aerial";
         "rock_climbing"; "bouldering"].

Definition arts_entertainment_kw : list pystr :=
  map u ["museum"; "gallery"; "theater"; "theatre"; "cinema"; "movie";
         "performing_arts"; "concert"; "music_venue"; "comedy"; "nightclub";
         "dance_club"; "amusement"; "theme_park"; "water_park"; "zoo";
         "aquarium"; "botanical"; "casino"; "arcade"; "escape_room";
         "virtual_reality"; "festival"; "fair"; "carnival"; "circus";
         "rodeo"; "haunted_house"; "observatory"; "planetarium"; "artist";
         "art_"; "cultural_center"; "karaoke"; "bingo"; "magic"; "clown";
         "entertainment"; "production"; "studio"; "recording"; "rehearsal";
         "band"; "orchestra"; "choir"; "opera"; "ballet"; "dance_school";
         "drama"; "acting"].

Definition education_kw : list pystr :=
  map u ["school"; "university"; "college"; "education"; "academy";
         "institute"; "kindergarten"; "preschool"; "day_care"; "daycare";
         "elementary"; "middle_school"; "high_school"; "tutoring";
         "training"; "class"; "lesson"; "instructor"; "teacher"; "coach";
         "library"; "student_union"; "montessori"; "waldorf";
         "charter_school"; "vocational"; "technical_school"].

Definition accommodation_lodging_kw : list pystr :=
  map u ["hotel"; "motel"; "inn"; "resort"; "lodge"; "hostel";
         "bed_and_breakfast"; "vacation_rental"; "cottage"; "cabin";
         "apartment"; "condominium"; "housing"; "accommodation";
         "campground"; "rv_park"; "guest_house"; "pension"; "houseboat"].

Definition professional_services_kw : list pystr :=
  map u ["lawyer"; "attorney"; "law"; "legal"; "accountant"; "bookkeeper";
         "tax_service"; "financial"; "consultant"; "consulting"; "marketing";
         "advertising"; "public_relations"; "design"; "architect";
         "engineer"; "management"; "hr_"; "human_resource"; "employment";
         "recruiting"; "temp_agency"; "notary"; "paralegal"; "mediator";
         "appraisal"; "web_designer"; "graphic_designer"; "photographer";
         "videographer"; "writer"; "editor"; "translation"; "interpreter";
         "transcription"].

Definition financial_services_kw : list pystr :=
  map u ["bank"; "credit_union"; "atm"; "insurance"; "loan"; "mortgage";
         "investment"; "financial"; "broker"; "stock"; "currency_exchange";
         "check_cashing"; "payday"; "bail_bonds"; "credit_counseling";
         "debt_relief"; "accounting"; "tax_"; "bookkeeping"].

Definition real_estate_kw : list pystr :=
  map u ["real_estate"; "property_management"; "apartment_agent"; "housing";
         "developer"; "home_staging"; "home_inspector"].

Definition construction_contractors_kw : list pystr :=
  map u ["contractor"; "construction"; "builder"; "plumbing"; "electrician";
         "hvac"; "roofing"; "carpenter"; "mason"; "concrete"; "drywall";
         "painting"; "remodeling"; "renovation"; "foundation"; "excavation";
         "demolition"; "tiling"; "flooring"; "siding"; "insulation";
         "waterproof"; "septic"; "well_drilling"; "paving"].

Definition home_garden_services_kw : list pystr :=
  map u ["landscaping"; "lawn"; "gardener"; "tree_service"; "pest_control";
         "cleaning"; "janitorial"; "maid"; "window_washing";
         "carpet_cleaning"; "gutter"; "fence"; "deck"; "patio";
         "pool_cleaning"; "handyman"; "locksmith"; "security_system";
         "garage_door"; "door_service"; "appliance_repair"; "junk_removal";
         "hauling"; "moving"; "movers"; "snow_removal"; "pressure_washing";
         "chimney"].

Definition government_public_services_kw : list pystr :=
  map u ["government"; "city_hall"; "town_hall"; "courthouse"; "dmv";
         "motor_vehicle"; "post_office"; "police"; "fire_department";
         "emergency_service"; "social_security"; "unemployment"; "welfare";
         "public_health"; "department_of"; "office_of"; "bureau"; "agency";
         "commission"; "federal"; "state"; "local"; "municipal"; "civic";
         "embassy"; "military"; "army"; "navy"; "armed_forces";
         "national_security"; "jail"; "prison"; "detention"; "passport";
         "visa"; "customs"].

Definition utilities_infrastructure_kw : list pystr :=
  map u ["utility"; "electric"; "power_plant"; "energy"; "water_supplier";
         "sewage"; "sanitation"; "waste"; "garbage"; "recycling";
         "telecommunications"; "internet"; "cable"; "phone_service";
         "pipeline"; "dam"; "bridge"; "tunnel"; "toll_station"].

Definition religious_spiritual_kw : list pystr :=
  map u ["church"; "temple"; "mosque"; "synagogue"; "cathedral"; "chapel";
         "religious"; "spiritual"; "monastery"; "convent"; "shrine";
         "meditation"; "buddhist"; "hindu"; "christian"; "catholic";
         "protestant"; "episcopal"; "baptist"; "pentecostal"; "evangelical";
         "jehovah"; "sikh"; "mission"; "parish"; "astrologer"; "psychic";
         "mystic"].

Definition transportation_kw : list pystr :=
  map u ["airport"; "train_station"; "bus_station"; "metro"; "subway";
         "transit"; "ferry"; "port"; "terminal"; "taxi"; "ride_sharing";
         "limo"; "shuttle"; "transportation"; "parking"; "airline";
         "railway"; "railroad"; "seaplane"; "heliport"; "cable_car";
         "light_rail"].

Definition tourism_attractions_kw : list pystr :=
  map u ["tourist"; "attraction"; "tours"; "sightseeing"; "visitor_center";
         "lighthouse"; "monument"; "landmark"; "castle"; "palace"; "fort";
         "historical"; "memorial"; "sculpture"; "statue"; "fountain";
         "lookout"; "observation"; "scenic"].

Definition parks_natural_features_kw : list pystr :=
  map u ["park"; "playground"; "garden"; "nature_reserve"; "national_park";
         "state_park"; "wildlife"; "sanctuary"; "preserve"; "mountain";
         "hill"; "valley"; "canyon"; "cave"; "forest"; "desert"; "beach";
         "coast"; "island"; "lake"; "river"; "waterfall"; "spring"; "dam";
         "reservoir"; "marsh"; "wetland"; "dune"; "cliff"; "volcano";
         "geyser"; "hot_springs"].

Definition agriculture_farming_kw : list pystr :=
  map u ["farm"; "ranch"; "orchard"; "vineyard"; "agriculture";
         "agricultural"; "livestock"; "cattle"; "dairy"; "poultry"; "pig_";
         "fish_farm"; "crop"; "grain"; "produce"; "harvest"; "bee"; "honey";
         "apiary"; "csa_farm"; "urban_farm"; "pumpkin_patch";
         "pick_your_own"].

Definition manufacturing_industrial_kw : list pystr :=
  map u ["manufacturing"; "manufacturer"; "factory"; "plant"; "mill";
         "foundry"; "refinery"; "industrial"; "production"; "assembly";
         "fabrication"; "processing"; "packaging"; "bottling"; "printing";
         "publishing"; "textile"; "chemical"; "plastic"; "metal"; "steel";
         "iron"; "lumber"; "paper"; "warehouse"; "distribution"; "mining";
         "quarry"; "oil_and_gas"; "petroleum"; "coal"].

Definition media_communications_kw : list pystr :=
  map u ["media"; "newspaper"; "magazine"; "radio_station"; "tv_station";
         "television_station"; "broadcasting"; "publisher"; "press"; "news";
         "journalism"; "social_media"].

Definition technology_it_kw : list pystr :=
  map u ["software"; "it_"; "computer_repair"; "tech_support"; "web_hosting";
         "data_recovery"; "network"; "cybersecurity"; "biotechnology";
         "scientific_laboratory"; "research_institute"].

Definition event_services_kw : list pystr :=
  map u ["event_planning"; "wedding_planning"; "party_"; "catering"; "venue";
         "dj_"; "entertainment_service"; "rental_service"; "photo_booth";
         "balloon_"; "florist"; "floral"].

Definition pet_services_kw : list pystr :=
  map u ["pet_"; "dog_"; "animal_"; "veterinary"; "groomer"; "boarding";
         "training"; "walker"; "sitter"; "adoption"; "shelter"; "rescue"].

Definition personal_services_kw : list pystr :=
  map u ["tailor"; "alterations"; "dry_cleaning"; "laundry"; "shoe_repair";
         "watch_repair"; "jewelry_repair"; "engraving"; "framing"; "photo_";
         "portrait"; "life_coach"; "personal_trainer"; "personal_chef";
         "personal_assistant"; "concierge"; "valet"; "matchmaker"; "dating"].

Definition community_social_services_kw : list pystr :=
  map u ["community_center"; "social_service"; "charity"; "non_profit";
         "nonprofit"; "volunteer"; "donation"; "shelter"; "homeless";
         "food_bank"; "community_garden"; "youth"; "senior"; "elder";
         "disability"; "counseling"; "crisis"; "suicide_prevention"; "abuse";
         "addiction"; "rehabilitation"; "foster_care"; "adoption";
         "veterans"; "refugee"; "fraternal"; "association"; "organization";
         "union"].

(** [get_simplified_category]: a rule whose body is a nested [if] on the
    exclusion words falls through to the next rule when that test fails, so
    each such rule is written as the conjunction of its two tests. *)
Definition get_simplified_category (category : pystr) : pystr :=
  let cat := lower category in
  if any_in food_dining_kw cat
  then u "Food & Dining"
  else if any_in healthcare_medical_kw cat
  then u "Healthcare & Medical"
  else if any_in retail_shopping_kw cat
  then u "Retail & Shopping"
  else if any_in automotive_kw cat
       && none_in (map u ["museum"]) cat
  then u "Automotive"
  else if any_in beauty_wellness_kw cat
       && none_in (map u ["supply"; "school"; "product"; "manufacturer"]) cat
  then u "Beauty & Wellness"
  else if any_in sports_recreation_kw cat
       && none_in (map u ["museum"; "store"; "equipment"]) cat
  then u "Sports & Recreation"
  else if any_in arts_entertainment_kw cat
  then u "Arts & Entertainment"
  else if any_in education_kw cat
       && none_in (map u ["driving"; "traffic"; "bartending"]) cat
  then u "Education"
  else if any_in accommodation_lodging_kw cat
  then u "Accommodation & Lodging"
  else if any_in professional_services_kw cat
       && none_in (map u ["museum"; "school"]) cat
  then u "Professional Services"
  else if any_in financial_services_kw cat
       && none_in (map u ["museum"]) cat
  then u "Financial Services"
  else if any_in real_estate_kw cat
  then u "Real Estate"
  else if any_in construction_contractors_kw cat
       && none_in (map u ["school"; "supply"]) cat
  then u "Construction & Contractors"
  else if any_in home_garden_services_kw cat
       && none_in (map u ["store"; "supply"]) cat
  then u "Home & Garden Services"
  else if any_in government_public_services_kw cat
       && none_in (map u ["school"; "museum"]) cat
  then u "Government & Public Services"
  else if any_in utilities_infrastructure_kw cat
       && none_in (map u ["repair"; "installation"]) cat
  then u "Utilities & Infrastructure"
  else if any_in religious_spiritual_kw cat
  then u "Religious & Spiritual"
  else if any_in transportation_kw cat
       && none_in (map u ["museum"; "repair"; "dealer"]) cat
  then u "Transportation"
  else if any_in tourism_attractions_kw cat
  then u "Tourism & Attractions"
  else if any_in parks_natural_features_kw cat
       && none_in (map u ["amusement"; "theme"; "water_park"]) cat
  then u "Parks & Natural Features"
  else if any_in agriculture_farming_kw cat
       && none_in (map u ["insurance"; "equipment"; "supply"]) cat
  then u "Agriculture & Farming"
  else if any_in manufacturing_industrial_kw cat
       && none_in (map u ["store"; "repair"]) cat
  then u "Manufacturing & Industrial"
  else if any_in media_communications_kw cat
  then u "Media & Communications"
  else if any_in technology_it_kw cat
  then u "Technology & IT"
  else if any_in event_services_kw cat
       && none_in (map u ["supply"]) cat
  then u "Event Services"
  else if any_in pet_services_kw cat
       && none_in (map u ["store"; "hospital"; "supply"]) cat
  then u "Pet Services"
  else if any_in personal_services_kw cat
       && none_in (map u ["supply"; "equipment"]) cat
  then u "Personal Services"
  else if any_in community_social_services_kw cat
  then u "Community & Social Services"
  else if contains (u "b2b") cat
          || (contains (u "wholesaler") cat && negb (contains (u "wholesale") cat))
          || contains (u "distributor") cat
          || contains (u "supplier") cat
  then u "Business-to-Business"
  else u "Other Services".

(** The same rules as an ordered table of (bucket, keywords, exclusion
    words), read first match wins; this is the form in which the specification
    describes the flattener. *)
Record rule := { bucket : pystr; keywords : list pystr; exclusions : list pystr }.

Definition rule_matches (cat : pystr) (r : rule) : bool :=
  any_in (keywords r) cat && none_in (exclusions r) cat.

Definition rules : list rule :=
  [
    {| bucket := u "Food & Dining"; keywords := food_dining_kw;
       exclusions := map u [] |};
    {| bucket := u "Healthcare & Medical"; keywords := healthcare_medical_kw;
       exclusions := map u [] |};
    {| bucket := u "Retail & Shopping"; keywords := retail_shopping_kw;
       exclusions := map u [] |};
    {| bucket := u "Automotive"; keywords := automotive_kw;
       exclusions := map u ["museum"] |};
    {| bucket := u "Beauty & Wellness"; keywords := beauty_wellness_kw;
       exclusions := map u ["supply"; "school"; "product"; "manufacturer"] |};
    {| bucket := u "Sports & Recreation"; keywords := sports_recreation_kw;
       exclusions := map u ["museum"; "store"; "equipment"] |};
    {| bucket := u "Arts & Entertainment"; keywords := arts_entertainment_kw;
       exclusions := map u [] |};
    {| bucket := u "Education"; keywords := education_kw;
       exclusions := map u ["driving"; "traffic"; "bartending"] |};
    {| bucket := u "Accommodation & Lodging"; keywords := accommodation_lodging_kw;
       exclusions := map u [] |};
    {| bucket := u "Professional Services"; keywords := professional_services_kw;
       exclusions := map u ["museum"; "school"] |};
    {| bucket := u "Financial Services"; keywords := financial_services_kw;
       exclusions := map u ["museum"] |};
    {| bucket := u "Real Estate"; keywords := real_estate_kw;
       exclusions := map u [] |};
    {| bucket := u "Construction & Contractors"; keywords := construction_contractors_kw;
       exclusions := map u ["school"; "supply"] |};
    {| bucket := u "Home & Garden Services"; keywords := home_garden_services_kw;
       exclusions := map u ["store"; "supply"] |};
    {| bucket := u "Government & Public Services"; keywords := government_public_services_kw;
       exclusions := map u ["school"; "museum"] |};
    {| bucket := u "Utilities & Infrastructure"; keywords := utilities_infrastructure_kw;
       exclusions := map u ["repair"; "installation"] |};
    {| bucket := u "Religious & Spiritual"; keywords := religious_spiritual_kw;
       exclusions := map u [] |};
    {| bucket := u "Transportation"; keywords := transportation_kw;
       exclusions := map u ["museum"; "repair"; "dealer"] |};
    {| bucket := u "Tourism & Attractions"; keywords := tourism_attractions_kw;
       exclusions := map u [] |};
    {| bucket := u "Parks & Natural Features"; keywords := parks_natural_features_kw;
       exclusions := map u ["amusement"; "theme"; "water_park"] |};
    {| bucket := u "Agriculture & Farming"; keywords := agriculture_farming_kw;
       exclusions := map u ["insurance"; "equipment"; "supply"] |};
    {| bucket := u "Manufacturing & Industrial"; keywords := manufacturing_industrial_kw;
       exclusions := map u ["store"; "repair"] |};
    {| bucket := u "Media & Communications"; keywords := media_communications_kw;
       exclusions := map u [] |};
    {| bucket := u "Technology & IT"; keywords := technology_it_kw;
       exclusions := map u [] |};
    {| bucket := u "Event Services"; keywords := event_services_kw;
       exclusions := map u ["supply"] |};
    {| bucket := u "Pet Services"; keywords := pet_services_kw;
       exclusions := map u ["store"; "hospital"; "supply"] |};
    {| bucket := u "Personal Services"; keywords := personal_services_kw;
       exclusions := map u ["supply"; "equipment"] |};
    {| bucket := u "Community & Social Services"; keywords := community_social_services_kw;
       exclusions := map u [] |};
    {| bucket := u "Business-to-Business";
       keywords := map u ["b2b"; "distributor"; "supplier"];
       exclusions := [] |}
  ].

Definition default_bucket : pystr := u "Other Services".

Definition first_match (cat : pystr) : pystr :=
  match find (rule_matches cat) rules with
  | Some r => bucket r
  | None => default_bucket
  end.

End Simplify.

(** ** difflib.SequenceMatcher (Python standard library)

    [SequenceMatcher(None, a, b)]: no junk predicate, [autojunk] on. *)

Module Difflib.

Local Open Scope nat_scope.

Definition count_cp (c : N) (b : pystr) : nat :=
  List.length (filter (N.eqb c) b).

(** The indices [j] (from [start] on, ascending) with [b[j] == c]. *)
Fixpoint positions_from (start : nat) (c : N) (b : pystr) : list nat :=
  match b with
  | [] => []
  | x :: t =>
      if N.eqb x c then start :: positions_from (S start) c t
      else positions_from (S start) c t
  end.

(** [__chain_b]: an element is popular when [b] has at least 200 elements and
    it occurs more than [len(b) // 100 + 1] times. *)
Definition popular (b : pystr) (c : N) : bool :=
  (200 <=? List.length b) && (List.length b / 100 + 1 <? count_cp c b).

(** [b2j.get(c, [])] after the popular elements have been purged. *)
Definition b2j (b : pystr) (c : N) : list nat :=
  if popular b c then [] else positions_from 0 c b.

(** [j2len.get(j, 0)] on a dictionary kept as an association list. *)
Fixpoint j2len_get (j2len : list (nat * nat)) (j : nat) : nat :=
  match j2len with
  | [] => 0
  | (j', k) :: t => if Nat.eqb j' j then k else j2len_get t j
  end.

Record best := { besti : nat; bestj : nat; bestsize : nat }.

(** The inner loop of [find_longest_match] over the [j] with [a[i] == b[j]]:
    [continue] below [blo], [break] from [bhi] on.  The source's [i-k+1] and
    [j-k+1] are written [i + 1 - k] and [j + 1 - k], which are the same
    integers and stay within [nat]. *)
Fixpoint flm_row (i blo bhi : nat) (j2len : list (nat * nat)) (js : list nat)
    (newj2len : list (nat * nat)) (bst : best) : list (nat * nat) * best :=
  match js with
  | [] => (newj2len, bst)
  | j :: js' =>
      if j <? blo then flm_row i blo bhi j2len js' newj2len bst
      else if bhi <=? j then (newj2len, bst)
      else
        let k := (match j with O => 0 | S j1 => j2len_get j2len j1 end) + 1 in
        let bst' := if bestsize bst <? k
                    then {| besti := i + 1 - k; bestj := j + 1 - k; bestsize := k |}
                    else bst in
        flm_row i blo bhi j2len js' ((j, k) :: newj2len) bst'
  end.

(** The outer loop, over [i] in [range(alo, ahi)]. *)
Fixpoint flm_rows (a b : pystr) (blo bhi : nat) (range : list nat)
    (j2len : list (nat * nat)) (bst : best) : best :=
  match range with
  | [] => bst
  | i :: range' =>
      let '(newj2len, bst') :=
        flm_row i blo bhi j2len (b2j b (nth i a 0%N)) [] bst in
      flm_rows a b blo bhi range' newj2len bst'
  end.

(** [while besti > alo and bestj > blo and a[besti-1] == b[bestj-1]]: at most
    [besti - alo] iterations, which is the counter [n]. *)
Fixpoint extend_left (a b : pystr) (alo blo : nat) (n : nat) (bst : best) : best :=
  match n with
  | O => bst
  | S n' =>
      if (alo <? besti bst) && (blo <? bestj bst)
         && N.eqb (nth (besti bst - 1) a 0%N) (nth (bestj bst - 1) b 0%N)
      then extend_left a b alo blo n'
             {| besti := besti bst - 1; bestj := bestj bst - 1;
                bestsize := bestsize bst + 1 |}
      else bst
  end.

(** [while besti+bestsize < ahi and bestj+bestsize < bhi and
    a[besti+bestsize] == b[bestj+bestsize]]: at most [ahi - besti - bestsize]
    iterations. *)
Fixpoint extend_right (a b : pystr) (ahi bhi : nat) (n : nat) (bst : best) : best :=
  match n with
  | O => bst
  | S n' =>
      if (besti bst + bestsize bst <? ahi) && (bestj bst + bestsize bst <? bhi)
         && N.eqb (nth (besti bst + bestsize bst) a 0%N)
                  (nth (bestj bst + bestsize bst) b 0%N)
      then extend_right a b ahi bhi n'
             {| besti := besti bst; bestj := bestj bst;
                bestsize := bestsize bst + 1 |}
      else bst
  end.

(** [find_longest_match(alo, ahi, blo, bhi)].  The two further loops of the
    source absorb junk elements only; without a junk predicate they never run. *)
Definition find_longest_match (a b : pystr) (alo ahi blo bhi : nat) : best :=
  let bst0 := {| besti := alo; bestj := blo; bestsize := 0 |} in
  let bst1 := flm_rows a b blo bhi (seq alo (ahi - alo)) [] bst0 in
  let bst2 := extend_left a b alo blo (besti bst1 - alo) bst1 in
  extend_right a b ahi bhi (ahi - (besti bst2 + bestsize bst2)) bst2.

(** The sum of the sizes of the blocks of [get_matching_blocks] inside
    [a[alo:ahi]] and [b[blo:bhi]]: the longest match, then the pieces to its
    left and to its right.  Every recursive call is on a strictly shorter
    part of [a]; [fuel] bounds the depth. *)
Fixpoint matching_size (fuel : nat) (a b : pystr) (alo ahi blo bhi : nat) : nat :=
  match fuel with
  | O => 0
  | S fuel' =>
      let x := find_longest_match a b alo ahi blo bhi in
      let i := besti x in
      let j := bestj x in
      let k := bestsize x in
      if k =? 0 then 0
      else
        k
        + (if (alo <? i) && (blo <? j)
           then matching_size fuel' a b alo i blo j else 0)
        + (if (i + k <? ahi) && (j + k <? bhi)
           then matching_size fuel' a b (i + k) ahi (j + k) bhi else 0)
  end.

Definition matches (a b : pystr) : nat :=
  matching_size (S (List.length a)) a b 0 (List.length a) 0 (List.length b).

(** [_calculate_ratio(matches, len(a) + len(b))] *)
Definition calculate_ratio (m length : nat) : Q :=
  match length with
  | O => 1%Q
  | S _ => (2 * Z.of_nat m)%Z # Pos.of_nat length
  end.

(** [SequenceMatcher(None, a, b).ratio()] *)
Definition ratio (a b : pystr) : Q :=
  calculate_ratio (matches a b) (List.length a + List.length b).

End Difflib.

(** ** Floats, as exact rationals *)

Definition Qltb (x y : Q) : bool := negb (Qle_bool y x).

(** [max(x, y)] and [min(x, y)] of Python: the first argument wins a tie. *)
Definition py_max (x y : Q) : Q := if Qltb x y then y else x.
Definition py_min (x y : Q) : Q := if Qltb y x then y else x.

Definition Qnat (n : nat) : Q := inject_Z (Z.of_nat n).

(** [sorted(l, key=key, reverse=True)]: descending and stable (elements with
    equal keys keep their order). *)
Fixpoint insert_desc {A : Type} (key : A -> Q) (x : A) (l : list A) : list A :=
  match l with
  | [] => [x]
  | y :: t => if Qle_bool (key y) (key x) then x :: l else y :: insert_desc key x t
  end.

Definition sort_desc {A : Type} (key : A -> Q) (l : list A) : list A :=
  fold_right (insert_desc key) [] l.

(** [enumerate]-style pairing of the elements with their index. *)
Definition indexed {A : Type} (l : list A) : list (nat * A) :=
  combine (seq 0 (List.length l)) l.

(** [rapidfuzz.process.extract(query, choices, scorer=scorer, limit=limit)]:
    the triples (choice, score, index), best score first, at most [limit]. *)
Definition extract (scorer : pystr -> pystr -> Q) (query : pystr)
    (choices : list pystr) (limit : nat) : list (pystr * Q * nat) :=
  firstn limit
    (sort_desc (fun r => snd (fst r))
       (map (fun '(idx, choice) => (choice, scorer query choice, idx))
          (indexed choices))).

(** ** map_categories.py *)

Module MapCategories.

Local Open Scope string_scope.
Local Open Scope list_scope.
Local Open Scope Q_scope.

(** [pd.isna(text)] holds of [None] (and NaN), which is [None] here. *)
Definition normalize_text (text : option pystr) : pystr :=
  match text with
  | None => []
  | Some t =>
      let text := lower t in
      let text := replace (u "_") (u " ") text in
      join (u " ") (split text)
  end.

Definition stop_words : list pystr :=
  map u ["and"; "or"; "the"; "a"; "an"; "in"; "of"; "for"; "to"; "with"; "at";
         "by"; "from"].

Definition extract_keywords (text : pystr) : list pystr :=
  let words := split text in
  let keywords :=
    filter (fun w => negb (mem w stop_words) && (1 <? List.length w)%nat) words in
  dedup keywords.

(** [om_keywords & fsq_keywords] *)
Definition inter (xs ys : list pystr) : list pystr :=
  filter (fun w => mem w ys) xs.

(** The three signals of [calculate_similarity], on the normalized texts. *)
Definition direct_similarity (om_norm fsq_norm : pystr) : Q :=
  Difflib.ratio om_norm fsq_norm * 100.

Definition keyword_overlap (om_keywords fsq_keywords : list pystr) : Q :=
  match om_keywords, fsq_keywords with
  | _ :: _, _ :: _ =>
      Qnat (List.length (inter om_keywords fsq_keywords))
      / Qnat (List.length om_keywords) * 100
  | _, _ => 0
  end.

Definition containment_bonus (om_norm fsq_norm : pystr) (om_keywords : list pystr) : Q :=
  if contains om_norm fsq_norm then 30
  else if existsb (fun word => contains word fsq_norm)
            (filter (fun word => (3 <? List.length word)%nat) om_keywords)
  then 15
  else 0.

Definition calculate_similarity (om_category fsq_label : option pystr) : Q :=
  let om_norm := normalize_text om_category in
  let fsq_norm := normalize_text fsq_label in
  let om_keywords := extract_keywords om_norm in
  let fsq_keywords := extract_keywords fsq_norm in
  direct_similarity om_norm fsq_norm * (4 # 10)
  + keyword_overlap om_keywords fsq_keywords * (4 # 10)
  + containment_bonus om_norm fsq_norm om_keywords * (2 # 10).

End MapCategories.

(** ** category_mapper.py *)

Module CategoryMapper.

Local Open Scope string_scope.
Local Open Scope list_scope.
Local Open Scope Q_scope.

(** A row of the Foursquare table (columns Category ID, Category Name,
    Category Label) and the Overture table (column CATEGORY_PRIMARY); the
    data-frame index of a row is its position. *)
Record fsq_row := {
  category_id : pystr;
  category_name : pystr;
  category_label : pystr
}.

Definition overture_row := pystr.

(** Entries of the per-group lists built by [categorize_by_semantics]. *)
Record fs_cat := {
  fs_index : nat;
  fs_id : pystr;
  fs_name : pystr;
  fs_label : pystr;
  fs_normalized : pystr
}.

Record ov_cat := {
  ov_index : nat;
  ov_name : pystr;
  ov_normalized : pystr
}.

Record group_data := {
  group_name : pystr;
  keywords : list pystr;
  foursquare_categories : list fs_cat;
  overture_categories : list ov_cat
}.

Definition new_group (name : string) (kws : list string) : group_data :=
  {| group_name := u name; keywords := map u kws;
     foursquare_categories := []; overture_categories := [] |}.

(** [self.semantic_groups] as set up by [__init__], in insertion order. *)
Definition semantic_groups : list group_data :=
  [ new_group "food_dining"
      ["restaurant"; "cafe"; "bar"; "food"; "dining"; "bakery"; "diner";
       "eatery"; "bistro"; "grill"; "kitchen"; "cuisine"; "pizza"; "burger";
       "sandwich"; "coffee"; "tea"; "brewery"; "pub"; "tavern"; "steakhouse"];
    new_group "retail_shopping"
      ["store"; "shop"; "retail"; "market"; "boutique"; "mall"; "outlet";
       "vendor"; "dealer"; "supplier"; "wholesaler"; "shopping"];
    new_group "healthcare_medical"
      ["hospital"; "clinic"; "medical"; "doctor"; "dentist"; "pharmacy";
       "health"; "physician"; "surgeon"; "therapy"; "treatment"; "care"];
    new_group "entertainment_recreation"
      ["entertainment"; "recreation"; "sports"; "fitness"; "gym"; "park";
       "theater"; "cinema"; "museum"; "club"; "center"; "venue"; "stadium"];
    new_group "services_professional"
      ["service"; "agency"; "office"; "professional"; "consulting";
       "repair"; "maintenance"; "cleaning"; "legal"; "financial"];
    new_group "transportation"
      ["transport"; "station"; "airport"; "parking"; "rental"; "taxi";
       "bus"; "train"; "subway"; "ferry"; "automotive"; "gas"];
    new_group "accommodation_lodging"
      ["hotel"; "motel"; "lodge"; "inn"; "resort"; "accommodation";
       "hostel"; "bed"; "breakfast"];
    new_group "education_institutions"
      ["school"; "university"; "college"; "education"; "academy";
       "institute"; "learning"; "training"; "library"];
    new_group "government_public"
      ["government"; "public"; "municipal"; "federal"; "state"; "city";
       "hall"; "office"; "department"; "agency"; "court"];
    new_group "religious_spiritual"
      ["church"; "temple"; "mosque"; "synagogue"; "religious"; "spiritual";
       "cathedral"; "chapel"; "worship"] ].

(** The [replacements] dictionary, in insertion order. *)
Definition replacements : list (pystr * pystr) :=
  [ (u "&", u "and"); (u "+", u "and"); (u "/", u " "); (u "-", u " ");
    (u "_", u " "); (u "  ", u " ") ].

Definition normalize_text (text : option pystr) : pystr :=
  match text with
  | None => []
  | Some t =>
      let text := lower t in
      let text :=
        fold_left (fun text '(old, new) => replace old new text) replacements text in
      (* re.sub(r'[^\w\s]', '', text) *)
      let text := filter (fun c => is_word c || isspace c) text in
      join (u " ") (split text)
  end.

(** The three signals of [calculate_similarity_score], on the normalized
    texts. *)
Definition seq_similarity (norm_text1 norm_text2 : pystr) : Q :=
  Difflib.ratio norm_text1 norm_text2.

Definition intersection (xs ys : list pystr) : list pystr :=
  filter (fun w => mem w ys) xs.

Definition union (xs ys : list pystr) : list pystr :=
  xs ++ filter (fun w => negb (mem w xs)) ys.

Definition word_similarity (norm_text1 norm_text2 : pystr) : Q :=
  let words1 := dedup (split norm_text1) in
  let words2 := dedup (split norm_text2) in
  match words1, words2 with
  | [], [] => 0
  | _, _ =>
      match List.length (union words1 words2) with
      | O => 0
      | S _ =>
          Qnat (List.length (intersection words1 words2))
          / Qnat (List.length (union words1 words2))
      end
  end.

Definition containment_bonus (norm_text1 norm_text2 : pystr) : Q :=
  if contains norm_text1 norm_text2 || contains norm_text2 norm_text1
  then 2 # 10 else 0.

Definition calculate_similarity_score (text1 text2 : pystr) : Q :=
  match text1, text2 with
  | [], _ | _, [] => 0
  | _, _ =>
      let norm_text1 := normalize_text (Some text1) in
      let norm_text2 := normalize_text (Some text2) in
      if str_eqb norm_text1 norm_text2 then 1
      else
        let final_score :=
          seq_similarity norm_text1 norm_text2 * (4 # 10)
          + word_similarity norm_text1 norm_text2 * (5 # 10)
          + containment_bonus norm_text1 norm_text2 in
        py_min final_score 1
  end.

(** [categorize_by_semantics].  For one row and one group the inner loop over
    the keywords appends the row at the first keyword found in its text and
    breaks; the loop over the groups goes on, so a row may enter several
    groups. *)
Definition has_keyword (g : group_data) (text : pystr) : bool :=
  existsb (fun keyword => contains keyword text) (keywords g).

Definition add_foursquare (idx : nat) (row : fsq_row) (g : group_data) : group_data :=
  let cname := normalize_text (Some (category_name row)) in
  let clabel := normalize_text (Some (category_label row)) in
  let full_text := cname ++ u " " ++ clabel in
  if has_keyword g full_text
  then {| group_name := group_name g; keywords := keywords g;
          foursquare_categories :=
            foursquare_categories g ++
            [ {| fs_index := idx; fs_id := category_id row;
                 fs_name := category_name row; fs_label := category_label row;
                 fs_normalized := full_text |} ];
          overture_categories := overture_categories g |}
  else g.

Definition add_overture (idx : nat) (row : overture_row) (g : group_data) : group_data :=
  let cname := normalize_text (Some row) in
  if has_keyword g cname
  then {| group_name := group_name g; keywords := keywords g;
          foursquare_categories := foursquare_categories g;
          overture_categories :=
            overture_categories g ++
            [ {| ov_index := idx; ov_name := row; ov_normalized := cname |} ] |}
  else g.

Definition categorize_by_semantics (foursquare_data : list fsq_row)
    (overture_data : list overture_row) (groups : list group_data) : list group_data :=
  let groups :=
    fold_left (fun gs '(idx, row) => map (add_foursquare idx row) gs)
      (indexed foursquare_data) groups in
  fold_left (fun gs '(idx, row) => map (add_overture idx row) gs)
    (indexed overture_data) groups.

(** An element of [self.mapping_results]. *)
Record mapping := {
  foursquare_id : pystr;
  foursquare_name : pystr;
  foursquare_label : pystr;
  overture_category : option pystr;
  similarity_score : Q;
  match_type : pystr;
  semantic_group : pystr
}.

(** The state threaded through [find_best_matches]: the set
    [matched_overture] of claimed Overture indices and [self.mapping_results]. *)
Record state := {
  matched_overture : list nat;
  mapping_results : list mapping
}.

Definition in_set (i : nat) (s : list nat) : bool := existsb (Nat.eqb i) s.
Definition set_add (i : nat) (s : list nat) : list nat :=
  if in_set i s then s else i :: s.

(** Semantic pass, innermost loop: the best unclaimed Overture entry of the
    group for [fs], with threshold 0.3.  The accumulator is
    [(best_match, best_score)]. *)
Definition semantic_step (matched : list nat) (fs : fs_cat)
    (acc : option ov_cat * Q) (ov : ov_cat) : option ov_cat * Q :=
  if in_set (ov_index ov) matched then acc
  else
    let score := calculate_similarity_score (fs_name fs) (ov_name ov) in
    if Qltb (snd acc) score && Qle_bool (3 # 10) score
    then (Some ov, score) else acc.

Definition semantic_fs (g : group_data) (st : state) (fs : fs_cat) : state :=
  match fold_left (semantic_step (matched_overture st) fs)
          (overture_categories g) (None, 0) with
  | (Some best_match, best_score) =>
      {| matched_overture := set_add (ov_index best_match) (matched_overture st);
         mapping_results :=
           mapping_results st ++
           [ {| foursquare_id := fs_id fs; foursquare_name := fs_name fs;
                foursquare_label := fs_label fs;
                overture_category := Some (ov_name best_match);
                similarity_score := best_score;
                match_type := u "semantic_group";
                semantic_group := group_name g |} ] |}
  | (None, _) => st
  end.

Definition semantic_group_pass (st : state) (g : group_data) : state :=
  fold_left (semantic_fs g) (foursquare_categories g) st.

Definition semantic_pass (groups : list group_data) (st : state) : state :=
  fold_left semantic_group_pass groups st.

(** Direct pass, innermost loop, with threshold 0.4.  The accumulator is
    [(best_match, best_score)], [best_match] being the pair of [best_ov_idx]
    and the Overture row. *)
Definition last_label (label : pystr) : pystr :=
  last (split_on (u " > ") label) label.

Definition direct_step (matched : list nat) (fs_row : fsq_row)
    (acc : option (nat * overture_row) * Q) (ov : nat * overture_row)
    : option (nat * overture_row) * Q :=
  let '(ov_idx, ov_row) := ov in
  if in_set ov_idx matched then acc
  else
    let score1 := calculate_similarity_score (category_name fs_row) ov_row in
    let score2 := calculate_similarity_score (last_label (category_label fs_row)) ov_row in
    let score := py_max score1 score2 in
    if Qltb (snd acc) score && Qle_bool (4 # 10) score
    then (Some (ov_idx, ov_row), score) else acc.

Definition direct_fs (unmatched_ov : list (nat * overture_row)) (st : state)
    (fs_row : fsq_row) : state :=
  match fold_left (direct_step (matched_overture st) fs_row) unmatched_ov (None, 0) with
  | (Some (best_ov_idx, best_match), best_score) =>
      {| matched_overture := set_add best_ov_idx (matched_overture st);
         mapping_results :=
           mapping_results st ++
           [ {| foursquare_id := category_id fs_row;
                foursquare_name := category_name fs_row;
                foursquare_label := category_label fs_row;
                overture_category := Some best_match;
                similarity_score := best_score;
                match_type := u "direct_match";
                semantic_group := u "none" |} ] |}
  | (None, _) => st
  end.

Definition matched_ids (results : list mapping) : list pystr :=
  map foursquare_id results.

Definition direct_pass (foursquare_data : list fsq_row)
    (overture_data : list overture_row) (st : state) : state :=
  let matched_fs_ids := matched_ids (mapping_results st) in
  let unmatched_fs :=
    filter (fun row => negb (mem (category_id row) matched_fs_ids)) foursquare_data in
  let unmatched_ov :=
    filter (fun ov => negb (in_set (fst ov) (matched_overture st)))
      (indexed overture_data) in
  fold_left (direct_fs unmatched_ov) unmatched_fs st.

Definition no_match (fs_row : fsq_row) : mapping :=
  {| foursquare_id := category_id fs_row;
     foursquare_name := category_name fs_row;
     foursquare_label := category_label fs_row;
     overture_category := None;
     similarity_score := 0;
     match_type := u "no_match";
     semantic_group := u "none" |}.

Definition unmatched_pass (foursquare_data : list fsq_row) (st : state) : state :=
  let final_matched_fs_ids := matched_ids (mapping_results st) in
  {| matched_overture := matched_overture st;
     mapping_results :=
       mapping_results st ++
       map no_match
         (filter (fun row => negb (mem (category_id row) final_matched_fs_ids))
            foursquare_data) |}.

Definition find_best_matches (foursquare_data : list fsq_row)
    (overture_data : list overture_row) (groups : list group_data) : list mapping :=
  let st := {| matched_overture := []; mapping_results := [] |} in
  let st := semantic_pass groups st in
  let st := direct_pass foursquare_data overture_data st in
  mapping_results (unmatched_pass foursquare_data st).

(** [load_data] aside, the body of [run_mapping_process] up to the results. *)
Definition run_mapping (foursquare_data : list fsq_row)
    (overture_data : list overture_row) : list mapping :=
  find_best_matches foursquare_data overture_data
    (categorize_by_semantics foursquare_data overture_data semantic_groups).

End CategoryMapper.

(** ** map_om_to_fsq.py *)

Module MapOmToFsq.

Local Open Scope string_scope.
Local Open Scope list_scope.
Local Open Scope Q_scope.

(** [NON_ALNUM = [^a-z0-9 &]] *)
Definition non_alnum (c : N) : bool :=
  negb (is_lower_az c || is_digit c || (c =? 32)%N || (c =? 38)%N).

Definition normalize (text : option pystr) : pystr :=
  match text with
  | None => []
  | Some text =>
      let t := lower (strip text) in
      let t := sub_runs (fun c => (c =? 95)%N) (u " ") t in    (* UNDERSCORES *)
      let t := sub_words [u "and"; u "&"] (u " and ") t in      (* AMPERSAND *)
      let t := sub_chars non_alnum (u " ") t in                 (* NON_ALNUM *)
      let t := sub_runs isspace (u " ") t in                    (* MULTISPACE *)
      strip t
  end.

(** A row of the FSQ input file, as [csv.DictReader] yields it, and a row
    of [fsq_rows] as [load_fsq_categories] keeps it. *)
Record csv_fsq := {
  csv_id : pystr;
  csv_label : pystr;
  csv_primary : pystr;
  csv_secondary : pystr
}.

Record fsq_row := {
  Category_ID : pystr;
  Category_Label : pystr;
  Category_Primary : pystr;
  Category_Secondary : pystr;
  norm : pystr;
  norm_leaf : pystr
}.

Definition load_fsq_row (row : csv_fsq) : list fsq_row :=
  match csv_label row with
  | [] => []                                     (* skip malformed rows *)
  | label =>
      let leaf := strip (last (split_on (u " > ") label) label) in
      [ {| Category_ID := csv_id row;
           Category_Label := label;
           Category_Primary := csv_primary row;
           Category_Secondary := csv_secondary row;
           norm := normalize (Some label);
           norm_leaf := normalize (Some leaf) |} ]
  end.

Definition load_fsq_categories (file : list csv_fsq) : list fsq_row :=
  flat_map load_fsq_row file.

(** [load_unique_om_labels]: the non-empty labels, each once, in the order of
    their first occurrence. *)
Fixpoint unique_labels (seen : list pystr) (labels : list pystr) : list pystr :=
  match labels with
  | [] => []
  | label :: t =>
      match label with
      | [] => unique_labels seen t
      | _ => if mem label seen then unique_labels seen t
             else label :: unique_labels (label :: seen) t
      end
  end.

Definition load_unique_om_labels (file : list pystr) : list pystr :=
  unique_labels [] file.

(** An output row; the three scores are written with one decimal. *)
Record out_row := {
  OM_CATEGORY_LABEL : pystr;
  FSQ_BEST_LABEL : pystr;
  FSQ_BEST_ID : pystr;
  FSQ_BEST_PRIMARY : pystr;
  FSQ_BEST_SECONDARY : pystr;
  BEST_SCORE : Q;
  FSQ_ALT1_LABEL : pystr;
  ALT1_ID : pystr;
  ALT1_SCORE : Q;
  FSQ_ALT2_LABEL : pystr;
  ALT2_ID : pystr;
  ALT2_SCORE : Q;
  NEEDS_REVIEW : pystr
}.

(** The dictionary that [row_at] returns for an index out of range. *)
Definition blank_row : fsq_row :=
  {| Category_ID := []; Category_Label := []; Category_Primary := [];
     Category_Secondary := []; norm := []; norm_leaf := [] |}.

Definition row_at (fsq_rows : list fsq_row) (i : nat) : fsq_row :=
  nth i fsq_rows blank_row.

(** [while len(matches) < 3: matches.append((0, 0.0))], at most three times. *)
Fixpoint pad (n : nat) (matches : list (nat * Q)) : list (nat * Q) :=
  match n with
  | O => matches
  | S n' =>
      if (List.length matches <? 3)%nat then pad n' (matches ++ [(0%nat, 0)])
      else matches
  end.

Definition needs_review (s0 : Q) : pystr :=
  if Qltb s0 80 then u "TRUE" else u "FALSE".

(** The body of the loop of [main] after [match_one] has returned: the
    padding loop, then [(i0, s0), (i1, s1), (i2, s2) = matches], which
    raises ValueError ([None]) unless the list holds exactly three pairs,
    then the row that is written. *)
Definition write_row (fsq_rows : list fsq_row) (om_label : pystr)
    (matches : list (nat * Q)) : option out_row :=
  match pad 3 matches with
  | [(i0, s0); (i1, s1); (i2, s2)] =>
      let r0 := row_at fsq_rows i0 in
      let r1 := row_at fsq_rows i1 in
      let r2 := row_at fsq_rows i2 in
      Some {| OM_CATEGORY_LABEL := om_label;
              FSQ_BEST_LABEL := Category_Label r0;
              FSQ_BEST_ID := Category_ID r0;
              FSQ_BEST_PRIMARY := Category_Primary r0;
              FSQ_BEST_SECONDARY := Category_Secondary r0;
              BEST_SCORE := s0;
              FSQ_ALT1_LABEL := Category_Label r1;
              ALT1_ID := Category_ID r1;
              ALT1_SCORE := s1;
              FSQ_ALT2_LABEL := Category_Label r2;
              ALT2_ID := Category_ID r2;
              ALT2_SCORE := s2;
              NEEDS_REVIEW := needs_review s0 |}
  | _ => None
  end.

(** The rows that reach the output file when the iterations of the loop
    yield [rows] in turn: all those before the first iteration that raises. *)
Fixpoint written (rows : list (option out_row)) : list out_row :=
  match rows with
  | Some r :: rest => r :: written rest
  | _ => []
  end.

Section Scorers.

(** [fuzz.token_set_ratio] and [fuzz.partial_ratio] of RapidFuzz, and the
    order in which a Python [set] of integers is iterated, given the
    elements in insertion order. *)
Variable token_set_ratio : pystr -> pystr -> Q.
Variable partial_ratio : pystr -> pystr -> Q.
Variable set_iter : list nat -> list nat.

Definition combined_score (query candidate candidate_leaf : pystr) : Q :=
  let s1 := token_set_ratio query candidate in
  let s2 := partial_ratio query candidate in
  let s3 := token_set_ratio query candidate_leaf in
  let s4 := partial_ratio query candidate_leaf in
  (35 # 100) * s1 + (25 # 100) * s2 + (25 # 100) * s3 + (15 # 100) * s4.

Definition match_one (query_label : pystr) (fsq_rows : list fsq_row)
    (topn : nat) : list (nat * Q) :=
  let norm_full := map norm fsq_rows in
  let norm_leafs := map norm_leaf fsq_rows in
  let q := normalize (Some query_label) in
  let shortlist_full := extract token_set_ratio q norm_full (Nat.max 50 (topn * 10)) in
  let shortlist_leaf := extract token_set_ratio q norm_leafs (Nat.max 50 (topn * 10)) in
  let indices := set_iter (map snd shortlist_full ++ map snd shortlist_leaf) in
  let rescored :=
    map (fun idx => (idx, combined_score q (nth idx norm_full []) (nth idx norm_leafs [])))
      indices in
  firstn topn (sort_desc snd rescored).

(** The rows that [main] writes, in order. *)
Definition main (fsq_file : list csv_fsq) (om_file : list pystr) : list out_row :=
  let fsq_rows := load_fsq_categories fsq_file in
  let om_labels := load_unique_om_labels om_file in
  written
    (map (fun om_label => write_row fsq_rows om_label (match_one om_label fsq_rows 3))
       om_labels).

End Scorers.

End MapOmToFsq.

(** ** filter_needs_review.py *)

Module FilterNeedsReview.

Local Open Scope string_scope.

(** A row as [csv.DictReader] yields it: the cells by column name. *)
Definition csv_row := list (pystr * pystr).

(** [row.get(key)] *)
Fixpoint get (row : csv_row) (key : pystr) : option pystr :=
  match row with
  | [] => None
  | (k, v) :: t => if str_eqb k key then Some v else get t key
  end.

(** [(row.get('NEEDS_REVIEW') or '').upper() == 'TRUE'] *)
Definition keep (row : csv_row) : bool :=
  let v := match get row (u "NEEDS_REVIEW") with Some v => v | None => [] end in
  str_eqb (upper v) (u "TRUE").

Definition filter_needs_review (rows : list csv_row) : list csv_row :=
  filter keep rows.

Section Pipeline.

(** The rendering [f"{s:.1f}"] of a score. *)
Variable fmt1 : Q -> pystr.

(** The row of the mapping file that [csv.DictReader] reads back from what
    [writer.writerow] of map_om_to_fsq.py wrote. *)
Definition csv_of (r : MapOmToFsq.out_row) : csv_row :=
  [ (u "OM_CATEGORY_LABEL", MapOmToFsq.OM_CATEGORY_LABEL r);
    (u "FSQ_BEST_LABEL", MapOmToFsq.FSQ_BEST_LABEL r);
    (u "FSQ_BEST_ID", MapOmToFsq.FSQ_BEST_ID r);
    (u "FSQ_BEST_PRIMARY", MapOmToFsq.FSQ_BEST_PRIMARY r);
    (u "FSQ_BEST_SECONDARY", MapOmToFsq.FSQ_BEST_SECONDARY r);
    (u "BEST_SCORE", fmt1 (MapOmToFsq.BEST_SCORE r));
    (u "FSQ_ALT1_LABEL", MapOmToFsq.FSQ_ALT1_LABEL r);
    (u "ALT1_ID", MapOmToFsq.ALT1_ID r);
    (u "ALT1_SCORE", fmt1 (MapOmToFsq.ALT1_SCORE r));
    (u "FSQ_ALT2_LABEL", MapOmToFsq.FSQ_ALT2_LABEL r);
    (u "ALT2_ID", MapOmToFsq.ALT2_ID r);
    (u "ALT2_SCORE", fmt1 (MapOmToFsq.ALT2_SCORE r));
    (u "NEEDS_REVIEW", MapOmToFsq.NEEDS_REVIEW r) ].

End Pipeline.

End FilterNeedsReview.

(** ** om_to_fsq_map.py *)

Module OmToFsqMap.

Local Open Scope string_scope.
Local Open Scope list_scope.
Local Open Scope Q_scope.

(** The spelling table, in insertion order. *)
Definition replacements : list (pystr * pystr) :=
  [ (u "centre", u "center"); (u "theatre", u "theater"); (u "tyre", u "tire");
    (u "tyres", u "tires"); (u "jewellery", u "jewelry");
    (u "behaviour", u "behavior"); (u "barbeque", u "barbecue");
    (u "boulangerie", u "bakery"); (u "shoppe", u "shop") ].

(** [[^a-z0-9\s]] *)
Definition not_alnum_space (c : N) : bool :=
  negb (is_lower_az c || is_digit c || isspace c).

Definition normalize_text (value : option pystr) : pystr :=
  match value with
  | None => []
  | Some value =>
      let text := lower (strip value) in
      let text := ascii_ignore (nfkd text) in
      let text := replace (u "&") (u " and ") text in
      let text := replace (u "/") (u " ") text in
      let text := replace (u "_") (u " ") text in
      let text := replace (u "-") (u " ") text in
      let text :=
        fold_left (fun text '(src, dst) => sub_words [src] dst text) replacements text in
      let text := sub_chars not_alnum_space (u " ") text in
      strip (sub_runs isspace (u " ") text)
  end.

Record FSQCategory := {
  category_id : pystr;
  category_label : pystr;
  category_primary : pystr;
  category_secondary : pystr;
  leaf_label : pystr
}.

Definition extract_leaf_label (category_label : pystr) : pystr :=
  match category_label with
  | [] => []
  | _ =>
      let parts := map strip (split_on (u ">") category_label) in
      last parts category_label
  end.

(** A row of the FSQ file (columns Category ID, Category Label,
    Category_Primary, Category_Secondary; a missing cell reads as the
    empty string). *)
Record csv_fsq := {
  csv_id : pystr;
  csv_label : pystr;
  csv_primary : pystr;
  csv_secondary : pystr
}.

(** [load_fsq_categories]: the state of the loop is
    [(fsq_rows, candidate_texts, candidate_to_index)]. *)
Definition load_step (st : list FSQCategory * list pystr * list nat) (row : csv_fsq)
    : list FSQCategory * list pystr * list nat :=
  let '(fsq_rows, candidate_texts, candidate_to_index) := st in
  let label := csv_label row in
  let leaf := extract_leaf_label label in
  let fsq := {| category_id := csv_id row; category_label := label;
                category_primary := csv_primary row;
                category_secondary := csv_secondary row;
                leaf_label := leaf |} in
  let idx := List.length fsq_rows in
  let full_norm := normalize_text (Some label) in
  let leaf_norm := normalize_text (Some leaf) in
  let '(candidate_texts, candidate_to_index) :=
    match full_norm with
    | [] => (candidate_texts, candidate_to_index)
    | _ => (candidate_texts ++ [full_norm], candidate_to_index ++ [idx])
    end in
  let '(candidate_texts, candidate_to_index) :=
    match leaf_norm with
    | [] => (candidate_texts, candidate_to_index)
    | _ => if str_eqb leaf_norm full_norm
           then (candidate_texts, candidate_to_index)
           else (candidate_texts ++ [leaf_norm], candidate_to_index ++ [idx])
    end in
  (fsq_rows ++ [fsq], candidate_texts, candidate_to_index).

Definition load_fsq_categories (file : list csv_fsq)
    : list FSQCategory * list pystr * list nat :=
  fold_left load_step file ([], [], []).

Definition in_set (i : nat) (s : list nat) : bool := existsb (Nat.eqb i) s.

(** [grouped[fsq_idx] = (score, cand_text)] on a dictionary kept as an
    association list in insertion order: a new key goes to the end, an old
    key keeps its place. *)
Fixpoint grouped_update (grouped : list (nat * (Q * pystr))) (fsq_idx : nat)
    (score : Q) (cand_text : pystr) : list (nat * (Q * pystr)) :=
  match grouped with
  | [] => [(fsq_idx, (score, cand_text))]
  | (k, (sc, mt)) :: t =>
      if Nat.eqb k fsq_idx
      then (if Qltb sc score then (k, (score, cand_text)) else (k, (sc, mt))) :: t
      else (k, (sc, mt)) :: grouped_update t fsq_idx score cand_text
  end.

Section Scorer.

(** [fuzz.WRatio] of RapidFuzz. *)
Variable WRatio : pystr -> pystr -> Q.

Definition choose_best_matches (query : pystr) (candidate_texts : list pystr)
    (candidate_to_index : list nat) (limit : nat)
    (allowed_fsq_indices : option (list nat)) : list (nat * Q * pystr) :=
  let '(search_texts, search_map) :=
    match allowed_fsq_indices with
    | Some allowed =>
        let filtered :=
          filter (fun ti => in_set (snd ti) allowed)
            (combine candidate_texts candidate_to_index) in
        match filtered with
        | [] => (candidate_texts, candidate_to_index)
        | _ => (map fst filtered, map snd filtered)
        end
    | None => (candidate_texts, candidate_to_index)
    end in
  let results := extract WRatio query search_texts (limit * 3) in
  let grouped :=
    fold_left
      (fun grouped '(cand_text, score, cand_idx) =>
         grouped_update grouped (nth cand_idx search_map 0%nat) score cand_text)
      results [] in
  let top :=
    sort_desc (fun x => snd (fst x))
      (map (fun '(fsq_idx, (sc, mt)) => (fsq_idx, sc, mt)) grouped) in
  firstn limit top.

(** [om_to_fsq_primary] *)
Definition om_to_fsq_primary : list (pystr * list pystr) :=
  [ (u "accommodation and lodging",
       [u "travel and transportation"; u "community and government";
        u "landmarks and outdoors"]);
    (u "food and dining", [u "dining and drinking"]);
    (u "retail and shopping", [u "retail"]);
    (u "healthcare and medical", [u "health and medicine"]);
    (u "beauty and personal care",
       [u "business and professional services"; u "health and medicine"]);
    (u "entertainment and recreation",
       [u "arts and entertainment"; u "sports and recreation"]);
    (u "government and public services", [u "community and government"]);
    (u "transportation", [u "travel and transportation"]);
    (u "home and garden", [u "business and professional services"; u "retail"]);
    (u "professional services", [u "business and professional services"]);
    (u "industrial and manufacturing", [u "business and professional services"]);
    (u "community and social services", [u "community and government"]);
    (u "religious and spiritual", [u "community and government"]);
    (u "education and learning", [u "community and government"]);
    (u "natural features and outdoor", [u "landmarks and outdoors"]);
    (u "automotive",
       [u "business and professional services"; u "retail";
        u "travel and transportation"]);
    (u "other", []) ].

Fixpoint dict_get (d : list (pystr * list pystr)) (key : pystr) : list pystr :=
  match d with
  | [] => []
  | (k, v) :: t => if str_eqb k key then v else dict_get t key
  end.

(** [fsq_primary_to_indices.get(primary, [])] and
    [fsq_secondary_to_indices.get((primary, secondary), [])] *)
Definition primary_indices (fsq_rows : list FSQCategory) (primary : pystr) : list nat :=
  map fst
    (filter (fun r => str_eqb (normalize_text (Some (category_primary (snd r)))) primary)
       (indexed fsq_rows)).

Definition secondary_indices (fsq_rows : list FSQCategory) (primary secondary : pystr)
    : list nat :=
  map fst
    (filter (fun r =>
               str_eqb (normalize_text (Some (category_primary (snd r)))) primary
               && str_eqb (normalize_text (Some (category_secondary (snd r)))) secondary)
       (indexed fsq_rows)).

(** [allowed_indices_for_om]: the sets are lists read through membership
    only; [None] is returned for an empty set. *)
Definition allowed_indices_for_om (fsq_rows : list FSQCategory)
    (om_simplified om_updated : pystr) : option (list nat) :=
  let simp := normalize_text (Some om_simplified) in
  let updated := normalize_text (Some om_updated) in
  let allowed_primaries := dict_get om_to_fsq_primary simp in
  let allowed_primaries :=
    if contains (u "business to business") updated || str_eqb updated (u "b2b")
    then u "business and professional services" :: allowed_primaries
    else allowed_primaries in
  match allowed_primaries with
  | [] => None
  | _ =>
      let indices := flat_map (primary_indices fsq_rows) allowed_primaries in
      let indices :=
        if str_eqb simp (u "accommodation and lodging")
        then
          let narrowed :=
            flat_map (secondary_indices fsq_rows (u "travel and transportation"))
              [u "lodging"; u "rv park"]
            ++ flat_map (secondary_indices fsq_rows (u "community and government"))
                 [u "housing authority"; u "residential building";
                  u "housing development"; u "organization"]
            ++ flat_map (secondary_indices fsq_rows (u "landmarks and outdoors"))
                 [u "campground"] in
          match narrowed with
          | [] => indices
          | _ => filter (fun i => in_set i narrowed) indices
          end
        else indices in
      match indices with
      | [] => None
      | _ => Some indices
      end
  end.

(** A row of the OM file and a row of the output; the ALTERNATES cell is the
    rendering of the list kept here. *)
Record om_row := {
  CATEGORY_LABEL : pystr;
  SIMPLIFIED_CATEGORY : pystr;
  UPDATED_CATEGORY : pystr
}.

Record out_row := {
  OM_CATEGORY_LABEL : pystr;
  OM_SIMPLIFIED_CATEGORY : pystr;
  OM_UPDATED_CATEGORY : pystr;
  FSQ_CATEGORY_ID : pystr;
  FSQ_CATEGORY_LABEL : pystr;
  FSQ_CATEGORY_PRIMARY : pystr;
  FSQ_CATEGORY_SECONDARY : pystr;
  MATCH_SCORE : Q;
  MATCHED_TEXT : pystr;
  ALTERNATES : list (pystr * pystr * Q)
}.

Definition blank_fsq : FSQCategory :=
  {| category_id := []; category_label := []; category_primary := [];
     category_secondary := []; leaf_label := [] |}.

(** The loop over [top]: the accumulator is
    [(best_fsq_idx, best_score, best_matched_text)]. *)
Definition best_step (acc : option nat * Q * pystr) (m : nat * Q * pystr)
    : option nat * Q * pystr :=
  let '(best_fsq_idx, best_score, best_matched_text) := acc in
  let '(fsq_idx, score, matched_text) := m in
  if Qltb best_score score then (Some fsq_idx, score, matched_text) else acc.

(** One iteration of the main loop of [map_om_to_fsq]: [None] for the two
    [continue] statements, else the row written. *)
Definition map_row (fsq_rows : list FSQCategory) (candidate_texts : list pystr)
    (candidate_to_index : list nat) (row : om_row) : option out_row :=
  let om_label := CATEGORY_LABEL row in
  let om_simplified := SIMPLIFIED_CATEGORY row in
  let om_updated := UPDATED_CATEGORY row in
  let q := normalize_text (Some om_label) in
  match q with
  | [] => None                                     (* if not q: continue *)
  | _ =>
      let allowed := allowed_indices_for_om fsq_rows om_simplified om_updated in
      let top := choose_best_matches q candidate_texts candidate_to_index 5 allowed in
      let alternates :=
        map (fun '(fsq_idx, score, _) =>
               let fsq := nth fsq_idx fsq_rows blank_fsq in
               (category_label fsq, category_id fsq, score)) top in
      match fold_left best_step top (None, - (1), []) with
      | (None, _, _) => None                       (* best_fsq_idx is None *)
      | (Some best_fsq_idx, best_score, best_matched_text) =>
          let fsq := nth best_fsq_idx fsq_rows blank_fsq in
          Some {| OM_CATEGORY_LABEL := om_label;
                  OM_SIMPLIFIED_CATEGORY := om_simplified;
                  OM_UPDATED_CATEGORY := om_updated;
                  FSQ_CATEGORY_ID := category_id fsq;
                  FSQ_CATEGORY_LABEL := category_label fsq;
                  FSQ_CATEGORY_PRIMARY := category_primary fsq;
                  FSQ_CATEGORY_SECONDARY := category_secondary fsq;
                  MATCH_SCORE := best_score;
                  MATCHED_TEXT := best_matched_text;
                  ALTERNATES := alternates |}
      end
  end.

Definition option_list {A : Type} (o : option A) : list A :=
  match o with Some x => [x] | None => [] end.

(** [map_om_to_fsq]: the rows written to the output file and to the
    ambiguous file. *)
Definition map_om_to_fsq (om_file : list om_row) (fsq_file : list csv_fsq)
    (threshold : Q) : list out_row * list out_row :=
  let '(fsq_rows, candidate_texts, candidate_to_index) := load_fsq_categories fsq_file in
  let written :=
    flat_map (fun row => option_list (map_row fsq_rows candidate_texts candidate_to_index row))
      om_file in
  (written, filter (fun r => Qltb (MATCH_SCORE r) threshold) written).

End Scorer.

End OmToFsqMap.

(** ** map_categories.py: ranking and the main loop *)

Module MapCategoriesMain.

Local Open Scope string_scope.
Local Open Scope list_scope.
Local Open Scope Q_scope.

(** A row of [fsq_df] (columns Category ID, Category Name, Category Label)
    and an element of the list [matches]. *)
Record fsq_row := {
  Category_ID : pystr;
  Category_Name : pystr;
  Category_Label : pystr
}.

Record fsq_match := {
  category_id : pystr;
  category_name : pystr;
  category_label : pystr;
  similarity_score : Q
}.

(** The body of the loop of [find_best_matches]: the better of the scores
    against the full label and against the name. *)
Definition score_row (om_category : pystr) (row : fsq_row) : fsq_match :=
  let fsq_label := Category_Label row in
  let fsq_name := Category_Name row in
  let label_score := MapCategories.calculate_similarity (Some om_category) (Some fsq_label) in
  let name_score := MapCategories.calculate_similarity (Some om_category) (Some fsq_name) in
  let best_score := py_max label_score name_score in
  {| category_id := Category_ID row;
     category_name := fsq_name;
     category_label := fsq_label;
     similarity_score := best_score |}.

Definition find_best_matches (om_category : pystr) (fsq_df : list fsq_row)
    (top_n : nat) : list fsq_match :=
  let matches := map (score_row om_category) fsq_df in
  firstn top_n (sort_desc similarity_score matches).

(** [om_df['CATEGORY_PRIMARY'].dropna().unique()]: the values that are not
    missing, each once, in the order of first appearance. *)
Fixpoint unique_values (seen : list pystr) (column : list (option pystr)) : list pystr :=
  match column with
  | [] => []
  | None :: t => unique_values seen t
  | Some v :: t =>
      if mem v seen then unique_values seen t
      else v :: unique_values (v :: seen) t
  end.

(** A row of the output: the category and its three best matches; the file
    holds every score rounded to two decimals. *)
Record result := {
  OM_Category : pystr;
  match_1 : fsq_match;
  match_2 : fsq_match;
  match_3 : fsq_match
}.

(** The body of the loop of [main]: [top_matches[0]], [top_matches[1]] and
    [top_matches[2]] raise IndexError on a shorter list, which is [None]. *)
Definition result_row (om_cat : pystr) (fsq_df : list fsq_row) : option result :=
  match find_best_matches om_cat fsq_df 3 with
  | m1 :: m2 :: m3 :: _ =>
      Some {| OM_Category := om_cat; match_1 := m1; match_2 := m2; match_3 := m3 |}
  | _ => None
  end.

(** The loop of [main]: the rows collected in [results], or [None] when an
    iteration raises. *)
Fixpoint main_loop (om_categories : list pystr) (fsq_df : list fsq_row)
    : option (list result) :=
  match om_categories with
  | [] => Some []
  | om_cat :: rest =>
      match result_row om_cat fsq_df with
      | None => None
      | Some r =>
          match main_loop rest fsq_df with
          | None => None
          | Some rs => Some (r :: rs)
          end
      end
  end.

Definition main (fsq_df : list fsq_row) (om_column : list (option pystr))
    : option (list result) :=
  main_loop (unique_values [] om_column) fsq_df.

End MapCategoriesMain.

(** ** category_mapper.py: the columns added by [generate_master_table] *)

Module MasterTable.

Local Open Scope string_scope.
Local Open Scope Q_scope.

(** [master_df['overture_category'].notna()] *)
Definition has_overture_match (m : CategoryMapper.mapping) : bool :=
  match CategoryMapper.overture_category m with Some _ => true | None => false end.

(** [pd.cut(score, bins=[0, 0.3, 0.6, 0.8, 1.0], labels=[...])]: the
    intervals are open on the left and closed on the right, and a score
    outside all of them has no label. *)
Definition match_quality (score : Q) : option pystr :=
  if Qltb 0 score && Qle_bool score (3 # 10) then Some (u "Poor")
  else if Qltb (3 # 10) score && Qle_bool score (6 # 10) then Some (u "Fair")
  else if Qltb (6 # 10) score && Qle_bool score (8 # 10) then Some (u "Good")
  else if Qltb (8 # 10) score && Qle_bool score 1 then Some (u "Excellent")
  else None.

End MasterTable.

(** ** Notions used in the statements below *)

(** A text without white space at either end and without two spaces in a
    row. *)
Definition trimmed (s : pystr) : Prop :=
  match s with [] => True | c :: _ => isspace c = false end
  /\ match rev s with [] => True | c :: _ => isspace c = false end.

Definition single_spaced (s : pystr) : Prop :=
  contains [32%N; 32%N] s = false.

(** Lower-case ASCII letters, digits and the space. *)
Definition alnum_or_space (c : N) : bool :=
  is_lower_az c || is_digit c || (c =? 32)%N.

(** A list of scores in descending order. *)
Definition descending (scores : list Q) : Prop :=
  StronglySorted (fun x y => y <= x) scores.

(** The buckets of the taxonomy flattener. *)
Definition buckets : list pystr :=
  map Simplify.bucket Simplify.rules ++ [Simplify.default_bucket].

(** The row kinds of [find_best_matches] of category_mapper.py: a matched
    row has an Overture category and a positive score, at most 1; an
    unmatched row has neither. *)
Definition row_coherent (m : CategoryMapper.mapping) : Prop :=
  (CategoryMapper.match_type m = u "semantic_group"
   /\ CategoryMapper.overture_category m <> None
   /\ 0 < CategoryMapper.similarity_score m <= 1)
  \/ (CategoryMapper.match_type m = u "direct_match"
      /\ CategoryMapper.semantic_group m = u "none"
      /\ CategoryMapper.overture_category m <> None
      /\ 0 < CategoryMapper.similarity_score m <= 1)
  \/ (CategoryMapper.match_type m = u "no_match"
      /\ CategoryMapper.semantic_group m = u "none"
      /\ CategoryMapper.overture_category m = None
      /\ CategoryMapper.similarity_score m = 0).

(** A block [(besti, bestj, bestsize)] lies inside the window
    [a[alo:ahi]], [b[blo:bhi]]. *)
Definition in_window (alo ahi blo bhi : nat) (x : Difflib.best) : Prop :=
  (alo <= Difflib.besti x
   /\ Difflib.besti x + Difflib.bestsize x <= ahi
   /\ blo <= Difflib.bestj x
   /\ Difflib.bestj x + Difflib.bestsize x <= bhi)%nat.

(** Every length recorded in a [j2len] dictionary is at most [bound], and
    the length recorded at [j] does not reach below [blo]. *)
Definition dict_ok (bound blo : nat) (d : list (nat * nat)) : Prop :=
  forall j, (Difflib.j2len_get d j <= bound
             /\ Difflib.j2len_get d j <= j + 1 - blo)%nat.

(** The Overture labels that the rows of a result set carry as their match. *)
Definition claimed_labels (results : list CategoryMapper.mapping) : list pystr :=
  flat_map (fun m => match CategoryMapper.overture_category m with
                     | Some label => [label]
                     | None => []
                     end) results.

(** An entry of a group list stands for the row of the Overture table at its
    index. *)
Definition ov_entry_ok (overture_data : list pystr) (e : CategoryMapper.ov_cat) : Prop :=
  (CategoryMapper.ov_index e < List.length overture_data)%nat
  /\ nth (CategoryMapper.ov_index e) overture_data [] = CategoryMapper.ov_name e.

Definition groups_ok (overture_data : list pystr)
    (groups : list CategoryMapper.group_data) : Prop :=
  Forall (fun g => Forall (ov_entry_ok overture_data) (CategoryMapper.overture_categories g))
    groups.

(** The invariant of [find_best_matches]: the matched rows of the result set
    carry the labels of pairwise different Overture rows, all of them in
    [matched_overture]. *)
Definition dedup_inv (overture_data : list pystr) (st : CategoryMapper.state) : Prop :=
  exists claimed : list nat,
    NoDup claimed
    /\ (forall i, In i claimed ->
                  CategoryMapper.in_set i (CategoryMapper.matched_overture st) = true
                  /\ (i < List.length overture_data)%nat)
    /\ claimed_labels (CategoryMapper.mapping_results st)
       = map (fun i => nth i overture_data []) claimed.

(** A word of a normalized text: not empty, and every character satisfies
    [ok] and is not white space. *)
Definition token (ok : N -> bool) (w : pystr) : Prop :=
  w <> [] /\ Forall (fun c => ok c = true /\ isspace c = false) w.

(** A text in normal form: words of [ok] characters joined by single spaces. *)
Definition normal_form (ok : N -> bool) (s : pystr) : Prop :=
  exists ws, Forall (token ok) ws /\ s = join [32%N] ws.

(** The characters that [normalize_text] of category_mapper.py leaves in a
    word: lower-case letters and digits. *)
Definition plain (c : N) : bool := is_lower_az c || is_digit c || (c =? 233)%N.

(** The characters that [normalize_text] of map_categories.py leaves in a
    word: anything that [lower] does not change, but the underscore. *)
Definition lowered (c : N) : bool := (lower_cp c =? c)%N && negb (c =? 95)%N.

(** The candidate texts and their row numbers go in pairs, every row number
    is the number of a row read so far, and no candidate text is empty. *)
Definition tables_ok (st : list OmToFsqMap.FSQCategory * list pystr * list nat) : Prop :=
  List.length (snd (fst st)) = List.length (snd st)
  /\ Forall (fun i => (i < List.length (fst (fst st)))%nat) (snd st)
  /\ Forall (fun t => t <> []) (snd (fst st)).

(** The candidates that [choose_best_matches] searches: those of the allowed
    rows, or all of them when no candidate is allowed. *)
Definition search_space (candidate_texts : list pystr) (candidate_to_index : list nat)
    (allowed_fsq_indices : option (list nat)) : list pystr * list nat :=
  match allowed_fsq_indices with
  | Some allowed =>
      match filter (fun ti => OmToFsqMap.in_set (snd ti) allowed)
              (combine candidate_texts candidate_to_index) with
      | [] => (candidate_texts, candidate_to_index)
      | _ :: _ =>
          (map fst (filter (fun ti => OmToFsqMap.in_set (snd ti) allowed)
                      (combine candidate_texts candidate_to_index)),
           map snd (filter (fun ti => OmToFsqMap.in_set (snd ti) allowed)
                      (combine candidate_texts candidate_to_index)))
      end
  | None => (candidate_texts, candidate_to_index)
  end.

(** Stand-ins for the RapidFuzz scorers and for the iteration order of a
    set, used to run the scripts on sample inputs: a scorer that gives 100 to
    equal strings and 0 to different ones, and sets iterated in insertion
    order. *)
Module Sample.

Definition scorer (x y : pystr) : Q := if str_eqb x y then 100 else 0.

Definition set_iter (l : list nat) : list nat := nodup Nat.eq_dec l.

Definition fmt1 (x : Q) : pystr := [].

Local Open Scope string_scope.

(** An FSQ file with a single category, for map_om_to_fsq.py and for
    om_to_fsq_map.py. *)
Definition fsq_file : list MapOmToFsq.csv_fsq :=
  [ {| MapOmToFsq.csv_id := u "13032";
       MapOmToFsq.csv_label := u "Dining and Drinking > Cafe";
       MapOmToFsq.csv_primary := u "Dining and Drinking";
       MapOmToFsq.csv_secondary := u "Cafe" |} ].

Definition fsq_file' : list OmToFsqMap.csv_fsq :=
  [ {| OmToFsqMap.csv_id := u "13032";
       OmToFsqMap.csv_label := u "Dining and Drinking > Cafe";
       OmToFsqMap.csv_primary := u "Dining and Drinking";
       OmToFsqMap.csv_secondary := u "Cafe" |} ].

Definition om_row (label : string) : OmToFsqMap.om_row :=
  {| OmToFsqMap.CATEGORY_LABEL := u label;
     OmToFsqMap.SIMPLIFIED_CATEGORY := u "Food & Dining";
     OmToFsqMap.UPDATED_CATEGORY := u "Food & Dining" |}.


(** Tables for category_mapper.py. *)
Definition fsq (id name label : string) : CategoryMapper.fsq_row :=
  {| CategoryMapper.category_id := u id;
     CategoryMapper.category_name := u name;
     CategoryMapper.category_label := u label |}.

Definition coffee_shop : list CategoryMapper.fsq_row :=
  [ fsq "1" "Coffee Shop" "Dining and Drinking > Cafe > Coffee Shop" ].

Definition cafes : list CategoryMapper.fsq_row :=
  [ fsq "1" "Cafe" "Dining and Drinking > Cafe";
    fsq "2" "Cafes" "Dining and Drinking > Cafes" ].

(** The columns of a result row that the claims speak of. *)
Definition summary (m : CategoryMapper.mapping)
    : pystr * option pystr * Q * pystr :=
  (CategoryMapper.foursquare_id m, CategoryMapper.overture_category m,
   Qred (CategoryMapper.similarity_score m), CategoryMapper.semantic_group m).

End Sample.

(** * Properties *)

(** ** Strings *)

Lemma str_eqb_eq (a b : pystr) : str_eqb a b = true <-> a = b.
Proof.
  revert b; induction a as [|x a IH]; intros [|y b]; simpl; split; intro H;
    try reflexivity; try discriminate.
  - apply andb_true_iff in H as [Hx Hs]. apply N.eqb_eq in Hx. apply IH in Hs.
    now subst.
  - injection H as -> ->. rewrite N.eqb_refl. now apply IH.
Qed.

Lemma str_eqb_refl (a : pystr) : str_eqb a a = true.
Proof. now apply str_eqb_eq. Qed.

Lemma str_eqb_sym (a b : pystr) : str_eqb a b = str_eqb b a.
Proof.
  destruct (str_eqb a b) eqn:E.
  - apply str_eqb_eq in E; subst; now rewrite str_eqb_refl.
  - destruct (str_eqb b a) eqn:E'; [|reflexivity].
    apply str_eqb_eq in E'; subst. now rewrite str_eqb_refl in E.
Qed.

Lemma mem_In (x : pystr) (xs : list pystr) : mem x xs = true <-> In x xs.
Proof.
  unfold mem. rewrite existsb_exists. split.
  - intros (y & Hy & E). apply str_eqb_eq in E. now subst.
  - intro H. exists x. split; [assumption | apply str_eqb_refl].
Qed.

Lemma startswith_refl (a : pystr) : startswith a a = true.
Proof. induction a; simpl; [reflexivity | now rewrite N.eqb_refl]. Qed.

Lemma startswith_app (a b s : pystr) :
  startswith (a ++ b) s = true -> startswith a s = true.
Proof.
  revert s; induction a as [|x a IH]; intros s H; [reflexivity|].
  destruct s as [|y s]; simpl in *; [discriminate|].
  apply andb_true_iff in H as [-> H]. now apply IH.
Qed.

Lemma contains_refl (a : pystr) : contains a a = true.
Proof. destruct a; simpl; [reflexivity | now rewrite N.eqb_refl, startswith_refl]. Qed.

Lemma contains_nil (s : pystr) : contains [] s = true.
Proof. destruct s; reflexivity. Qed.

Lemma contains_app (a b s : pystr) :
  contains (a ++ b) s = true -> contains a s = true.
Proof.
  induction s as [|y s IH]; intro H.
  - simpl in H. rewrite orb_false_r in H.
    apply startswith_app in H. simpl. now rewrite H.
  - change (startswith (a ++ b) (y :: s) || contains (a ++ b) s = true) in H.
    change (startswith a (y :: s) || contains a s = true).
    apply orb_true_iff in H as [H|H]; apply orb_true_iff.
    + left. now apply startswith_app in H.
    + right. now apply IH.
Qed.

(** ** The taxonomy flattener *)

Lemma wholesaler_never_alone (cat : pystr) :
  contains (u "wholesaler") cat && negb (contains (u "wholesale") cat) = false.
Proof.
  destruct (contains (u "wholesaler") cat) eqn:E; [|reflexivity].
  change (u "wholesaler") with (u "wholesale" ++ u "r") in E.
  apply contains_app in E. now rewrite E.
Qed.

(** C9: [get_simplified_category] reads its rules in the fixed order of the
    table [rules], returns the bucket of the first rule that matches the
    lower-cased label and the default bucket "Other Services" when none does;
    the three labels of the specification fall in the stated buckets. *)
Theorem get_simplified_category_first_match :
  (forall category,
     Simplify.get_simplified_category category
     = Simplify.first_match (lower category))
  /\ (forall cat,
        forallb (fun r => negb (Simplify.rule_matches cat r)) Simplify.rules = true ->
        Simplify.first_match cat = u "Other Services")
  /\ Simplify.get_simplified_category (u "fast_food_restaurant") = u "Food & Dining"
  /\ Simplify.get_simplified_category (u "veterinarian") = u "Healthcare & Medical"
  /\ Simplify.get_simplified_category (u "totally_unknown_xyz") = u "Other Services".
Proof.
  split; [|split; [|repeat split; vm_compute; reflexivity]].
  - intro category.
    unfold Simplify.get_simplified_category, Simplify.first_match, Simplify.rules.
    cbv zeta. generalize (lower category) as cat. intro cat.
    cbn [find]. unfold Simplify.rule_matches.
    cbn [Simplify.keywords Simplify.exclusions Simplify.bucket].
    change (Simplify.none_in [] cat) with true.
    rewrite !andb_true_r.
    repeat match goal with
           | |- (if ?c then _ else _) = _ => destruct c; [reflexivity|]
           end.
    rewrite wholesaler_never_alone. unfold Simplify.any_in. cbn [existsb map].
    rewrite !orb_false_r, <- !orb_assoc.
    destruct (_ || _); reflexivity.
  - intros cat H. unfold Simplify.first_match.
    destruct (find (Simplify.rule_matches cat) Simplify.rules) as [r|] eqn:E;
      [|reflexivity].
    apply find_some in E as [Hin Hr].
    rewrite forallb_forall in H. apply H in Hin. now rewrite Hr in Hin.
Qed.

Lemma get_simplified_category_first_match_witness :
  Simplify.first_match (u "totally_unknown_xyz") = u "Other Services".
Proof.
  apply (proj1 (proj2 get_simplified_category_first_match)).
  vm_compute. reflexivity.
Defined.

(** ** difflib: every matching block lies in its window, so the ratio is a
    number between 0 and 1 *)

Section DifflibBounds.

Import Difflib.
Local Open Scope nat_scope.

Variables a b : pystr.

Lemma dict_ok_nil (bound blo : nat) : dict_ok bound blo [].
Proof. intro j; simpl; lia. Qed.

Lemma flm_row_inv (i alo ahi blo bhi : nat) (j2len : list (nat * nat)) (js : list nat) :
  alo <= i < ahi ->
  dict_ok (i - alo) blo j2len ->
  forall newj2len bst,
    dict_ok (i + 1 - alo) blo newj2len ->
    in_window alo ahi blo bhi bst ->
    dict_ok (i + 1 - alo) blo (fst (flm_row i blo bhi j2len js newj2len bst))
    /\ in_window alo ahi blo bhi (snd (flm_row i blo bhi j2len js newj2len bst)).
Proof.
  intros Hi Hd. induction js as [|j js IH]; intros newj2len bst Hn Hb; simpl.
  - split; assumption.
  - destruct (j <? blo) eqn:Ejb; [now apply IH|].
    destruct (bhi <=? j) eqn:Ejh; [split; assumption|].
    apply Nat.ltb_ge in Ejb. apply Nat.leb_gt in Ejh.
    set (k := (match j with O => 0 | S j1 => j2len_get j2len j1 end) + 1).
    assert (Hk : 1 <= k /\ k <= i + 1 - alo /\ k <= j + 1 - blo).
    { subst k. destruct j as [|j1].
      - lia.
      - destruct (Hd j1) as [H1 H2]. lia. }
    apply IH.
    + intro j'. simpl. destruct (Nat.eqb j j') eqn:E.
      * apply Nat.eqb_eq in E. subst j'. lia.
      * apply Hn.
    + destruct (bestsize bst <? k); [|assumption].
      unfold in_window; simpl. lia.
Qed.

Lemma flm_rows_inv (alo ahi blo bhi : nat) (n : nat) :
  forall i j2len bst,
    alo <= i -> i + n <= ahi ->
    dict_ok (i - alo) blo j2len ->
    in_window alo ahi blo bhi bst ->
    in_window alo ahi blo bhi (flm_rows a b blo bhi (seq i n) j2len bst).
Proof.
  induction n as [|n IH]; intros i j2len bst Hlo Hhi Hd Hb; simpl; [assumption|].
  destruct (flm_row i blo bhi j2len (b2j b (nth i a 0%N)) [] bst) as [nj bst'] eqn:E.
  assert (H := @flm_row_inv i alo ahi blo bhi j2len (b2j b (nth i a 0%N))
                 ltac:(lia) Hd [] bst (dict_ok_nil _ _) Hb).
  rewrite E in H. simpl in H. destruct H as [Hn Hb'].
  apply IH; try lia; [|assumption].
  replace (S i - alo) with (i + 1 - alo) by lia. assumption.
Qed.

Lemma extend_left_inv (alo ahi blo bhi : nat) (n : nat) :
  forall bst, in_window alo ahi blo bhi bst ->
              in_window alo ahi blo bhi (extend_left a b alo blo n bst).
Proof.
  induction n as [|n IH]; intros bst Hb; simpl; [assumption|].
  destruct ((alo <? besti bst) && (blo <? bestj bst)
            && N.eqb (nth (besti bst - 1) a 0%N) (nth (bestj bst - 1) b 0%N)) eqn:E;
    [|assumption].
  apply andb_true_iff in E as [E _]. apply andb_true_iff in E as [E1 E2].
  apply Nat.ltb_lt in E1, E2. apply IH.
  unfold in_window in *; simpl. lia.
Qed.

Lemma extend_right_inv (alo ahi blo bhi : nat) (n : nat) :
  forall bst, in_window alo ahi blo bhi bst ->
              in_window alo ahi blo bhi (extend_right a b ahi bhi n bst).
Proof.
  induction n as [|n IH]; intros bst Hb; simpl; [assumption|].
  destruct ((besti bst + bestsize bst <? ahi) && (bestj bst + bestsize bst <? bhi)
            && N.eqb (nth (besti bst + bestsize bst) a 0%N)
                     (nth (bestj bst + bestsize bst) b 0%N)) eqn:E;
    [|assumption].
  apply andb_true_iff in E as [E _]. apply andb_true_iff in E as [E1 E2].
  apply Nat.ltb_lt in E1, E2. apply IH.
  unfold in_window in *; simpl. lia.
Qed.

Lemma find_longest_match_in_window (alo ahi blo bhi : nat) :
  alo <= ahi -> blo <= bhi ->
  in_window alo ahi blo bhi (find_longest_match a b alo ahi blo bhi).
Proof.
  intros Ha Hb. unfold find_longest_match.
  apply extend_right_inv, extend_left_inv, flm_rows_inv; try lia.
  - apply dict_ok_nil.
  - unfold in_window; simpl; lia.
Qed.

Lemma matching_size_le (fuel : nat) :
  forall alo ahi blo bhi,
    alo <= ahi -> blo <= bhi ->
    matching_size fuel a b alo ahi blo bhi <= Nat.min (ahi - alo) (bhi - blo).
Proof.
  induction fuel as [|fuel IH]; intros alo ahi blo bhi Ha Hb; simpl; [lia|].
  destruct (find_longest_match_in_window Ha Hb) as (H1 & H2 & H3 & H4).
  set (x := find_longest_match a b alo ahi blo bhi) in *.
  destruct (bestsize x =? 0); [lia|].
  assert (L : (if (alo <? besti x) && (blo <? bestj x)
               then matching_size fuel a b alo (besti x) blo (bestj x) else 0)
              <= Nat.min (besti x - alo) (bestj x - blo)).
  { destruct ((alo <? besti x) && (blo <? bestj x)); [apply IH; lia | lia]. }
  assert (R : (if (besti x + bestsize x <? ahi) && (bestj x + bestsize x <? bhi)
               then matching_size fuel a b (besti x + bestsize x) ahi
                      (bestj x + bestsize x) bhi else 0)
              <= Nat.min (ahi - (besti x + bestsize x)) (bhi - (bestj x + bestsize x))).
  { destruct ((besti x + bestsize x <? ahi) && (bestj x + bestsize x <? bhi));
      [apply IH; lia | lia]. }
  lia.
Qed.

(** The depth bound of [matching_size] is never reached: any two bounds
    above the length of the part of [a] give the same blocks. *)
Lemma matching_size_fuel (fuel1 : nat) :
  forall fuel2 alo ahi blo bhi,
    alo <= ahi -> blo <= bhi ->
    ahi - alo < fuel1 -> ahi - alo < fuel2 ->
    matching_size fuel1 a b alo ahi blo bhi = matching_size fuel2 a b alo ahi blo bhi.
Proof.
  induction fuel1 as [|fuel1 IH]; intros fuel2 alo ahi blo bhi Ha Hb F1 F2; [lia|].
  destruct fuel2 as [|fuel2]; [lia|]. simpl.
  destruct (find_longest_match_in_window Ha Hb) as (H1 & H2 & H3 & H4).
  set (x := find_longest_match a b alo ahi blo bhi) in *.
  destruct (bestsize x =? 0) eqn:Ek; [reflexivity|].
  apply Nat.eqb_neq in Ek.
  f_equal; [f_equal|].
  - destruct ((alo <? besti x) && (blo <? bestj x)); [apply IH; lia | reflexivity].
  - destruct ((besti x + bestsize x <? ahi) && (bestj x + bestsize x <? bhi));
      [apply IH; lia | reflexivity].
Qed.

Lemma matches_le : matches a b <= Nat.min (List.length a) (List.length b).
Proof.
  unfold matches.
  pose proof (@matching_size_le (S (List.length a)) 0 (List.length a) 0 (List.length b)
                ltac:(lia) ltac:(lia)). lia.
Qed.

Lemma ratio_range : (0 <= ratio a b <= 1)%Q.
Proof.
  unfold ratio, calculate_ratio. pose proof matches_le as M.
  destruct (List.length a + List.length b) as [|n] eqn:E.
  - split; unfold Qle; simpl; lia.
  - unfold Qle. cbn [Qnum Qden].
    rewrite <- Pos.of_nat_succ, Zpos_P_of_succ_nat. lia.
Qed.

End DifflibBounds.

(** ** Scores *)

Local Open Scope Q_scope.

Lemma Qltb_lt (x y : Q) : Qltb x y = true <-> x < y.
Proof.
  unfold Qltb. rewrite negb_true_iff. split; intro H.
  - apply Qnot_le_lt. intro L. apply Qle_bool_iff in L. congruence.
  - destruct (Qle_bool y x) eqn:E; [|reflexivity].
    apply Qle_bool_iff in E. exfalso. apply (Qlt_not_le _ _ H E).
Qed.

Lemma Qltb_ge (x y : Q) : Qltb x y = false <-> y <= x.
Proof.
  unfold Qltb. rewrite negb_false_iff. apply Qle_bool_iff.
Qed.

Lemma py_min_le_r (x y : Q) : py_min x y <= y.
Proof.
  unfold py_min. destruct (Qltb y x) eqn:E; [apply Qle_refl|].
  now apply Qltb_ge in E.
Qed.

Lemma py_min_ge (x y z : Q) : z <= x -> z <= y -> z <= py_min x y.
Proof. intros Hx Hy. unfold py_min. now destruct (Qltb y x). Qed.

Lemma Qnat_nonneg (n : nat) : 0 <= Qnat n.
Proof. unfold Qnat, Qle; simpl; lia. Qed.

Lemma Qnat_pos (n : nat) : (0 < n)%nat -> 0 < Qnat n.
Proof. intro H. unfold Qnat, Qlt; simpl; lia. Qed.

Lemma Qnat_le (n m : nat) : (n <= m)%nat -> Qnat n <= Qnat m.
Proof. intro H. unfold Qnat, Qle; simpl; lia. Qed.

(** A count over a part, divided by the count over the whole. *)
Lemma Qnat_fraction (n m : nat) :
  (n <= m)%nat -> (0 < m)%nat -> 0 <= Qnat n / Qnat m <= 1.
Proof.
  intros Hnm Hm. pose proof (Qnat_pos Hm) as Pm. split.
  - apply Qle_shift_div_l; [assumption|]. rewrite Qmult_0_l. apply Qnat_nonneg.
  - apply Qle_shift_div_r; [assumption|]. rewrite Qmult_1_l. now apply Qnat_le.
Qed.

Lemma Qnat_fraction_self (m : nat) : (0 < m)%nat -> Qnat m / Qnat m == 1.
Proof.
  intro Hm. pose proof (Qnat_pos Hm) as Pm. field. intro E. rewrite E in Pm.
  now apply Qlt_irrefl in Pm.
Qed.

Lemma filter_length_le {A : Type} (f : A -> bool) (l : list A) :
  (List.length (filter f l) <= List.length l)%nat.
Proof. induction l as [|x l IH]; simpl; [lia | destruct (f x); simpl; lia]. Qed.

Lemma filter_all {A : Type} (f : A -> bool) (l : list A) :
  (forall x, In x l -> f x = true) -> filter f l = l.
Proof.
  induction l as [|x l IH]; intro H; simpl; [reflexivity|].
  rewrite (H x (or_introl eq_refl)). f_equal. apply IH. intros y Hy. apply H. now right.
Qed.

(** *** map_categories.py *)

Lemma mc_direct_similarity_range (x y : pystr) :
  0 <= MapCategories.direct_similarity x y <= 100.
Proof.
  unfold MapCategories.direct_similarity.
  destruct (ratio_range x y) as [H0 H1]. split; lra.
Qed.

Lemma mc_keyword_overlap_range (xs ys : list pystr) :
  0 <= MapCategories.keyword_overlap xs ys <= 100.
Proof.
  unfold MapCategories.keyword_overlap.
  destruct xs as [|x xs]; [split; lra|]. destruct ys as [|y ys]; [split; lra|].
  assert (F : 0 <= Qnat (List.length (MapCategories.inter (x :: xs) (y :: ys)))
                   / Qnat (List.length (x :: xs)) <= 1).
  { apply Qnat_fraction; [apply filter_length_le | simpl; lia]. }
  destruct F; split; lra.
Qed.

Lemma mc_keyword_overlap_self (xs : list pystr) :
  MapCategories.keyword_overlap xs xs == match xs with [] => 0 | _ => 100 end.
Proof.
  unfold MapCategories.keyword_overlap. destruct xs as [|x xs]; [reflexivity|].
  unfold MapCategories.inter. rewrite filter_all.
  - rewrite Qnat_fraction_self by (simpl; lia). lra.
  - intros w Hw. now apply mem_In.
Qed.

Lemma mc_containment_bonus_range (x y : pystr) (ks : list pystr) :
  0 <= MapCategories.containment_bonus x y ks <= 30.
Proof.
  unfold MapCategories.containment_bonus.
  destruct (contains x y); [split; lra|].
  destruct (existsb _ _); split; lra.
Qed.

Lemma mc_calculate_similarity_range (om_category fsq_label : option pystr) :
  0 <= MapCategories.calculate_similarity om_category fsq_label <= 86.
Proof.
  unfold MapCategories.calculate_similarity. cbv zeta.
  pose proof (mc_direct_similarity_range (MapCategories.normalize_text om_category)
                (MapCategories.normalize_text fsq_label)) as [D0 D1].
  pose proof (mc_keyword_overlap_range
                (MapCategories.extract_keywords (MapCategories.normalize_text om_category))
                (MapCategories.extract_keywords (MapCategories.normalize_text fsq_label)))
    as [K0 K1].
  pose proof (mc_containment_bonus_range (MapCategories.normalize_text om_category)
                (MapCategories.normalize_text fsq_label)
                (MapCategories.extract_keywords (MapCategories.normalize_text om_category)))
    as [C0 C1].
  split; lra.
Qed.

(** Without an exact-match branch, two labels with the same normalized text
    [n] score 40 times the sequence ratio of [n] with itself, plus 46 when
    [n] has a keyword and plus 6 when it has none. *)
Lemma mc_same_normalized (x y : option pystr) :
  MapCategories.normalize_text x = MapCategories.normalize_text y ->
  MapCategories.calculate_similarity x y
  == Difflib.ratio (MapCategories.normalize_text x) (MapCategories.normalize_text x) * 40
     + match MapCategories.extract_keywords (MapCategories.normalize_text x) with
       | [] => 6
       | _ => 46
       end.
Proof.
  intro E. unfold MapCategories.calculate_similarity. cbv zeta. rewrite <- E.
  rewrite mc_keyword_overlap_self.
  unfold MapCategories.containment_bonus, MapCategories.direct_similarity.
  rewrite contains_refl.
  destruct (MapCategories.extract_keywords (MapCategories.normalize_text x)); lra.
Qed.

(** *** category_mapper.py *)

Lemma cm_word_similarity_range (x y : pystr) :
  0 <= CategoryMapper.word_similarity x y <= 1.
Proof.
  unfold CategoryMapper.word_similarity. cbv zeta.
  set (w1 := dedup (split x)). set (w2 := dedup (split y)).
  assert (G : 0 <= match List.length (CategoryMapper.union w1 w2) with
                   | O => 0
                   | S _ => Qnat (List.length (CategoryMapper.intersection w1 w2))
                            / Qnat (List.length (CategoryMapper.union w1 w2))
                   end <= 1).
  { destruct (List.length (CategoryMapper.union w1 w2)) eqn:L; [split; lra|].
    rewrite <- L. apply Qnat_fraction; [|lia].
    unfold CategoryMapper.intersection, CategoryMapper.union.
    rewrite length_app. pose proof (filter_length_le (fun w => mem w w2) w1). lia. }
  destruct w1, w2; exact G.
Qed.

Lemma cm_containment_bonus_range (x y : pystr) :
  0 <= CategoryMapper.containment_bonus x y <= 2 # 10.
Proof.
  unfold CategoryMapper.containment_bonus. destruct (_ || _); split; lra.
Qed.

Lemma cm_score_range (text1 text2 : pystr) :
  0 <= CategoryMapper.calculate_similarity_score text1 text2 <= 1.
Proof.
  unfold CategoryMapper.calculate_similarity_score.
  destruct text1 as [|c1 t1]; [split; lra|].
  destruct text2 as [|c2 t2]; [split; lra|].
  cbv zeta.
  match goal with
  | |- context [str_eqb ?x ?y] => set (n1 := x); set (n2 := y)
  end.
  clearbody n1 n2. destruct (str_eqb n1 n2); [split; lra|].
  split; [|apply py_min_le_r].
  apply py_min_ge; [|lra].
  unfold CategoryMapper.seq_similarity.
  pose proof (ratio_range n1 n2) as [R0 R1].
  pose proof (cm_word_similarity_range n1 n2) as [W0 W1].
  pose proof (cm_containment_bonus_range n1 n2) as [B0 B1].
  lra.
Qed.

Lemma cm_score_empty (text : pystr) :
  CategoryMapper.calculate_similarity_score [] text = 0
  /\ CategoryMapper.calculate_similarity_score text [] = 0.
Proof. split; [reflexivity | destruct text; reflexivity]. Qed.

Lemma cm_score_exact (text1 text2 : pystr) :
  text1 <> [] -> text2 <> [] ->
  CategoryMapper.normalize_text (Some text1) = CategoryMapper.normalize_text (Some text2) ->
  CategoryMapper.calculate_similarity_score text1 text2 = 1.
Proof.
  intros H1 H2 E. unfold CategoryMapper.calculate_similarity_score.
  destruct text1; [congruence|]. destruct text2; [congruence|].
  cbv zeta. rewrite E, str_eqb_refl. reflexivity.
Qed.

(** *** Sets of words *)

Lemma dedup_In (x : pystr) (ws : list pystr) : In x (dedup ws) <-> In x ws.
Proof.
  induction ws as [|w ws IH]; simpl; [tauto|].
  destruct (mem w ws) eqn:E.
  - rewrite IH. split; [now right|]. intros [<-|H]; [now apply mem_In | assumption].
  - simpl. now rewrite IH.
Qed.

Lemma dedup_NoDup (ws : list pystr) : NoDup (dedup ws).
Proof.
  induction ws as [|w ws IH]; simpl; [constructor|].
  destruct (mem w ws) eqn:E; [assumption|].
  constructor; [|assumption].
  rewrite dedup_In, <- mem_In. congruence.
Qed.

Lemma filter_split_length {A : Type} (f : A -> bool) (l : list A) :
  (List.length (filter f l) + List.length (filter (fun x => negb (f x)) l)
   = List.length l)%nat.
Proof.
  induction l as [|x l IH]; simpl; [reflexivity|].
  destruct (f x); simpl; lia.
Qed.

Lemma intersection_length_sym (xs ys : list pystr) :
  NoDup xs -> NoDup ys ->
  List.length (CategoryMapper.intersection xs ys)
  = List.length (CategoryMapper.intersection ys xs).
Proof.
  assert (H : forall xs ys : list pystr,
             NoDup xs ->
             (List.length (CategoryMapper.intersection xs ys)
              <= List.length (CategoryMapper.intersection ys xs))%nat).
  { clear. intros xs ys Nx. apply NoDup_incl_length.
    - now apply NoDup_filter.
    - intros w Hw. unfold CategoryMapper.intersection in *.
      apply filter_In in Hw as [Hx Hy]. apply filter_In. split.
      + now apply mem_In.
      + now apply mem_In. }
  intros Nx Ny. apply Nat.le_antisymm; now apply H.
Qed.

Lemma union_length (xs ys : list pystr) :
  (List.length (CategoryMapper.union xs ys) + List.length (CategoryMapper.intersection ys xs)
   = List.length xs + List.length ys)%nat.
Proof.
  unfold CategoryMapper.union, CategoryMapper.intersection. rewrite length_app.
  pose proof (filter_split_length (fun w => mem w xs) ys). lia.
Qed.

Lemma union_length_sym (xs ys : list pystr) :
  NoDup xs -> NoDup ys ->
  List.length (CategoryMapper.union xs ys) = List.length (CategoryMapper.union ys xs).
Proof.
  intros Nx Ny. pose proof (union_length xs ys). pose proof (union_length ys xs).
  pose proof (intersection_length_sym Nx Ny). lia.
Qed.

Lemma cm_word_similarity_sym (x y : pystr) :
  CategoryMapper.word_similarity x y = CategoryMapper.word_similarity y x.
Proof.
  unfold CategoryMapper.word_similarity. cbv zeta.
  pose proof (dedup_NoDup (split x)) as Nx. pose proof (dedup_NoDup (split y)) as Ny.
  rewrite (union_length_sym Nx Ny), (intersection_length_sym Nx Ny).
  destruct (dedup (split x)), (dedup (split y)); reflexivity.
Qed.

(** ** The claims on the similarity scorers *)

(** C1, as stated, fails: the labels "Coffee Shop" and "coffee_shop" have the
    same normalized text, and [calculate_similarity] of map_categories.py
    scores them 86, not 100; two empty labels have the same normalized text
    and [calculate_similarity_score] of category_mapper.py scores them 0. *)
Lemma identical_normalized_not_max :
  MapCategories.normalize_text (Some (u "Coffee Shop"))
  = MapCategories.normalize_text (Some (u "coffee_shop"))
  /\ MapCategories.calculate_similarity (Some (u "Coffee Shop")) (Some (u "coffee_shop"))
     == 86
  /\ ~ MapCategories.calculate_similarity (Some (u "Coffee Shop")) (Some (u "coffee_shop"))
       == 100
  /\ CategoryMapper.normalize_text (Some []) = CategoryMapper.normalize_text (Some [])
  /\ CategoryMapper.calculate_similarity_score [] [] = 0.
Proof.
  split; [vm_compute; reflexivity|].
  split; [vm_compute; reflexivity|].
  split; [vm_compute; discriminate|].
  split; reflexivity.
Qed.

(** C1, amended: in category_mapper.py two non-empty labels with the same
    normalized text score 1.0 through the exact-match branch (so do
    "Coffee Shop" and "coffee_shop"); map_categories.py has no such branch, and
    two labels with the same normalized text [n] score
    [40 * ratio(n, n) + 46] when [n] has a keyword and [40 * ratio(n, n) + 6]
    when it has none, which is at most 86. *)
Theorem identical_normalized_scores (text1 text2 : pystr) :
  (text1 <> [] -> text2 <> [] ->
   CategoryMapper.normalize_text (Some text1) = CategoryMapper.normalize_text (Some text2) ->
   CategoryMapper.calculate_similarity_score text1 text2 = 1)
  /\ (MapCategories.normalize_text (Some text1) = MapCategories.normalize_text (Some text2) ->
      MapCategories.calculate_similarity (Some text1) (Some text2)
      == Difflib.ratio (MapCategories.normalize_text (Some text1))
           (MapCategories.normalize_text (Some text1)) * 40
         + match MapCategories.extract_keywords
                   (MapCategories.normalize_text (Some text1)) with
           | [] => 6
           | _ => 46
           end
      /\ MapCategories.calculate_similarity (Some text1) (Some text2) <= 86).
Proof.
  split.
  - apply cm_score_exact.
  - intro E. split.
    + now apply mc_same_normalized.
    + apply mc_calculate_similarity_range.
Qed.

Lemma identical_normalized_scores_witness :
  CategoryMapper.calculate_similarity_score (u "Coffee Shop") (u "coffee_shop") = 1
  /\ MapCategories.calculate_similarity (Some (u "Coffee Shop")) (Some (u "coffee_shop"))
     <= 86.
Proof.
  destruct (identical_normalized_scores (u "Coffee Shop") (u "coffee_shop")) as [H1 H2].
  split.
  - apply H1; [discriminate | discriminate | vm_compute; reflexivity].
  - apply H2. vm_compute. reflexivity.
Defined.

(** C4: both scores stay in their range, 0 to 100 for [calculate_similarity]
    of map_categories.py (which never exceeds 86) and 0 to 1 for
    [calculate_similarity_score] of category_mapper.py, and the latter is 0
    when either label is empty; but [calculate_similarity] of
    map_categories.py scores the empty label against "x" at 6, not 0, because
    the empty string is contained in every string (the other way round the
    score is 0). *)
Theorem similarity_scores_bounded :
  (forall om_category fsq_label,
     0 <= MapCategories.calculate_similarity om_category fsq_label <= 100)
  /\ (forall text1 text2,
        0 <= CategoryMapper.calculate_similarity_score text1 text2 <= 1)
  /\ (forall text,
        CategoryMapper.calculate_similarity_score [] text = 0
        /\ CategoryMapper.calculate_similarity_score text [] = 0)
  /\ MapCategories.calculate_similarity (Some []) (Some (u "x")) == 6
  /\ MapCategories.calculate_similarity (Some (u "x")) (Some []) == 0.
Proof.
  split; [|split; [|split; [|split]]].
  - intros x y. destruct (mc_calculate_similarity_range x y). split; lra.
  - apply cm_score_range.
  - apply cm_score_empty.
  - vm_compute. reflexivity.
  - vm_compute. reflexivity.
Qed.

(** C7, as stated, fails: the keyword-overlap ratio of map_categories.py
    divides by the number of keywords of its first argument, so the keywords
    of "coffee shop" against those of "coffee" give 50 and the other way round
    100; the sequence ratio of difflib is not symmetric either ("tide" against
    "diet" is 1/4, "diet" against "tide" is 1/2). *)
Lemma keyword_overlap_not_symmetric :
  MapCategories.keyword_overlap
    (MapCategories.extract_keywords (u "coffee shop"))
    (MapCategories.extract_keywords (u "coffee")) == 50
  /\ MapCategories.keyword_overlap
       (MapCategories.extract_keywords (u "coffee"))
       (MapCategories.extract_keywords (u "coffee shop")) == 100
  /\ ~ MapCategories.keyword_overlap
         (MapCategories.extract_keywords (u "coffee shop"))
         (MapCategories.extract_keywords (u "coffee"))
       == MapCategories.keyword_overlap
            (MapCategories.extract_keywords (u "coffee"))
            (MapCategories.extract_keywords (u "coffee shop"))
  /\ Difflib.ratio (u "tide") (u "diet") == 1 # 4
  /\ Difflib.ratio (u "diet") (u "tide") == 1 # 2.
Proof.
  split; [vm_compute; reflexivity|].
  split; [vm_compute; reflexivity|].
  split; [vm_compute; discriminate|].
  split; vm_compute; reflexivity.
Qed.

(** C7, amended: in category_mapper.py the token-overlap component (words in
    common over words in either text) and the containment bonus are the same
    for (a, b) and (b, a). *)
Theorem word_similarity_symmetric (norm_text1 norm_text2 : pystr) :
  CategoryMapper.word_similarity norm_text1 norm_text2
  = CategoryMapper.word_similarity norm_text2 norm_text1
  /\ CategoryMapper.containment_bonus norm_text1 norm_text2
     = CategoryMapper.containment_bonus norm_text2 norm_text1.
Proof.
  split; [apply cm_word_similarity_sym|].
  unfold CategoryMapper.containment_bonus. now rewrite orb_comm.
Qed.

(** ** map_om_to_fsq.py and filter_needs_review.py *)

Lemma needs_review_true (s0 : Q) :
  MapOmToFsq.needs_review s0 = u "TRUE" <-> s0 < 80.
Proof.
  unfold MapOmToFsq.needs_review. destruct (Qltb s0 80) eqn:E.
  - apply Qltb_lt in E. tauto.
  - apply Qltb_ge in E. split; [discriminate|].
    intro H. exfalso. apply (Qlt_not_le _ _ H E).
Qed.

Lemma needs_review_false (s0 : Q) :
  MapOmToFsq.needs_review s0 = u "FALSE" <-> 80 <= s0.
Proof.
  unfold MapOmToFsq.needs_review. destruct (Qltb s0 80) eqn:E.
  - apply Qltb_lt in E. split; [discriminate|].
    intro H. exfalso. apply (Qlt_not_le _ _ E H).
  - apply Qltb_ge in E. tauto.
Qed.

Lemma match_one_length
    (token_set_ratio partial_ratio : pystr -> pystr -> Q)
    (set_iter : list nat -> list nat) (query_label : pystr)
    (fsq_rows : list MapOmToFsq.fsq_row) (topn : nat) :
  (List.length (MapOmToFsq.match_one token_set_ratio partial_ratio set_iter
                  query_label fsq_rows topn) <= topn)%nat.
Proof. unfold MapOmToFsq.match_one. cbv zeta. apply firstn_le_length. Qed.

(** The unpacking succeeds on a list of at most three matches, which the
    padding loop brings to three pairs. *)
Lemma write_row_some (fsq_rows : list MapOmToFsq.fsq_row) (om_label : pystr)
    (matches : list (nat * Q)) :
  (List.length matches <= 3)%nat ->
  exists r, MapOmToFsq.write_row fsq_rows om_label matches = Some r.
Proof.
  intro H. unfold MapOmToFsq.write_row.
  destruct matches as [|[i0 s0] [|[i1 s1] [|[i2 s2] [|m rest]]]]; simpl; eauto.
  simpl in H. lia.
Qed.

Lemma write_row_flag (fsq_rows : list MapOmToFsq.fsq_row) (om_label : pystr)
    (matches : list (nat * Q)) (r : MapOmToFsq.out_row) :
  MapOmToFsq.write_row fsq_rows om_label matches = Some r ->
  MapOmToFsq.NEEDS_REVIEW r = MapOmToFsq.needs_review (MapOmToFsq.BEST_SCORE r).
Proof.
  unfold MapOmToFsq.write_row.
  destruct (MapOmToFsq.pad 3 matches) as [|[i0 s0] [|[i1 s1] [|[i2 s2] [|m rest]]]];
    try discriminate.
  cbv zeta. intro H. injection H as <-. reflexivity.
Qed.

Lemma written_all (rows : list (option MapOmToFsq.out_row)) :
  Forall (fun o => o <> None) rows -> map Some (MapOmToFsq.written rows) = rows.
Proof.
  induction 1 as [|[r|] rows Hr _ IH]; cbn [MapOmToFsq.written map];
    [reflexivity | now rewrite IH | congruence].
Qed.

(** No iteration of the loop of [main] raises: [match_one] returns at most
    three matches, so every label of the OM file gets its row. *)
Lemma main_rows (token_set_ratio partial_ratio : pystr -> pystr -> Q)
    (set_iter : list nat -> list nat)
    (fsq_file : list MapOmToFsq.csv_fsq) (om_file : list pystr) :
  map Some (MapOmToFsq.main token_set_ratio partial_ratio set_iter fsq_file om_file)
  = map (fun om_label =>
           MapOmToFsq.write_row (MapOmToFsq.load_fsq_categories fsq_file) om_label
             (MapOmToFsq.match_one token_set_ratio partial_ratio set_iter om_label
                (MapOmToFsq.load_fsq_categories fsq_file) 3))
      (MapOmToFsq.load_unique_om_labels om_file).
Proof.
  unfold MapOmToFsq.main. cbv zeta. apply written_all.
  apply Forall_forall. intros o Ho. apply in_map_iff in Ho as (l & <- & _).
  destruct (@write_row_some (MapOmToFsq.load_fsq_categories fsq_file) l
              (MapOmToFsq.match_one token_set_ratio partial_ratio set_iter l
                 (MapOmToFsq.load_fsq_categories fsq_file) 3)
              (match_one_length _ _ _ _ _ _)) as [r E].
  rewrite E. discriminate.
Qed.

Lemma main_row_In (token_set_ratio partial_ratio : pystr -> pystr -> Q)
    (set_iter : list nat -> list nat)
    (fsq_file : list MapOmToFsq.csv_fsq) (om_file : list pystr)
    (r : MapOmToFsq.out_row) :
  In r (MapOmToFsq.main token_set_ratio partial_ratio set_iter fsq_file om_file) ->
  exists om_label,
    In om_label (MapOmToFsq.load_unique_om_labels om_file)
    /\ MapOmToFsq.write_row (MapOmToFsq.load_fsq_categories fsq_file) om_label
         (MapOmToFsq.match_one token_set_ratio partial_ratio set_iter om_label
            (MapOmToFsq.load_fsq_categories fsq_file) 3) = Some r.
Proof.
  intro H. apply (in_map Some) in H. rewrite main_rows in H.
  apply in_map_iff in H as (l & E & Hl). now exists l.
Qed.

Lemma keep_csv_of (fmt1 : Q -> pystr) (r : MapOmToFsq.out_row) :
  MapOmToFsq.NEEDS_REVIEW r = MapOmToFsq.needs_review (MapOmToFsq.BEST_SCORE r) ->
  FilterNeedsReview.keep (FilterNeedsReview.csv_of fmt1 r)
  = Qltb (MapOmToFsq.BEST_SCORE r) 80
  /\ FilterNeedsReview.get (FilterNeedsReview.csv_of fmt1 r) (u "NEEDS_REVIEW")
     = Some (MapOmToFsq.NEEDS_REVIEW r).
Proof.
  intro E. unfold FilterNeedsReview.keep.
  assert (G : FilterNeedsReview.get (FilterNeedsReview.csv_of fmt1 r) (u "NEEDS_REVIEW")
              = Some (MapOmToFsq.NEEDS_REVIEW r)) by reflexivity.
  rewrite G, E. split; [|reflexivity].
  unfold MapOmToFsq.needs_review. destruct (Qltb _ _); reflexivity.
Qed.

Lemma filter_map_ext {A B : Type} (f : A -> B) (p : B -> bool) (q : A -> bool)
    (l : list A) :
  Forall (fun x => p (f x) = q x) l -> filter p (map f l) = map f (filter q l).
Proof.
  induction 1 as [|x l Hx _ IH]; simpl; [reflexivity|].
  rewrite Hx, IH. destruct (q x); reflexivity.
Qed.

(** C5: in every row that [main] of map_om_to_fsq.py writes, NEEDS_REVIEW is
    "TRUE" exactly when the best score is strictly below 80 and "FALSE"
    exactly when it is 80 or more (so a score of 80 is not flagged); and
    filter_needs_review.py, run on these rows, keeps exactly the rows whose
    NEEDS_REVIEW cell is "TRUE", which are the rows with a best score below
    80.  In general the filter keeps a row when its NEEDS_REVIEW cell, in
    upper case, is "TRUE". *)
Theorem needs_review_below_threshold
    (token_set_ratio partial_ratio : pystr -> pystr -> Q)
    (set_iter : list nat -> list nat) (fmt1 : Q -> pystr)
    (fsq_file : list MapOmToFsq.csv_fsq) (om_file : list pystr) :
  let rows := MapOmToFsq.main token_set_ratio partial_ratio set_iter fsq_file om_file in
  Forall (fun r =>
            (MapOmToFsq.NEEDS_REVIEW r = u "TRUE" <-> MapOmToFsq.BEST_SCORE r < 80)
            /\ (MapOmToFsq.NEEDS_REVIEW r = u "FALSE" <-> 80 <= MapOmToFsq.BEST_SCORE r))
    rows
  /\ MapOmToFsq.needs_review 80 = u "FALSE"
  /\ FilterNeedsReview.filter_needs_review (map (FilterNeedsReview.csv_of fmt1) rows)
     = map (FilterNeedsReview.csv_of fmt1)
         (filter (fun r => str_eqb (MapOmToFsq.NEEDS_REVIEW r) (u "TRUE")) rows)
  /\ FilterNeedsReview.filter_needs_review (map (FilterNeedsReview.csv_of fmt1) rows)
     = map (FilterNeedsReview.csv_of fmt1)
         (filter (fun r => Qltb (MapOmToFsq.BEST_SCORE r) 80) rows)
  /\ (forall (table : list FilterNeedsReview.csv_row) row,
        In row (FilterNeedsReview.filter_needs_review table)
        <-> In row table
            /\ upper (match FilterNeedsReview.get row (u "NEEDS_REVIEW") with
                      | Some v => v
                      | None => []
                      end) = u "TRUE").
Proof.
  intro rows.
  assert (F : Forall (fun r => MapOmToFsq.NEEDS_REVIEW r
                               = MapOmToFsq.needs_review (MapOmToFsq.BEST_SCORE r)) rows).
  { subst rows. apply Forall_forall. intros r Hr.
    apply main_row_In in Hr as (l & _ & E). exact (write_row_flag _ _ _ E). }
  split; [|split; [reflexivity|split; [|split]]].
  - eapply Forall_impl; [|exact F]. intros r E. cbv beta. rewrite E.
    split; [apply needs_review_true | apply needs_review_false].
  - unfold FilterNeedsReview.filter_needs_review. apply filter_map_ext.
    eapply Forall_impl; [|exact F]. intros r E. cbv beta.
    destruct (keep_csv_of fmt1 r E) as [K _]. rewrite K, E.
    unfold MapOmToFsq.needs_review. destruct (Qltb _ _); reflexivity.
  - unfold FilterNeedsReview.filter_needs_review. apply filter_map_ext.
    eapply Forall_impl; [|exact F]. intros r E. cbv beta.
    now destruct (keep_csv_of fmt1 r E) as [K _].
  - intros table row. unfold FilterNeedsReview.filter_needs_review.
    rewrite filter_In. unfold FilterNeedsReview.keep. cbv zeta.
    now rewrite str_eqb_eq.
Qed.

(** C10: when [match_one] returns fewer than three matches, the loop of
    [main] pads them with the pair (0, 0.0) up to the three pairs that the
    unpacking needs; index 0 is in range as soon as the FSQ table has a row,
    so the row is written and each padded slot carries the label and the ID
    of the first FSQ category that was loaded, with score 0.0, and not an
    empty alternate. *)
Theorem padded_slots_report_first_category
    (first : MapOmToFsq.fsq_row) (others : list MapOmToFsq.fsq_row)
    (om_label : pystr) (matches : list (nat * Q)) :
  (List.length matches < 3)%nat ->
  exists r,
    MapOmToFsq.write_row (first :: others) om_label matches = Some r
    /\ MapOmToFsq.FSQ_ALT2_LABEL r = MapOmToFsq.Category_Label first
    /\ MapOmToFsq.ALT2_ID r = MapOmToFsq.Category_ID first
    /\ MapOmToFsq.ALT2_SCORE r = 0
    /\ ((List.length matches < 2)%nat ->
        MapOmToFsq.FSQ_ALT1_LABEL r = MapOmToFsq.Category_Label first
        /\ MapOmToFsq.ALT1_ID r = MapOmToFsq.Category_ID first
        /\ MapOmToFsq.ALT1_SCORE r = 0)
    /\ ((List.length matches < 1)%nat ->
        MapOmToFsq.FSQ_BEST_LABEL r = MapOmToFsq.Category_Label first
        /\ MapOmToFsq.FSQ_BEST_ID r = MapOmToFsq.Category_ID first
        /\ MapOmToFsq.BEST_SCORE r = 0
        /\ MapOmToFsq.NEEDS_REVIEW r = u "TRUE").
Proof.
  intro H. unfold MapOmToFsq.write_row.
  destruct matches as [|[i0 s0] [|[i1 s1] [|m rest]]]; simpl in H; [| | |lia];
    simpl; eexists; (split; [reflexivity|]); simpl;
    repeat (split || intro); try lia; reflexivity.
Qed.

Lemma padded_slots_report_first_category_witness :
  let rows := MapOmToFsq.load_fsq_categories Sample.fsq_file in
  let matches :=
    MapOmToFsq.match_one Sample.scorer Sample.scorer Sample.set_iter (u "cafe") rows 3 in
  exists r,
    MapOmToFsq.write_row rows (u "cafe") matches = Some r
    /\ List.length matches = 1%nat
    /\ MapOmToFsq.FSQ_ALT1_LABEL r = u "Dining and Drinking > Cafe"
    /\ MapOmToFsq.ALT1_ID r = u "13032"
    /\ MapOmToFsq.FSQ_ALT2_LABEL r = u "Dining and Drinking > Cafe"
    /\ MapOmToFsq.ALT2_ID r = u "13032".
Proof.
  intros rows matches.
  assert (L : List.length matches = 1%nat) by (vm_compute; reflexivity).
  destruct (@padded_slots_report_first_category
              (hd MapOmToFsq.blank_row rows) (tl rows) (u "cafe") matches
              ltac:(rewrite L; lia))
    as (r & E & A & B & _ & H2 & _).
  destruct (H2 ltac:(rewrite L; lia)) as (C & D & _).
  exists r.
  split; [exact E|].
  split; [exact L|].
  split; [exact C | split; [exact D | split; [exact A | exact B]]].
Defined.

(** ** Sorting and shortlisting *)

Lemma firstn_In {A : Type} (n : nat) (l : list A) (x : A) :
  In x (firstn n l) -> In x l.
Proof.
  revert l; induction n as [|n IH]; intros [|y l] H; simpl in *; try tauto.
  destruct H as [->|H]; [now left | right; now apply IH].
Qed.

Lemma insert_desc_In {A : Type} (key : A -> Q) (x y : A) (l : list A) :
  In x (insert_desc key y l) <-> x = y \/ In x l.
Proof.
  induction l as [|z l IH]; simpl.
  - intuition.
  - destruct (Qle_bool (key z) (key y)); simpl; [intuition|].
    rewrite IH. intuition.
Qed.

Lemma sort_desc_In {A : Type} (key : A -> Q) (x : A) (l : list A) :
  In x (sort_desc key l) <-> In x l.
Proof.
  induction l as [|y l IH]; simpl; [tauto|].
  rewrite insert_desc_In, IH. intuition.
Qed.

Lemma insert_desc_length {A : Type} (key : A -> Q) (y : A) (l : list A) :
  List.length (insert_desc key y l) = S (List.length l).
Proof.
  induction l as [|z l IH]; simpl; [reflexivity|].
  destruct (Qle_bool (key z) (key y)); simpl; [reflexivity | now rewrite IH].
Qed.

Lemma sort_desc_length {A : Type} (key : A -> Q) (l : list A) :
  List.length (sort_desc key l) = List.length l.
Proof.
  induction l as [|y l IH]; simpl; [reflexivity|].
  now rewrite insert_desc_length, IH.
Qed.

Lemma indexed_length {A : Type} (l : list A) :
  List.length (indexed l) = List.length l.
Proof. unfold indexed. rewrite length_combine, length_seq. apply Nat.min_id. Qed.

Lemma extract_length (scorer : pystr -> pystr -> Q) (query : pystr)
    (choices : list pystr) (limit : nat) :
  List.length (extract scorer query choices limit)
  = Nat.min limit (List.length choices).
Proof.
  unfold extract.
  now rewrite length_firstn, sort_desc_length, length_map, indexed_length.
Qed.

Lemma extract_scores (scorer : pystr -> pystr -> Q) (query : pystr)
    (choices : list pystr) (limit : nat) (r : pystr * Q * nat) :
  In r (extract scorer query choices limit) ->
  snd (fst r) = scorer query (fst (fst r)).
Proof.
  unfold extract. intro H. apply firstn_In, sort_desc_In, in_map_iff in H.
  destruct H as ([idx choice] & <- & _). reflexivity.
Qed.

Lemma length_zero_nil {A : Type} (l : list A) : List.length l = 0%nat -> l = [].
Proof. destruct l; [reflexivity | discriminate]. Qed.

(** ** om_to_fsq_map.py: which rows are written *)

Section WrittenRows.

Variable WRatio : pystr -> pystr -> Q.
Hypothesis WRatio_nonneg : forall query choice, 0 <= WRatio query choice.

Lemma grouped_update_nonempty (g : list (nat * (Q * pystr))) (i : nat) (sc : Q)
    (mt : pystr) :
  OmToFsqMap.grouped_update g i sc mt <> [].
Proof.
  destruct g as [|[k [sc' mt']] g]; simpl; [discriminate|].
  destruct (Nat.eqb k i); discriminate.
Qed.

Lemma grouped_update_scores (g : list (nat * (Q * pystr))) (i : nat) (sc : Q)
    (mt : pystr) :
  0 <= sc ->
  Forall (fun e => 0 <= fst (snd e)) g ->
  Forall (fun e => 0 <= fst (snd e)) (OmToFsqMap.grouped_update g i sc mt).
Proof.
  intros Hsc. induction 1 as [|[k [sc' mt']] g He Hg IH]; simpl.
  - constructor; [assumption | constructor].
  - destruct (Nat.eqb k i).
    + constructor; [|assumption]. destruct (Qltb sc' sc); assumption.
    + constructor; assumption.
Qed.

Lemma choose_best_matches_scores (query : pystr) (texts : list pystr)
    (to_index : list nat) (limit : nat) (allowed : option (list nat)) :
  Forall (fun m => 0 <= snd (fst m))
    (OmToFsqMap.choose_best_matches WRatio query texts to_index limit allowed).
Proof.
  unfold OmToFsqMap.choose_best_matches.
  destruct (match allowed with Some _ => _ | None => _ end) as [search_texts search_map].
  cbv zeta. apply Forall_forall. intros m Hm.
  apply firstn_In, sort_desc_In, in_map_iff in Hm.
  destruct Hm as ([k [sc mt]] & <- & Hin). simpl.
  assert (G : forall results g,
             Forall (fun r : pystr * Q * nat => 0 <= snd (fst r)) results ->
             Forall (fun e : nat * (Q * pystr) => 0 <= fst (snd e)) g ->
             Forall (fun e : nat * (Q * pystr) => 0 <= fst (snd e))
               (fold_left
                  (fun grouped '(cand_text, score, cand_idx) =>
                     OmToFsqMap.grouped_update grouped (nth cand_idx search_map 0%nat)
                       score cand_text) results g)).
  { induction results as [|[[ct sc0] ci] results IH]; intros g Hr Hg; simpl.
    - assumption.
    - inversion Hr; subst. apply IH; [assumption|].
      now apply grouped_update_scores. }
  assert (R : Forall (fun r : pystr * Q * nat => 0 <= snd (fst r))
                (extract WRatio query search_texts (limit * 3))).
  { apply Forall_forall. intros r Hr.
    rewrite (extract_scores _ _ _ _ _ Hr). apply WRatio_nonneg. }
  pose proof (G _ [] R (Forall_nil _)) as G'.
  rewrite Forall_forall in G'. exact (G' _ Hin).
Qed.

Lemma choose_best_matches_nonempty (query : pystr) (texts : list pystr)
    (to_index : list nat) (limit : nat) (allowed : option (list nat)) :
  texts <> [] -> (0 < limit)%nat ->
  OmToFsqMap.choose_best_matches WRatio query texts to_index limit allowed <> [].
Proof.
  intros Ht Hl. unfold OmToFsqMap.choose_best_matches.
  assert (S : exists st sm,
             match allowed with
             | Some allowed0 =>
                 match filter (fun ti => OmToFsqMap.in_set (snd ti) allowed0)
                         (combine texts to_index) with
                 | [] => (texts, to_index)
                 | _ :: _ =>
                     (map fst (filter (fun ti => OmToFsqMap.in_set (snd ti) allowed0)
                                 (combine texts to_index)),
                      map snd (filter (fun ti => OmToFsqMap.in_set (snd ti) allowed0)
                                 (combine texts to_index)))
                 end
             | None => (texts, to_index)
             end = (st, sm) /\ st <> []).
  { destruct allowed as [al|]; [|now exists texts, to_index].
    destruct (filter _ _) as [|x f] eqn:E; [now exists texts, to_index|].
    eexists _, _. split; [reflexivity | discriminate]. }
  destruct S as (st & sm & -> & Hst). cbv zeta.
  set (results := extract WRatio query st (limit * 3)).
  assert (Hres : results <> []).
  { intro E. pose proof (extract_length WRatio query st (limit * 3)) as L.
    fold results in L. rewrite E in L. simpl in L.
    destruct st; [congruence | simpl in L; lia]. }
  set (step := fun grouped (r : pystr * Q * nat) =>
                 let '(cand_text, score, cand_idx) := r in
                 OmToFsqMap.grouped_update grouped (nth cand_idx sm 0%nat) score cand_text).
  assert (G : forall rs g, (g <> [] \/ rs <> []) -> fold_left step rs g <> []).
  { induction rs as [|[[ct sc0] ci] rs IH]; intros g H; simpl.
    - destruct H; [assumption | congruence].
    - apply IH. left. apply grouped_update_nonempty. }
  specialize (G results [] (or_intror Hres)).
  intro E. apply G. apply length_zero_nil.
  apply (f_equal (@List.length _)) in E.
  rewrite length_firstn, sort_desc_length, length_map in E. simpl in E.
  destruct (fold_left step results []); [reflexivity | simpl in E; lia].
Qed.

Lemma choose_best_matches_empty_pool (query : pystr) (to_index : list nat)
    (limit : nat) (allowed : option (list nat)) :
  OmToFsqMap.choose_best_matches WRatio query [] to_index limit allowed = [].
Proof.
  unfold OmToFsqMap.choose_best_matches.
  destruct allowed; simpl; unfold extract; simpl; rewrite firstn_nil; simpl;
    apply firstn_nil.
Qed.

Lemma best_step_keeps (top : list (nat * Q * pystr)) :
  forall i sc mt,
    exists i' sc' mt',
      fold_left OmToFsqMap.best_step top (Some i, sc, mt) = (Some i', sc', mt').
Proof.
  induction top as [|[[j s] t] top IH]; intros i sc mt; simpl.
  - now exists i, sc, mt.
  - destruct (Qltb sc s); apply IH.
Qed.

Lemma best_of_nonempty (top : list (nat * Q * pystr)) :
  top <> [] -> Forall (fun m => 0 <= snd (fst m)) top ->
  exists i sc mt,
    fold_left OmToFsqMap.best_step top (None, - (1), []) = (Some i, sc, mt).
Proof.
  destruct top as [|[[j s] t] top]; [congruence|]. intros _ H.
  inversion H as [|? ? Hs _]; subst. simpl in Hs. simpl.
  assert (E : Qltb (- (1)) s = true) by (apply Qltb_lt; lra).
  rewrite E. apply best_step_keeps.
Qed.

(** One row of the OM file: skipped when its label normalizes to the empty
    string or when there is no candidate text at all, written otherwise. *)
Lemma map_row_written (fsq_rows : list OmToFsqMap.FSQCategory) (texts : list pystr)
    (to_index : list nat) (row : OmToFsqMap.om_row) :
  map OmToFsqMap.OM_CATEGORY_LABEL
    (OmToFsqMap.option_list (OmToFsqMap.map_row WRatio fsq_rows texts to_index row))
  = match texts, OmToFsqMap.normalize_text (Some (OmToFsqMap.CATEGORY_LABEL row)) with
    | _ :: _, _ :: _ => [OmToFsqMap.CATEGORY_LABEL row]
    | _, _ => []
    end.
Proof.
  unfold OmToFsqMap.map_row. cbv zeta.
  destruct (OmToFsqMap.normalize_text (Some (OmToFsqMap.CATEGORY_LABEL row)))
    as [|c q] eqn:Eq.
  - now destruct texts.
  - destruct texts as [|t texts].
    + now rewrite choose_best_matches_empty_pool.
    + set (top := OmToFsqMap.choose_best_matches WRatio (c :: q) (t :: texts) to_index 5 _).
      destruct (@best_of_nonempty top) as (i & sc & mt & E).
      * apply choose_best_matches_nonempty; [discriminate | lia].
      * apply choose_best_matches_scores.
      * rewrite E. reflexivity.
Qed.

Lemma written_labels (fsq_rows : list OmToFsqMap.FSQCategory) (texts : list pystr)
    (to_index : list nat) (om_file : list OmToFsqMap.om_row) :
  map OmToFsqMap.OM_CATEGORY_LABEL
    (flat_map (fun row => OmToFsqMap.option_list
                            (OmToFsqMap.map_row WRatio fsq_rows texts to_index row))
       om_file)
  = match texts with
    | [] => []
    | _ =>
        filter (fun label =>
                  match OmToFsqMap.normalize_text (Some label) with
                  | [] => false
                  | _ => true
                  end)
          (map OmToFsqMap.CATEGORY_LABEL om_file)
    end.
Proof.
  induction om_file as [|row om_file IH].
  - cbn [flat_map map filter]. now destruct texts.
  - cbn [flat_map map]. rewrite map_app, IH, map_row_written.
    destruct texts; [reflexivity|]. cbn [filter].
    destruct (OmToFsqMap.normalize_text (Some (OmToFsqMap.CATEGORY_LABEL row)));
      reflexivity.
Qed.

End WrittenRows.

(** C6, as stated, fails: [map_om_to_fsq] of om_to_fsq_map.py writes no row
    for a label that normalizes to the empty string (here "---", against one
    FSQ category), and no row at all when the FSQ file is empty. *)
Lemma unmatched_rows_are_skipped :
  OmToFsqMap.normalize_text (Some (u "---")) = []
  /\ fst (OmToFsqMap.map_om_to_fsq Sample.scorer
            [Sample.om_row "---"; Sample.om_row "Cafe"] Sample.fsq_file' 86)
     = [ {| OmToFsqMap.OM_CATEGORY_LABEL := u "Cafe";
            OmToFsqMap.OM_SIMPLIFIED_CATEGORY := u "Food & Dining";
            OmToFsqMap.OM_UPDATED_CATEGORY := u "Food & Dining";
            OmToFsqMap.FSQ_CATEGORY_ID := u "13032";
            OmToFsqMap.FSQ_CATEGORY_LABEL := u "Dining and Drinking > Cafe";
            OmToFsqMap.FSQ_CATEGORY_PRIMARY := u "Dining and Drinking";
            OmToFsqMap.FSQ_CATEGORY_SECONDARY := u "Cafe";
            OmToFsqMap.MATCH_SCORE := 100;
            OmToFsqMap.MATCHED_TEXT := u "cafe";
            OmToFsqMap.ALTERNATES := [(u "Dining and Drinking > Cafe", u "13032", 100)] |} ]
  /\ OmToFsqMap.map_om_to_fsq Sample.scorer
       [Sample.om_row "---"; Sample.om_row "Cafe"] [] 86
     = ([], []).
Proof. repeat split; vm_compute; reflexivity. Qed.

(** C6, amended: [map_om_to_fsq] of om_to_fsq_map.py skips a source row whose
    label normalizes to the empty string ([if not q: continue]) and, when
    there is no candidate text (an empty FSQ pool), skips every source row
    ([if best_fsq_idx is None: continue]); every other source row gets one
    output row, in input order.  The scorer is any function that returns no
    negative score. *)
Theorem written_rows_of_map_om_to_fsq
    (WRatio : pystr -> pystr -> Q) (om_file : list OmToFsqMap.om_row)
    (fsq_file : list OmToFsqMap.csv_fsq) (threshold : Q) :
  (forall query choice, 0 <= WRatio query choice) ->
  map OmToFsqMap.OM_CATEGORY_LABEL
    (fst (OmToFsqMap.map_om_to_fsq WRatio om_file fsq_file threshold))
  = match snd (fst (OmToFsqMap.load_fsq_categories fsq_file)) with
    | [] => []
    | _ =>
        filter (fun label =>
                  match OmToFsqMap.normalize_text (Some label) with
                  | [] => false
                  | _ => true
                  end)
          (map OmToFsqMap.CATEGORY_LABEL om_file)
    end.
Proof.
  intro H. unfold OmToFsqMap.map_om_to_fsq.
  destruct (OmToFsqMap.load_fsq_categories fsq_file) as [[fsq_rows texts] to_index].
  cbn [fst snd]. now apply written_labels.
Qed.

Lemma written_rows_of_map_om_to_fsq_witness :
  map OmToFsqMap.OM_CATEGORY_LABEL
    (fst (OmToFsqMap.map_om_to_fsq Sample.scorer
            [Sample.om_row "---"; Sample.om_row "Cafe"] Sample.fsq_file' 86))
  = [u "Cafe"].
Proof.
  rewrite (@written_rows_of_map_om_to_fsq Sample.scorer
             [Sample.om_row "---"; Sample.om_row "Cafe"] Sample.fsq_file' 86).
  - vm_compute. reflexivity.
  - intros query choice. unfold Sample.scorer.
    destruct (str_eqb query choice); unfold Qle; simpl; lia.
Defined.

(** ** category_mapper.py: the claimed Overture rows *)

Lemma in_set_In (i : nat) (s : list nat) :
  CategoryMapper.in_set i s = true <-> In i s.
Proof.
  unfold CategoryMapper.in_set. rewrite existsb_exists. split.
  - intros (j & Hj & E). apply Nat.eqb_eq in E. now subst.
  - intro H. exists i. split; [assumption | apply Nat.eqb_refl].
Qed.

Lemma in_set_add (i j : nat) (s : list nat) :
  CategoryMapper.in_set j s = true ->
  CategoryMapper.in_set j (CategoryMapper.set_add i s) = true.
Proof.
  unfold CategoryMapper.set_add. destruct (CategoryMapper.in_set i s); [tauto|].
  intro H. simpl. rewrite H. apply orb_true_r.
Qed.

Lemma in_set_add_same (i : nat) (s : list nat) :
  CategoryMapper.in_set i (CategoryMapper.set_add i s) = true.
Proof.
  unfold CategoryMapper.set_add. destruct (CategoryMapper.in_set i s) eqn:E; [assumption|].
  simpl. now rewrite Nat.eqb_refl.
Qed.

Lemma claimed_labels_app (r1 r2 : list CategoryMapper.mapping) :
  claimed_labels (r1 ++ r2) = claimed_labels r1 ++ claimed_labels r2.
Proof. unfold claimed_labels. apply flat_map_app. Qed.

Lemma claimed_labels_no_match (rows : list CategoryMapper.fsq_row) :
  claimed_labels (map CategoryMapper.no_match rows) = [].
Proof. induction rows as [|r rows IH]; [reflexivity | exact IH]. Qed.

Lemma In_indexed {A : Type} (l : list A) (i : nat) (x d : A) :
  In (i, x) (indexed l) -> (i < List.length l)%nat /\ nth i l d = x.
Proof.
  unfold indexed. intro H.
  assert (G : forall (l : list A) start i x,
             In (i, x) (combine (seq start (List.length l)) l) ->
             (start <= i < start + List.length l)%nat /\ nth (i - start) l d = x).
  { clear. induction l as [|y l IH]; intros start i x H; simpl in H; [tauto|].
    destruct H as [H|H].
    - injection H as <- <-. rewrite Nat.sub_diag. simpl. split; [lia | reflexivity].
    - apply IH in H as [H1 H2]. simpl. split; [lia|].
      replace (i - start)%nat with (S (i - S start)) by lia. exact H2. }
  apply G in H as [H1 H2]. rewrite Nat.sub_0_r in H2. split; [lia | exact H2].
Qed.

(** The claim of one more row keeps the invariant, provided the row was
    not claimed before. *)
Lemma dedup_inv_claim (overture_data : list pystr) (st : CategoryMapper.state)
    (idx : nat) (m : CategoryMapper.mapping) :
  dedup_inv overture_data st ->
  CategoryMapper.in_set idx (CategoryMapper.matched_overture st) = false ->
  (idx < List.length overture_data)%nat ->
  CategoryMapper.overture_category m = Some (nth idx overture_data []) ->
  dedup_inv overture_data
    {| CategoryMapper.matched_overture :=
         CategoryMapper.set_add idx (CategoryMapper.matched_overture st);
       CategoryMapper.mapping_results := CategoryMapper.mapping_results st ++ [m] |}.
Proof.
  intros (claimed & Nd & Hin & Hl) Hnew Hlt Hm.
  exists (claimed ++ [idx]). cbn [CategoryMapper.matched_overture CategoryMapper.mapping_results].
  split; [|split].
  - apply NoDup_app; [assumption | repeat constructor; intros [] |].
    intros i Hi [<-|[]]. apply Hin in Hi as [Hi _]. congruence.
  - intros i Hi. apply in_app_iff in Hi as [Hi|[<-|[]]].
    + destruct (Hin i Hi) as [H1 H2]. split; [now apply in_set_add | assumption].
    + split; [apply in_set_add_same | assumption].
  - rewrite claimed_labels_app, map_app, Hl. f_equal.
    unfold claimed_labels. simpl. now rewrite Hm.
Qed.

(** The best match of the innermost loop of the semantic pass is an entry of
    the group list that was not claimed when the loop ran. *)
Lemma semantic_best (matched : list nat) (fs : CategoryMapper.fs_cat)
    (ovs : list CategoryMapper.ov_cat) (q0 : Q) (e : CategoryMapper.ov_cat) :
  fst (fold_left (CategoryMapper.semantic_step matched fs) ovs (None, q0)) = Some e ->
  In e ovs /\ CategoryMapper.in_set (CategoryMapper.ov_index e) matched = false.
Proof.
  assert (G : forall (l done : list CategoryMapper.ov_cat) acc,
             (forall e, fst acc = Some e ->
                        In e done
                        /\ CategoryMapper.in_set (CategoryMapper.ov_index e) matched = false) ->
             forall e,
               fst (fold_left (CategoryMapper.semantic_step matched fs) l acc) = Some e ->
               In e (done ++ l)
               /\ CategoryMapper.in_set (CategoryMapper.ov_index e) matched = false).
  { induction l as [|ov l IH]; intros done acc Hacc e' He; simpl in He.
    - rewrite app_nil_r. now apply Hacc.
    - replace (done ++ ov :: l) with ((done ++ [ov]) ++ l) by now rewrite <- app_assoc.
      apply (IH (done ++ [ov]) (CategoryMapper.semantic_step matched fs acc ov)); [|exact He].
      intros e'' He'. unfold CategoryMapper.semantic_step in He'.
      destruct (CategoryMapper.in_set (CategoryMapper.ov_index ov) matched) eqn:Eset.
      + destruct (Hacc e'' He') as [H1 H2]. split; [apply in_app_iff; now left | exact H2].
      + cbv zeta in He'. destruct (_ && _).
        * simpl in He'. injection He' as <-. split; [|exact Eset].
          apply in_app_iff. right. now left.
        * destruct (Hacc e'' He') as [H1 H2]. split; [apply in_app_iff; now left | exact H2]. }
  intro He. apply (G ovs [] (None, q0)); [|exact He].
  intros e' He'. discriminate He'.
Qed.

Lemma direct_best (matched : list nat) (fs_row : CategoryMapper.fsq_row)
    (ovs : list (nat * pystr)) (q0 : Q) (i : nat) (row : pystr) :
  fst (fold_left (CategoryMapper.direct_step matched fs_row) ovs (None, q0)) = Some (i, row) ->
  In (i, row) ovs /\ CategoryMapper.in_set i matched = false.
Proof.
  assert (G : forall (l done : list (nat * pystr)) acc,
             (forall i row, fst acc = Some (i, row) ->
                            In (i, row) done /\ CategoryMapper.in_set i matched = false) ->
             forall i row,
               fst (fold_left (CategoryMapper.direct_step matched fs_row) l acc)
               = Some (i, row) ->
               In (i, row) (done ++ l) /\ CategoryMapper.in_set i matched = false).
  { induction l as [|[j r] l IH]; intros done acc Hacc i' row' He; simpl in He.
    - rewrite app_nil_r. now apply Hacc.
    - replace (done ++ (j, r) :: l) with ((done ++ [(j, r)]) ++ l)
        by now rewrite <- app_assoc.
      apply (IH (done ++ [(j, r)])
               (CategoryMapper.direct_step matched fs_row acc (j, r))); [|exact He].
      intros i'' row'' He'. unfold CategoryMapper.direct_step in He'.
      destruct (CategoryMapper.in_set j matched) eqn:Eset.
      + destruct (Hacc _ _ He') as [H1 H2]. split; [apply in_app_iff; now left | exact H2].
      + cbv zeta in He'. destruct (_ && _).
        * simpl in He'. injection He' as <- <-. split; [|exact Eset].
          apply in_app_iff. right. now left.
        * destruct (Hacc _ _ He') as [H1 H2].
          split; [apply in_app_iff; now left | exact H2]. }
  intro He. apply (G ovs [] (None, q0)); [|exact He].
  intros i' row' He'. discriminate He'.
Qed.

Section Dedup.

Variable overture_data : list pystr.

Lemma semantic_fs_inv (g : CategoryMapper.group_data) (st : CategoryMapper.state)
    (fs : CategoryMapper.fs_cat) :
  Forall (ov_entry_ok overture_data) (CategoryMapper.overture_categories g) ->
  dedup_inv overture_data st ->
  dedup_inv overture_data (CategoryMapper.semantic_fs g st fs).
Proof.
  intros Hg Hst. unfold CategoryMapper.semantic_fs.
  destruct (fold_left _ _ _) as [[best|] score] eqn:E; [|assumption].
  destruct (@semantic_best (CategoryMapper.matched_overture st) fs
              (CategoryMapper.overture_categories g) 0 best) as [Hin Hnew].
  { now rewrite E. }
  rewrite Forall_forall in Hg. destruct (Hg best Hin) as [Hlt Hname].
  apply dedup_inv_claim; try assumption.
  cbn [CategoryMapper.overture_category]. now rewrite Hname.
Qed.

Lemma fold_left_inv {A B : Type} (P : A -> Prop) (f : A -> B -> A) (l : list B) :
  (forall a b, In b l -> P a -> P (f a b)) -> forall a, P a -> P (fold_left f l a).
Proof.
  induction l as [|b l IH]; intros H a Ha; simpl; [assumption|].
  apply IH; [|apply H; [now left | assumption]].
  intros a' b' Hb'. apply H. now right.
Qed.

Lemma semantic_pass_inv (groups : list CategoryMapper.group_data)
    (st : CategoryMapper.state) :
  groups_ok overture_data groups ->
  dedup_inv overture_data st ->
  dedup_inv overture_data (CategoryMapper.semantic_pass groups st).
Proof.
  intros Hg. unfold CategoryMapper.semantic_pass. apply fold_left_inv.
  intros st' g Hin Hst'. unfold CategoryMapper.semantic_group_pass.
  apply fold_left_inv; [|assumption].
  intros st'' fs _ Hst''. apply semantic_fs_inv; [|assumption].
  unfold groups_ok in Hg. rewrite Forall_forall in Hg. now apply Hg.
Qed.

Lemma direct_fs_inv (unmatched_ov : list (nat * pystr)) (st : CategoryMapper.state)
    (fs_row : CategoryMapper.fsq_row) :
  incl unmatched_ov (indexed overture_data) ->
  dedup_inv overture_data st ->
  dedup_inv overture_data (CategoryMapper.direct_fs unmatched_ov st fs_row).
Proof.
  intros Hsub Hst. unfold CategoryMapper.direct_fs.
  destruct (fold_left _ _ _) as [[[idx row]|] score] eqn:E; [|assumption].
  destruct (@direct_best (CategoryMapper.matched_overture st) fs_row unmatched_ov 0 idx row)
    as [Hin Hnew].
  { now rewrite E. }
  apply Hsub in Hin. apply (In_indexed _ _ _ []) in Hin as [Hlt Hrow].
  apply dedup_inv_claim; try assumption.
  cbn [CategoryMapper.overture_category]. f_equal. symmetry. exact Hrow.
Qed.

Lemma direct_pass_inv (foursquare_data : list CategoryMapper.fsq_row)
    (st : CategoryMapper.state) :
  dedup_inv overture_data st ->
  dedup_inv overture_data (CategoryMapper.direct_pass foursquare_data overture_data st).
Proof.
  intro Hst. unfold CategoryMapper.direct_pass. cbv zeta.
  apply fold_left_inv; [|assumption].
  intros st' fs_row _ Hst'. apply direct_fs_inv; [|assumption].
  intros x Hx. now apply filter_In in Hx as [Hx _].
Qed.

Lemma find_best_matches_claimed (foursquare_data : list CategoryMapper.fsq_row)
    (groups : list CategoryMapper.group_data) :
  groups_ok overture_data groups ->
  exists claimed,
    NoDup claimed
    /\ (forall i, In i claimed -> (i < List.length overture_data)%nat)
    /\ claimed_labels (CategoryMapper.find_best_matches foursquare_data overture_data groups)
       = map (fun i => nth i overture_data []) claimed.
Proof.
  intro Hg. unfold CategoryMapper.find_best_matches. cbv zeta.
  set (st0 := {| CategoryMapper.matched_overture := [];
                 CategoryMapper.mapping_results := [] |}).
  assert (H0 : dedup_inv overture_data st0).
  { exists []. split; [constructor | split; [intros i [] | reflexivity]]. }
  apply (semantic_pass_inv Hg) in H0.
  apply (direct_pass_inv foursquare_data) in H0.
  destruct H0 as (claimed & Nd & Hin & Hl).
  exists claimed. split; [assumption | split; [intros i Hi; now apply Hin|]].
  unfold CategoryMapper.unmatched_pass. cbv zeta. cbn [CategoryMapper.mapping_results].
  now rewrite claimed_labels_app, claimed_labels_no_match, app_nil_r.
Qed.

(** The group lists that [categorize_by_semantics] builds hold entries of
    the Overture table only. *)
Lemma add_foursquare_ok (idx : nat) (row : CategoryMapper.fsq_row)
    (groups : list CategoryMapper.group_data) :
  groups_ok overture_data groups ->
  groups_ok overture_data (map (CategoryMapper.add_foursquare idx row) groups).
Proof.
  unfold groups_ok. intro H. apply Forall_map. eapply Forall_impl; [|exact H].
  intros g Hg. unfold CategoryMapper.add_foursquare. cbv zeta.
  destruct (CategoryMapper.has_keyword g _); assumption.
Qed.

Lemma add_overture_ok (idx : nat) (row : pystr)
    (groups : list CategoryMapper.group_data) :
  In (idx, row) (indexed overture_data) ->
  groups_ok overture_data groups ->
  groups_ok overture_data (map (CategoryMapper.add_overture idx row) groups).
Proof.
  unfold groups_ok. intros Hin H. apply Forall_map. eapply Forall_impl; [|exact H].
  intros g Hg. unfold CategoryMapper.add_overture. cbv zeta.
  destruct (CategoryMapper.has_keyword g _); [|assumption].
  cbn [CategoryMapper.overture_categories]. apply Forall_app. split; [assumption|].
  constructor; [|constructor]. apply (In_indexed _ _ _ []) in Hin. exact Hin.
Qed.

Lemma categorize_by_semantics_ok (foursquare_data : list CategoryMapper.fsq_row)
    (groups : list CategoryMapper.group_data) :
  groups_ok overture_data groups ->
  groups_ok overture_data
    (CategoryMapper.categorize_by_semantics foursquare_data overture_data groups).
Proof.
  intro H. unfold CategoryMapper.categorize_by_semantics. cbv zeta.
  apply fold_left_inv.
  - intros gs [idx row] Hin Hgs. now apply add_overture_ok.
  - apply fold_left_inv; [|assumption].
    intros gs [idx row] _ Hgs. now apply add_foursquare_ok.
Qed.

End Dedup.

Lemma semantic_groups_ok (overture_data : list pystr) :
  groups_ok overture_data CategoryMapper.semantic_groups.
Proof. unfold groups_ok. repeat constructor. Qed.

Lemma NoDup_map_nth (l : list pystr) (claimed : list nat) :
  NoDup l -> NoDup claimed ->
  (forall i, In i claimed -> (i < List.length l)%nat) ->
  NoDup (map (fun i => nth i l []) claimed).
Proof.
  intros Nl Nc. induction Nc as [|i claimed Hni Nc IH]; intro Hlt; simpl; [constructor|].
  constructor.
  - intro Hin. apply in_map_iff in Hin as (j & Ej & Hj).
    assert (j = i).
    { apply (proj1 (NoDup_nth l []) Nl); [apply Hlt; now right | apply Hlt; now left | exact Ej]. }
    subst j. contradiction.
  - apply IH. intros j Hj. apply Hlt. now right.
Qed.

(** ** The claims on the best-match selector of category_mapper.py *)

(** C2: the set [matched_overture], kept "to avoid duplicates", holds row
    indices and not labels, and the Overture table may carry the same label
    in two rows; with the labels "cafe", "cafe", the Foursquare categories
    "Cafe" and "Cafes" are both matched to the label "cafe", so one Overture
    label is the match of two result rows. *)
Lemma same_label_claimed_twice :
  map Sample.summary (CategoryMapper.run_mapping Sample.cafes [u "cafe"; u "cafe"])
  = [ (u "1", Some (u "cafe"), 1, u "food_dining");
      (u "2", Some (u "cafe"), 5 # 9, u "food_dining") ].
Proof. vm_compute. reflexivity. Qed.

(** What the set of indices does ensure: every Overture row is claimed at
    most once, so a label is the match of two result rows only when two rows
    of the Overture table carry it. *)
Theorem no_label_claimed_twice (foursquare_data : list CategoryMapper.fsq_row)
    (overture_data : list pystr) :
  NoDup overture_data ->
  NoDup (claimed_labels (CategoryMapper.run_mapping foursquare_data overture_data)).
Proof.
  intro Nd. unfold CategoryMapper.run_mapping.
  destruct (@find_best_matches_claimed overture_data foursquare_data
              (CategoryMapper.categorize_by_semantics foursquare_data overture_data
                 CategoryMapper.semantic_groups))
    as (claimed & Nc & Hlt & ->).
  - apply categorize_by_semantics_ok, semantic_groups_ok.
  - now apply NoDup_map_nth.
Qed.

Lemma no_label_claimed_twice_witness :
  NoDup (claimed_labels
           (CategoryMapper.run_mapping Sample.cafes [u "cafe"; u "coffee_shop"])).
Proof.
  apply no_label_claimed_twice.
  constructor; [|constructor; [intros [] | constructor]].
  intros [H|[]]. discriminate H.
Defined.

(** C3: no Foursquare category is dropped, since every category ID of the
    input is the ID of some result row; but a category that
    [categorize_by_semantics] puts in two semantic groups is matched once in
    each of them: "Coffee Shop" (groups food_dining and retail_shopping),
    against the Overture labels "coffee_shop" and "shop", gets two result
    rows. *)
Theorem foursquare_rows_in_results :
  (forall foursquare_data overture_data groups,
     incl (map CategoryMapper.category_id foursquare_data)
       (map CategoryMapper.foursquare_id
          (CategoryMapper.find_best_matches foursquare_data overture_data groups)))
  /\ map Sample.summary
       (CategoryMapper.run_mapping Sample.coffee_shop [u "coffee_shop"; u "shop"])
     = [ (u "1", Some (u "coffee_shop"), 1, u "food_dining");
         (u "1", Some (u "shop"), 199 # 300, u "retail_shopping") ].
Proof.
  split; [|vm_compute; reflexivity].
  intros foursquare_data overture_data groups id Hid.
  apply in_map_iff in Hid as (row & <- & Hrow).
  unfold CategoryMapper.find_best_matches, CategoryMapper.unmatched_pass. cbv zeta.
  cbn [CategoryMapper.mapping_results].
  set (results := CategoryMapper.mapping_results
                    (CategoryMapper.direct_pass foursquare_data overture_data _)).
  rewrite map_app. apply in_app_iff.
  destruct (mem (CategoryMapper.category_id row) (CategoryMapper.matched_ids results)) eqn:E.
  - left. now apply mem_In.
  - right. rewrite map_map. apply in_map_iff. exists row. split; [reflexivity|].
    apply filter_In. split; [assumption | now rewrite E].
Qed.

(** ** Normalization *)

Ltac char_cases :=
  unfold plain, lowered, is_word, isalnum, lower_cp, is_upper, is_lower_az, is_digit,
    isspace, is_ascii in *;
  repeat match goal with
         | H : context [N.leb ?x ?y] |- _ => destruct (N.leb_spec x y)
         | H : context [N.eqb ?x ?y] |- _ => destruct (N.eqb_spec x y)
         | |- context [N.leb ?x ?y] => destruct (N.leb_spec x y)
         | |- context [N.eqb ?x ?y] => destruct (N.eqb_spec x y)
         end;
  simpl in *; try discriminate; try reflexivity; try lia.

Lemma plain_facts (c : N) :
  plain c = true ->
  lower_cp c = c /\ is_word c = true /\ isspace c = false
  /\ c <> 38%N /\ c <> 43%N /\ c <> 47%N /\ c <> 45%N /\ c <> 95%N /\ c <> 32%N.
Proof. intro H. repeat split; char_cases. Qed.

Lemma lower_cp_idem (c : N) : lower_cp (lower_cp c) = lower_cp c.
Proof. char_cases. Qed.

Lemma lower_cp_shape (c : N) : is_upper (lower_cp c) = false /\ lower_cp c <> 201%N.
Proof. split; char_cases. Qed.

Lemma word_not_upper_plain (c : N) :
  is_word c = true -> is_upper c = false -> c <> 201%N -> c <> 95%N -> plain c = true.
Proof. intros. char_cases. Qed.

Lemma space_is_space : isspace 32 = true.
Proof. reflexivity. Qed.

(** *** [split] and [join] *)

Lemma split_aux_word (w cur rest : pystr) :
  Forall (fun c => isspace c = false) w ->
  split_aux cur (w ++ rest) = split_aux (rev w ++ cur) rest.
Proof.
  revert cur. induction w as [|c w IH]; intros cur H; [reflexivity|].
  inversion H as [|? ? Hc Hw]; subst. cbn [app split_aux]. rewrite Hc, IH by assumption.
  cbn [rev]. now rewrite <- app_assoc.
Qed.

Lemma token_no_space (ok : N -> bool) (w : pystr) :
  token ok w -> Forall (fun c => isspace c = false) w.
Proof. intros [_ H]. eapply Forall_impl; [|exact H]. now intros c [_ Hc]. Qed.

Lemma split_join (ok : N -> bool) (ws : list pystr) :
  Forall (token ok) ws -> split (join [32%N] ws) = ws.
Proof.
  unfold split. induction 1 as [|w ws Hw Hws IH]; [reflexivity|].
  pose proof (token_no_space Hw) as Hns. destruct Hw as [Hne _].
  destruct ws as [|w' ws].
  - cbn [join]. rewrite <- (app_nil_r w) at 1. rewrite split_aux_word by assumption.
    rewrite app_nil_r. cbn [split_aux].
    destruct (rev w) eqn:E.
    + apply (f_equal (@rev N)) in E. rewrite rev_involutive in E. now subst.
    + now rewrite <- E, rev_involutive.
  - change (join [32%N] (w :: w' :: ws)) with (w ++ [32%N] ++ join [32%N] (w' :: ws)).
    rewrite split_aux_word by assumption. rewrite app_nil_r.
    cbn [app split_aux]. rewrite space_is_space.
    destruct (rev w) eqn:E.
    + apply (f_equal (@rev N)) in E. rewrite rev_involutive in E. now subst.
    + rewrite <- E, rev_involutive. f_equal. exact IH.
Qed.

Lemma split_aux_tokens (ok : N -> bool) (s : pystr) :
  forall cur,
    Forall (fun c => ok c = true /\ isspace c = false) cur ->
    Forall (fun c => isspace c = false -> ok c = true) s ->
    Forall (token ok) (split_aux cur s).
Proof.
  induction s as [|c s IH]; intros cur Hcur Hs; cbn [split_aux].
  - destruct cur as [|x cur]; [constructor|].
    constructor; [|constructor]. split.
    + intro E. apply (f_equal (@List.length N)) in E. rewrite length_rev in E. discriminate.
    + now apply Forall_rev.
  - inversion Hs as [|? ? Hc Hs']; subst.
    destruct (isspace c) eqn:Ec.
    + destruct cur as [|x cur]; [apply IH; [constructor | assumption]|].
      constructor; [|apply IH; [constructor | assumption]]. split.
      * intro E. apply (f_equal (@List.length N)) in E. rewrite length_rev in E. discriminate.
      * now apply Forall_rev.
    + apply IH; [|assumption]. constructor; [|assumption]. split; [now apply Hc | assumption].
Qed.

Lemma split_tokens (ok : N -> bool) (s : pystr) :
  Forall (fun c => isspace c = false -> ok c = true) s ->
  Forall (token ok) (split s).
Proof. intro H. apply split_aux_tokens; [constructor | assumption]. Qed.

Lemma join_chars (P : N -> Prop) (ws : list pystr) :
  P 32%N -> Forall (Forall P) ws -> Forall P (join [32%N] ws).
Proof.
  intros Hsp. induction 1 as [|w ws Hw Hws IH]; [constructor|].
  destruct ws as [|w' ws]; [exact Hw|].
  change (join [32%N] (w :: w' :: ws)) with (w ++ [32%N] ++ join [32%N] (w' :: ws)).
  apply Forall_app. split; [assumption|]. constructor; assumption.
Qed.

Lemma normal_form_chars (ok : N -> bool) (s : pystr) :
  normal_form ok s -> Forall (fun c => ok c = true \/ c = 32%N) s.
Proof.
  intros (ws & Hws & ->). apply join_chars; [now right|].
  eapply Forall_impl; [|exact Hws]. intros w [_ Hw].
  eapply Forall_impl; [|exact Hw]. intros c [Hc _]. now left.
Qed.

(** *** [replace] *)

Lemma contains_cons (old : pystr) (c : N) (s : pystr) :
  contains old (c :: s) = startswith old (c :: s) || contains old s.
Proof. reflexivity. Qed.

Lemma replace_absent (old new s : pystr) :
  contains old s = false -> replace old new s = s.
Proof.
  unfold replace. induction s as [|c s IH]; intro H; [reflexivity|].
  rewrite contains_cons in H. apply orb_false_iff in H as [H1 H2].
  cbn [replace_aux]. rewrite H1. f_equal. now apply IH.
Qed.

Lemma replace_aux_chars (P : N -> Prop) (old new : pystr) (s : pystr) :
  Forall P new -> Forall P s -> forall skip, Forall P (replace_aux old new skip s).
Proof.
  intros Hnew. induction 1 as [|c s Hc Hs IH]; intro skip; cbn [replace_aux];
    [constructor|].
  destruct skip; [|apply IH].
  destruct (startswith old (c :: s)).
  - apply Forall_app. split; [assumption | apply IH].
  - constructor; [assumption | apply IH].
Qed.

Lemma replace_chars (P : N -> Prop) (old new s : pystr) :
  Forall P new -> Forall P s -> Forall P (replace old new s).
Proof. intros. now apply replace_aux_chars. Qed.

Lemma replace_char_gone (c : N) (new s : pystr) :
  Forall (fun x => x <> c) new -> Forall (fun x => x <> c) (replace [c] new s).
Proof.
  intro Hnew. unfold replace. induction s as [|x s IH]; cbn [replace_aux]; [constructor|].
  cbn [startswith List.length Nat.sub]. rewrite andb_true_r.
  destruct (N.eqb_spec c x) as [E|E].
  - apply Forall_app. split; assumption.
  - constructor; [congruence | assumption].
Qed.

Lemma contains_char_absent (c : N) (s : pystr) :
  Forall (fun x => x <> c) s -> contains [c] s = false.
Proof.
  induction 1 as [|x s Hx Hs IH]; [reflexivity|].
  rewrite contains_cons, IH. cbn [startswith]. rewrite andb_true_r, orb_false_r.
  apply N.eqb_neq. congruence.
Qed.

Lemma no_double_space (ok : N -> bool) (ws : list pystr) :
  Forall (token ok) ws -> contains [32%N; 32%N] (join [32%N] ws) = false.
Proof.
  assert (W : forall (w rest : pystr),
             Forall (fun c => isspace c = false) w ->
             contains [32%N; 32%N] rest = false ->
             contains [32%N; 32%N] (w ++ rest) = false).
  { induction w as [|c w IH]; intros rest Hw Hrest; [assumption|].
    inversion Hw as [|? ? Hc Hw']; subst. cbn [app]. rewrite contains_cons.
    rewrite (IH rest Hw' Hrest), orb_false_r. cbn [startswith].
    destruct (N.eqb_spec 32 c) as [<-|]; [discriminate Hc | reflexivity]. }
  induction 1 as [|w ws Hw Hws IH]; [reflexivity|].
  pose proof (token_no_space Hw) as Hns.
  destruct ws as [|w' ws].
  - cbn [join]. rewrite <- (app_nil_r w). now apply W.
  - change (join [32%N] (w :: w' :: ws)) with (w ++ [32%N] ++ join [32%N] (w' :: ws)).
    apply W; [assumption|]. cbn [app]. rewrite contains_cons, IH, orb_false_r.
    inversion Hws as [|? ? Hw' _]; subst. pose proof (token_no_space Hw') as Hns'.
    destruct Hw' as [Hne' _]. destruct w' as [|c w']; [congruence|].
    inversion Hns' as [|? ? Hc _]; subst.
    destruct ws as [|w'' ws]; cbn [join app startswith].
    + destruct (N.eqb_spec 32 c) as [<-|]; [discriminate Hc | reflexivity].
    + destruct (N.eqb_spec 32 c) as [<-|]; [discriminate Hc | reflexivity].
Qed.

Lemma map_fixed {A : Type} (f : A -> A) (l : list A) :
  Forall (fun x => f x = x) l -> map f l = l.
Proof. induction 1 as [|x l Hx _ IH]; simpl; [reflexivity | now rewrite Hx, IH]. Qed.

Lemma filter_fixed {A : Type} (f : A -> bool) (l : list A) :
  Forall (fun x => f x = true) l -> filter f l = l.
Proof. induction 1 as [|x l Hx _ IH]; simpl; [reflexivity | now rewrite Hx, IH]. Qed.

Lemma Forall_filter_both {A : Type} (P : A -> Prop) (f : A -> bool) (l : list A) :
  Forall P l -> Forall (fun x => f x = true /\ P x) (filter f l).
Proof.
  intro H. apply Forall_forall. intros x Hx. apply filter_In in Hx as [Hx Hf].
  rewrite Forall_forall in H. split; [assumption | now apply H].
Qed.

Lemma Forall_conj {A : Type} (P Q : A -> Prop) (l : list A) :
  Forall P l -> Forall Q l -> Forall (fun x => P x /\ Q x) l.
Proof.
  intros HP HQ. apply Forall_forall. intros x Hx.
  rewrite Forall_forall in HP, HQ. split; [now apply HP | now apply HQ].
Qed.

Lemma lower_chars (x : pystr) :
  Forall (fun c => is_upper c = false /\ c <> 201%N) (lower x).
Proof. unfold lower. apply Forall_map, Forall_forall. intros c _. apply lower_cp_shape. Qed.

(** *** category_mapper.py *)

Lemma cm_normalize_unfold (x : pystr) :
  CategoryMapper.normalize_text (Some x)
  = join [32%N]
      (split
         (filter (fun c => is_word c || isspace c)
            (replace [32%N; 32%N] [32%N]
               (replace [95%N] [32%N]
                  (replace [45%N] [32%N]
                     (replace [47%N] [32%N]
                        (replace [43%N] [97%N; 110%N; 100%N]
                           (replace [38%N] [97%N; 110%N; 100%N] (lower x))))))))).
Proof. reflexivity. Qed.

Lemma cm_normalize_normal_form (x : pystr) :
  normal_form plain (CategoryMapper.normalize_text (Some x)).
Proof.
  rewrite cm_normalize_unfold.
  eexists. split; [|reflexivity]. apply split_tokens.
  set (Q := fun c : N => is_upper c = false /\ c <> 201%N).
  assert (Hand : Forall Q [97%N; 110%N; 100%N])
    by (repeat constructor; discriminate).
  assert (Hsp : Forall Q [32%N]) by (repeat constructor; discriminate).
  assert (Hsp' : Forall (fun c : N => c <> 95%N) [32%N])
    by (repeat constructor; discriminate).
  pose proof (lower_chars x) as H0. fold Q in H0.
  set (t1 := replace [45%N] [32%N] _).
  assert (H1 : Forall Q t1) by (subst t1; repeat apply replace_chars; assumption).
  assert (H2 : Forall (fun c => Q c /\ c <> 95%N)
                 (replace [32%N; 32%N] [32%N] (replace [95%N] [32%N] t1))).
  { apply Forall_conj.
    - repeat apply replace_chars; assumption.
    - apply replace_chars; [assumption|]. now apply replace_char_gone. }
  eapply Forall_impl; [|apply (Forall_filter_both _ H2)].
  intros c [Hf [[Hu H201] H95]] Hns. cbv beta in Hf. rewrite Hns, orb_false_r in Hf.
  now apply word_not_upper_plain.
Qed.

Lemma cm_normalize_fixed (s : pystr) :
  normal_form plain s -> CategoryMapper.normalize_text (Some s) = s.
Proof.
  intro Hnf. pose proof (normal_form_chars Hnf) as Hc.
  destruct Hnf as (ws & Hws & ->). rewrite cm_normalize_unfold.
  assert (Hne : forall k, k = 38%N \/ k = 43%N \/ k = 47%N \/ k = 45%N \/ k = 95%N ->
                          contains [k] (join [32%N] ws) = false).
  { intros k Hk. apply contains_char_absent.
    eapply Forall_impl; [|exact Hc]. intros c [Hp| ->].
    - destruct (plain_facts c Hp) as (_ & _ & _ & ? & ? & ? & ? & ? & _).
      intuition congruence.
    - intuition (subst; discriminate). }
  assert (Hl : lower (join [32%N] ws) = join [32%N] ws).
  { apply map_fixed. eapply Forall_impl; [|exact Hc]. intros c [Hp| ->].
    - now apply plain_facts.
    - reflexivity. }
  rewrite Hl.
  rewrite (@replace_absent _ _ _ (Hne 38%N ltac:(tauto))).
  rewrite (@replace_absent _ _ _ (Hne 43%N ltac:(tauto))).
  rewrite (@replace_absent _ _ _ (Hne 47%N ltac:(tauto))).
  rewrite (@replace_absent _ _ _ (Hne 45%N ltac:(tauto))).
  rewrite (@replace_absent _ _ _ (Hne 95%N ltac:(tauto))).
  rewrite (@replace_absent _ _ _ (no_double_space Hws)).
  rewrite filter_fixed.
  - now rewrite (split_join Hws).
  - eapply Forall_impl; [|exact Hc]. intros c [Hp| ->].
    + destruct (plain_facts c Hp) as (_ & Hw & _). now rewrite Hw.
    + reflexivity.
Qed.

Lemma cm_normalize_idempotent (x : pystr) :
  CategoryMapper.normalize_text (Some (CategoryMapper.normalize_text (Some x)))
  = CategoryMapper.normalize_text (Some x).
Proof. apply cm_normalize_fixed, cm_normalize_normal_form. Qed.

(** *** map_categories.py *)

Lemma mc_normalize_normal_form (x : pystr) :
  normal_form lowered (MapCategories.normalize_text (Some x)).
Proof.
  unfold MapCategories.normalize_text. cbv zeta.
  eexists. split; [|reflexivity]. apply split_tokens.
  change (u "_") with [95%N]. change (u " ") with [32%N].
  assert (H : Forall (fun c => lower_cp c = c /\ c <> 95%N)
                (replace [95%N] [32%N] (lower x))).
  { apply Forall_conj.
    - apply replace_chars; [repeat constructor|].
      unfold lower. apply Forall_map, Forall_forall. intros c _. apply lower_cp_idem.
    - apply replace_char_gone. repeat constructor. discriminate. }
  eapply Forall_impl; [|exact H]. intros c [Hl H95] _.
  unfold lowered. rewrite Hl, N.eqb_refl. cbn [andb]. apply negb_true_iff.
  now apply N.eqb_neq.
Qed.

Lemma mc_normalize_fixed (s : pystr) :
  normal_form lowered s -> MapCategories.normalize_text (Some s) = s.
Proof.
  intro Hnf. pose proof (normal_form_chars Hnf) as Hc.
  destruct Hnf as (ws & Hws & ->).
  unfold MapCategories.normalize_text. cbv zeta.
  change (u "_") with [95%N]. change (u " ") with [32%N].
  assert (Hl : lower (join [32%N] ws) = join [32%N] ws).
  { apply map_fixed. eapply Forall_impl; [|exact Hc]. intros c [Hp| ->]; [|reflexivity].
    unfold lowered in Hp. apply andb_true_iff in Hp as [Hp _]. now apply N.eqb_eq. }
  rewrite Hl, replace_absent, (split_join Hws); [reflexivity|].
  apply contains_char_absent. eapply Forall_impl; [|exact Hc].
  intros c [Hp| ->]; [|discriminate].
  unfold lowered in Hp. apply andb_true_iff in Hp as [_ Hp].
  apply negb_true_iff in Hp. now apply N.eqb_neq.
Qed.

Lemma mc_normalize_idempotent (x : pystr) :
  MapCategories.normalize_text (Some (MapCategories.normalize_text (Some x)))
  = MapCategories.normalize_text (Some x).
Proof. apply mc_normalize_fixed, mc_normalize_normal_form. Qed.

(** ** The claim on normalization *)

(** C8: every variant maps a missing value and the empty string to the empty
    string, and [normalize_text] of category_mapper.py and of
    map_categories.py are idempotent; [normalize_text] of om_to_fsq_map.py is
    not: it rewrites the spelling "centre" only where the word ends before the
    punctuation is removed.  For "centre" followed by the trade mark sign
    U+2122, NFKD turns the sign into the letters "TM", the word "centreTM" is
    left alone, the capitals are then blanked, and the result "centre" is
    normalized to "center" by a second call. *)
Theorem normalize_text_twice :
  (forall x,
     CategoryMapper.normalize_text (Some (CategoryMapper.normalize_text (Some x)))
     = CategoryMapper.normalize_text (Some x))
  /\ (forall x,
        MapCategories.normalize_text (Some (MapCategories.normalize_text (Some x)))
        = MapCategories.normalize_text (Some x))
  /\ (CategoryMapper.normalize_text None = [] /\ CategoryMapper.normalize_text (Some []) = [])
  /\ (OmToFsqMap.normalize_text None = [] /\ OmToFsqMap.normalize_text (Some []) = [])
  /\ (MapCategories.normalize_text None = [] /\ MapCategories.normalize_text (Some []) = [])
  /\ (MapOmToFsq.normalize None = [] /\ MapOmToFsq.normalize (Some []) = [])
  /\ OmToFsqMap.normalize_text (Some (u "centre" ++ [8482%N])) = u "centre"
  /\ OmToFsqMap.normalize_text (Some (u "centre")) = u "center"
  /\ OmToFsqMap.normalize_text
       (Some (OmToFsqMap.normalize_text (Some (u "centre" ++ [8482%N]))))
     <> OmToFsqMap.normalize_text (Some (u "centre" ++ [8482%N])).
Proof.
  split; [exact cm_normalize_idempotent|].
  split; [exact mc_normalize_idempotent|].
  repeat split; try reflexivity.
  vm_compute. discriminate.
Qed.

(** * Further properties of the scripts *)

(** ** simplify_overture_categories.py *)

Lemma lower_lower (x : pystr) : lower (lower x) = lower x.
Proof.
  unfold lower. rewrite map_map. apply map_ext. intro c. apply lower_cp_idem.
Qed.

(** X1: [get_simplified_category] does not tell upper case from lower case:
    two labels that agree once lower-cased fall in the same bucket. *)
Theorem get_simplified_category_ignores_case (a b : pystr) :
  lower a = lower b ->
  Simplify.get_simplified_category a = Simplify.get_simplified_category b.
Proof.
  intro H. unfold Simplify.get_simplified_category. cbv zeta. now rewrite H.
Qed.

Lemma get_simplified_category_ignores_case_witness :
  Simplify.get_simplified_category (u "Fast_Food_RESTAURANT")
  = Simplify.get_simplified_category (u "fast_food_restaurant").
Proof.
  apply get_simplified_category_ignores_case. vm_compute. reflexivity.
Defined.

(** X2: whatever the label, [get_simplified_category] returns one of the
    thirty bucket names: those of its twenty-nine rules or "Other Services". *)
Theorem get_simplified_category_in_buckets (category : pystr) :
  In (Simplify.get_simplified_category category) buckets.
Proof.
  unfold Simplify.get_simplified_category. cbv zeta.
  generalize (lower category). intro cat.
  repeat match goal with
         | |- In (if ?c then _ else _) _ =>
             destruct c; [apply mem_In; vm_compute; reflexivity|]
         end.
  apply mem_In. vm_compute. reflexivity.
Qed.

(** X3: a label that contains "museum" (in any case) is never filed under
    Automotive or Sports & Recreation, whose rules exclude it: it reaches the
    Arts & Entertainment rule at the latest, so its bucket is one of Food &
    Dining, Healthcare & Medical, Retail & Shopping, Beauty & Wellness and
    Arts & Entertainment. *)
Theorem museum_labels (category : pystr) :
  contains (u "museum") (lower category) = true ->
  In (Simplify.get_simplified_category category)
    [ u "Food & Dining"; u "Healthcare & Medical"; u "Retail & Shopping";
      u "Beauty & Wellness"; u "Arts & Entertainment" ].
Proof.
  unfold Simplify.get_simplified_category. cbv zeta.
  generalize (lower category). intros cat H.
  destruct (Simplify.any_in Simplify.food_dining_kw cat); [simpl; tauto|].
  destruct (Simplify.any_in Simplify.healthcare_medical_kw cat); [simpl; tauto|].
  destruct (Simplify.any_in Simplify.retail_shopping_kw cat); [simpl; tauto|].
  assert (M1 : Simplify.none_in (map u ["museum"%string]) cat = false).
  { unfold Simplify.none_in. cbn [map forallb]. now rewrite H. }
  assert (M2 : Simplify.none_in (map u ["museum"; "store"; "equipment"]%string) cat = false).
  { unfold Simplify.none_in. cbn [map forallb]. now rewrite H. }
  rewrite M1, M2, !andb_false_r.
  destruct (_ && _); [simpl; tauto|].
  assert (A : Simplify.any_in Simplify.arts_entertainment_kw cat = true).
  { unfold Simplify.any_in, Simplify.arts_entertainment_kw. cbn [map existsb].
    now rewrite H. }
  rewrite A. simpl; tauto.
Qed.

Lemma museum_labels_witness :
  In (Simplify.get_simplified_category (u "Car_Museum"))
    [ u "Food & Dining"; u "Healthcare & Medical"; u "Retail & Shopping";
      u "Beauty & Wellness"; u "Arts & Entertainment" ].
Proof. apply museum_labels. vm_compute. reflexivity. Defined.

(** X4: the bucket "Business-to-Business" is reached only through the words
    "b2b", "distributor" and "supplier": the test on "wholesaler" asks that
    "wholesale" be absent and so never holds. *)
Theorem business_to_business_words (category : pystr) :
  Simplify.get_simplified_category category = u "Business-to-Business" ->
  contains (u "b2b") (lower category) = true
  \/ contains (u "distributor") (lower category) = true
  \/ contains (u "supplier") (lower category) = true.
Proof.
  unfold Simplify.get_simplified_category. cbv zeta.
  generalize (lower category). intros cat.
  repeat match goal with
         | |- (if ?c then ?x else _) = _ -> _ =>
             destruct c eqn:?; [intro H; vm_compute in H; discriminate H|]
         | |- (if ?c then ?x else _) = _ -> _ => destruct c eqn:E
         end.
  - intros _. rewrite wholesaler_never_alone, orb_false_r in E.
    apply orb_true_iff in E as [E|E]; [|tauto].
    apply orb_true_iff in E as [E|E]; tauto.
  - intro H. vm_compute in H. discriminate H.
Qed.

Lemma business_to_business_words_witness :
  contains (u "b2b") (lower (u "B2B_Services")) = true
  \/ contains (u "distributor") (lower (u "B2B_Services")) = true
  \/ contains (u "supplier") (lower (u "B2B_Services")) = true.
Proof. apply business_to_business_words. vm_compute. reflexivity. Defined.

(** ** Stripping and the regular expressions *)

Lemma lstrip_suffix (s : pystr) : exists h, s = h ++ lstrip s.
Proof.
  induction s as [|c s [h IH]]; [now exists []|]. cbn [lstrip].
  destruct (isspace c); [|now exists []].
  exists (c :: h). cbn [app]. now f_equal.
Qed.

Lemma lstrip_head (s : pystr) :
  match lstrip s with [] => True | c :: _ => isspace c = false end.
Proof.
  induction s as [|c s IH]; [exact I|]. cbn [lstrip].
  destruct (isspace c) eqn:E; [exact IH | exact E].
Qed.

Lemma rstrip_prefix (s : pystr) : exists t, s = rstrip s ++ t.
Proof.
  unfold rstrip. destruct (lstrip_suffix (rev s)) as [h H].
  exists (rev h). rewrite <- rev_app_distr, <- H. now rewrite rev_involutive.
Qed.

Lemma strip_chars (P : N -> Prop) (s : pystr) : Forall P s -> Forall P (strip s).
Proof.
  intro H. unfold strip.
  destruct (lstrip_suffix s) as [h Hh]. destruct (rstrip_prefix (lstrip s)) as [t Ht].
  rewrite Hh in H. apply Forall_app in H as [_ H].
  rewrite Ht in H. now apply Forall_app in H as [H _].
Qed.

Lemma strip_trimmed (s : pystr) : trimmed (strip s).
Proof.
  unfold trimmed, strip. split.
  - pose proof (lstrip_head s) as H.
    destruct (rstrip_prefix (lstrip s)) as [t Ht].
    destruct (rstrip (lstrip s)) as [|c r]; [exact I|].
    rewrite Ht in H. exact H.
  - unfold rstrip. rewrite rev_involutive. apply lstrip_head.
Qed.

Lemma contains_app_r (x a b : pystr) :
  contains x b = true -> contains x (a ++ b) = true.
Proof.
  intro H. induction a as [|c a IH]; [exact H|].
  cbn [app]. rewrite contains_cons, IH. apply orb_true_r.
Qed.

Lemma startswith_app_l (x a b : pystr) :
  startswith x a = true -> startswith x (a ++ b) = true.
Proof.
  revert a. induction x as [|c x IH]; intros a H; [reflexivity|].
  destruct a as [|d a]; [discriminate H|]. cbn [app startswith] in *.
  apply andb_true_iff in H as [-> H]. now apply IH.
Qed.

Lemma contains_app_l (x a b : pystr) :
  contains x a = true -> contains x (a ++ b) = true.
Proof.
  induction a as [|c a IH]; intro H.
  - destruct x; [apply contains_nil | discriminate H].
  - rewrite contains_cons in H. change ((c :: a) ++ b) with (c :: (a ++ b)).
    rewrite contains_cons. apply orb_true_iff in H as [H|H]; apply orb_true_iff.
    + left. exact (startswith_app_l x (c :: a) b H).
    + right. now apply IH.
Qed.

Lemma strip_single_spaced (s : pystr) : single_spaced s -> single_spaced (strip s).
Proof.
  unfold single_spaced, strip. intro H.
  destruct (lstrip_suffix s) as [h Hh]. destruct (rstrip_prefix (lstrip s)) as [t Ht].
  destruct (contains [32%N; 32%N] (rstrip (lstrip s))) eqn:E; [|reflexivity].
  apply (contains_app_l _ _ t) in E. rewrite <- Ht in E.
  apply (contains_app_r _ h) in E. rewrite <- Hh in E. congruence.
Qed.

Lemma sub_chars_chars (p : N -> bool) (new : pystr) (P : N -> Prop) (s : pystr) :
  Forall P new -> (forall c, p c = false -> P c) -> Forall P (sub_chars p new s).
Proof.
  intros Hnew Hp. unfold sub_chars. induction s as [|c s IH]; [constructor|].
  cbn [flat_map]. apply Forall_app. split; [|exact IH].
  destruct (p c) eqn:E; [assumption|]. constructor; [now apply Hp | constructor].
Qed.

Lemma sub_runs_chars (p : N -> bool) (new : pystr) (P : N -> Prop) (s : pystr) :
  Forall P new -> Forall (fun c => p c = false -> P c) s ->
  forall in_run, Forall P (sub_runs_aux p new in_run s).
Proof.
  intros Hnew. induction 1 as [|c s Hc Hs IH]; intro in_run; cbn [sub_runs_aux];
    [constructor|].
  destruct (p c) eqn:E.
  - apply Forall_app. split; [destruct in_run; [constructor | assumption] | apply IH].
  - constructor; [now apply Hc | apply IH].
Qed.

(** After the runs of white space have been replaced by one space each, no
    two spaces are adjacent. *)
Lemma sub_runs_space_single (s : pystr) :
  forall in_run,
    single_spaced (sub_runs_aux isspace [32%N] in_run s)
    /\ (in_run = true ->
        startswith [32%N] (sub_runs_aux isspace [32%N] in_run s) = false).
Proof.
  unfold single_spaced. induction s as [|c s IH]; intro in_run; cbn [sub_runs_aux].
  - split; [reflexivity | intros _; reflexivity].
  - destruct (isspace c) eqn:E.
    + destruct (IH true) as [H1 H2]. specialize (H2 eq_refl). destruct in_run.
      * cbn [app]. split; [exact H1 | intros _; exact H2].
      * cbn [app]. split; [|discriminate].
        rewrite contains_cons, H1, orb_false_r.
        destruct (sub_runs_aux isspace [32%N] true s) as [|d r]; [reflexivity|].
        cbn [startswith] in *. rewrite andb_true_r in *. now rewrite H2.
    + destruct (IH false) as [H1 _].
      assert (Hc : (32 =? c)%N = false).
      { destruct (N.eqb_spec 32 c) as [<-|]; [discriminate E | reflexivity]. }
      split.
      * rewrite contains_cons, H1, orb_false_r. cbn [startswith]. now rewrite Hc.
      * intros _. cbn [startswith]. now rewrite Hc.
Qed.

(** ** om_to_fsq_map.py: normalized texts and leaf labels *)

(** X5: whatever the input, [normalize_text] of om_to_fsq_map.py returns a
    text made of lower-case ASCII letters, digits and spaces only, with no
    space at either end and no two spaces in a row. *)
Theorem om_normalize_text_shape (value : option pystr) :
  Forall (fun c => alnum_or_space c = true) (OmToFsqMap.normalize_text value)
  /\ trimmed (OmToFsqMap.normalize_text value)
  /\ single_spaced (OmToFsqMap.normalize_text value).
Proof.
  destruct value as [value|]; [|repeat split; constructor].
  unfold OmToFsqMap.normalize_text. cbv zeta.
  match goal with
  | |- context [sub_chars OmToFsqMap.not_alnum_space _ ?t] => generalize t
  end.
  intro text. change (u " ") with [32%N]. split; [|split].
  - apply strip_chars. unfold sub_runs. apply sub_runs_chars.
    + repeat constructor.
    + apply sub_chars_chars.
      * repeat constructor.
      * intros c Hc Hs. unfold OmToFsqMap.not_alnum_space in Hc.
        apply negb_false_iff in Hc. rewrite Hs, orb_false_r in Hc.
        unfold alnum_or_space. now rewrite Hc.
  - apply strip_trimmed.
  - apply strip_single_spaced. apply sub_runs_space_single.
Qed.

Lemma split_on_char_parts (c : N) (s : pystr) :
  forall cur,
    Forall (fun x => x <> c) cur ->
    Forall (Forall (fun x => x <> c)) (split_on_aux [c] 0 cur s).
Proof.
  induction s as [|x s IH]; intros cur Hcur; cbn [split_on_aux].
  - constructor; [now apply Forall_rev | constructor].
  - cbn [startswith List.length Nat.sub]. rewrite andb_true_r.
    destruct (N.eqb_spec c x) as [E|E].
    + constructor; [now apply Forall_rev | apply IH; constructor].
    + apply IH. constructor; [congruence | assumption].
Qed.

Lemma split_on_aux_nonempty (sep : pystr) (s : pystr) :
  forall skip cur, split_on_aux sep skip cur s <> [].
Proof.
  induction s as [|x s IH]; intros skip cur; cbn [split_on_aux]; [discriminate|].
  destruct skip; [|apply IH].
  destruct (startswith sep (x :: s)); [discriminate | apply IH].
Qed.

Lemma last_of_nonempty {A : Type} (P : A -> Prop) (l : list A) (d : A) :
  l <> [] -> Forall P l -> P (last l d).
Proof.
  intros Hne H. induction H as [|x l Hx Hl IH]; [congruence|].
  destruct l as [|y l]; [exact Hx | apply IH; discriminate].
Qed.

(** X6: the leaf label that [extract_leaf_label] returns never contains the
    separator character '>' and carries no white space at its ends; it is
    empty for an empty label. *)
Theorem extract_leaf_label_shape (category_label : pystr) :
  Forall (fun c => c <> 62%N) (OmToFsqMap.extract_leaf_label category_label)
  /\ trimmed (OmToFsqMap.extract_leaf_label category_label)
  /\ OmToFsqMap.extract_leaf_label [] = [].
Proof.
  split; [|split; [|reflexivity]].
  - unfold OmToFsqMap.extract_leaf_label.
    destruct category_label as [|c l]; [constructor|].
    cbv zeta. change (u ">") with [62%N].
    apply last_of_nonempty.
    + intro E. apply map_eq_nil in E. now apply split_on_aux_nonempty in E.
    + apply Forall_map.
      eapply Forall_impl; [|apply split_on_char_parts; constructor].
      intros w Hw. now apply strip_chars.
  - unfold OmToFsqMap.extract_leaf_label.
    destruct category_label as [|c l]; [split; exact I|].
    cbv zeta. apply last_of_nonempty.
    + intro E. apply map_eq_nil in E. now apply split_on_aux_nonempty in E.
    + apply Forall_map, Forall_forall. intros w _. apply strip_trimmed.
Qed.

(** ** Sorting keeps the elements, their number and their distinctness *)

Lemma insert_desc_sorted {A : Type} (key : A -> Q) (x : A) (l : list A) :
  descending (map key l) -> descending (map key (insert_desc key x l)).
Proof.
  unfold descending. induction l as [|y l IH]; intro H; cbn [insert_desc map].
  - repeat constructor.
  - apply StronglySorted_inv in H as [Hl Hy]. cbn [map] in *.
    destruct (Qle_bool (key y) (key x)) eqn:E.
    + apply Qle_bool_iff in E. cbn [map]. constructor.
      * constructor; assumption.
      * constructor; [assumption|].
        eapply Forall_impl; [|exact Hy]. intros z Hz. cbv beta in *.
        now apply Qle_trans with (key y).
    + assert (Lt : key x < key y).
      { apply Qnot_le_lt. intro L. apply Qle_bool_iff in L. congruence. }
      cbn [map]. constructor; [now apply IH|].
      apply Forall_forall. intros z Hz. apply in_map_iff in Hz as (w & <- & Hw).
      apply insert_desc_In in Hw as [->|Hw]; [now apply Qlt_le_weak|].
      rewrite Forall_forall in Hy. apply Hy. now apply in_map.
Qed.

Lemma sort_desc_sorted {A : Type} (key : A -> Q) (l : list A) :
  descending (map key (sort_desc key l)).
Proof.
  induction l as [|x l IH]; [constructor|]. cbn [sort_desc fold_right].
  now apply insert_desc_sorted.
Qed.

Lemma firstn_sorted (n : nat) (l : list Q) : descending l -> descending (firstn n l).
Proof.
  unfold descending. revert l. induction n as [|n IH]; intros l H; [constructor|].
  destruct l as [|x l]; [constructor|]. cbn [firstn].
  apply StronglySorted_inv in H as [Hl Hx]. constructor; [now apply IH|].
  apply Forall_forall. intros y Hy. apply firstn_In in Hy.
  rewrite Forall_forall in Hx. now apply Hx.
Qed.

Lemma insert_desc_NoDup {A B : Type} (f : A -> B) (key : A -> Q) (x : A) (l : list A) :
  NoDup (map f (x :: l)) -> NoDup (map f (insert_desc key x l)).
Proof.
  induction l as [|y l IH]; intro H; cbn [insert_desc]; [exact H|].
  destruct (Qle_bool (key y) (key x)); [exact H|].
  cbn [map] in *. apply NoDup_cons_iff in H as [Hx H].
  apply NoDup_cons_iff in H as [Hy Hl]. constructor.
  - intro Hin. apply in_map_iff in Hin as (z & Ez & Hz).
    apply insert_desc_In in Hz as [->|Hz].
    + apply Hx. left. now symmetry.
    + apply Hy. rewrite <- Ez. now apply in_map.
  - apply IH. constructor; [|assumption]. intro Hin. apply Hx. now right.
Qed.

Lemma sort_desc_NoDup {A B : Type} (f : A -> B) (key : A -> Q) (l : list A) :
  NoDup (map f l) -> NoDup (map f (sort_desc key l)).
Proof.
  induction l as [|x l IH]; intro H; [constructor|]. cbn [sort_desc fold_right].
  cbn [map] in H. apply NoDup_cons_iff in H as [Hx Hl].
  apply insert_desc_NoDup. cbn [map]. constructor; [|now apply IH].
  intro Hin. apply Hx. apply in_map_iff in Hin as (z & Ez & Hz).
  apply sort_desc_In in Hz. rewrite <- Ez. now apply in_map.
Qed.

Lemma firstn_NoDup {A : Type} (n : nat) (l : list A) : NoDup l -> NoDup (firstn n l).
Proof.
  revert l. induction n as [|n IH]; intros l H; [constructor|].
  destruct l as [|x l]; [constructor|]. cbn [firstn].
  apply NoDup_cons_iff in H as [Hx Hl]. constructor; [|now apply IH].
  intro Hin. apply Hx. now apply firstn_In in Hin.
Qed.

(** ** om_to_fsq_map.py: candidates and the best match *)

Lemma grouped_update_keys (g : list (nat * (Q * pystr))) (i : nat) (sc : Q) (mt : pystr) :
  NoDup (map fst g) ->
  NoDup (map fst (OmToFsqMap.grouped_update g i sc mt))
  /\ (forall k, In k (map fst (OmToFsqMap.grouped_update g i sc mt)) ->
                k = i \/ In k (map fst g)).
Proof.
  induction g as [|[k [sc' mt']] g IH]; intro H; cbn [OmToFsqMap.grouped_update].
  - split; [repeat constructor; intros [] | intros k [<-|[]]; now left].
  - cbn [map fst] in H. apply NoDup_cons_iff in H as [Hk Hg].
    destruct (Nat.eqb_spec k i) as [->|Hne].
    + split.
      * destruct (Qltb sc' sc); cbn [map fst]; constructor; assumption.
      * intros k Hin. right. destruct (Qltb sc' sc); exact Hin.
    + destruct (IH Hg) as [N I]. cbn [map fst]. split.
      * constructor; [|assumption]. intro Hin. apply I in Hin as [->|Hin]; tauto.
      * intros k' [<-|Hin]; [right; now left|].
        apply I in Hin as [->|Hin]; [now left | right; now right].
Qed.

(** X7: [choose_best_matches] returns at most [limit] matches, no FSQ row
    twice, in descending order of score. *)
Theorem choose_best_matches_ranked (WRatio : pystr -> pystr -> Q) (query : pystr)
    (candidate_texts : list pystr) (candidate_to_index : list nat) (limit : nat)
    (allowed_fsq_indices : option (list nat)) :
  let top := OmToFsqMap.choose_best_matches WRatio query candidate_texts
               candidate_to_index limit allowed_fsq_indices in
  (List.length top <= limit)%nat
  /\ NoDup (map (fun m => fst (fst m)) top)
  /\ descending (map (fun m => snd (fst m)) top).
Proof.
  unfold OmToFsqMap.choose_best_matches.
  destruct (match allowed_fsq_indices with Some _ => _ | None => _ end)
    as [search_texts search_map].
  cbv zeta.
  set (results := extract WRatio query search_texts (limit * 3)).
  set (step := fun grouped (r : pystr * Q * nat) =>
                 let '(cand_text, score, cand_idx) := r in
                 OmToFsqMap.grouped_update grouped (nth cand_idx search_map 0%nat)
                   score cand_text).
  change (fold_left _ results []) with (fold_left step results []).
  assert (G : NoDup (map fst (fold_left step results []))).
  { apply (@fold_left_inv _ _ (fun g => NoDup (map fst g))); [|constructor].
    intros g [[ct sc] ci] _ Hg. now apply grouped_update_keys. }
  split; [apply firstn_le_length|]. split.
  - rewrite <- firstn_map. apply firstn_NoDup.
    apply sort_desc_NoDup. rewrite map_map.
    erewrite map_ext; [exact G|]. now intros [k [sc mt]].
  - rewrite <- firstn_map. apply firstn_sorted, sort_desc_sorted.
Qed.

(** ** om_to_fsq_map.py: the tables of [load_fsq_categories] *)

Lemma load_step_rows (st : list OmToFsqMap.FSQCategory * list pystr * list nat)
    (row : OmToFsqMap.csv_fsq) :
  fst (fst (OmToFsqMap.load_step st row))
  = fst (fst st)
    ++ [ {| OmToFsqMap.category_id := OmToFsqMap.csv_id row;
            OmToFsqMap.category_label := OmToFsqMap.csv_label row;
            OmToFsqMap.category_primary := OmToFsqMap.csv_primary row;
            OmToFsqMap.category_secondary := OmToFsqMap.csv_secondary row;
            OmToFsqMap.leaf_label :=
              OmToFsqMap.extract_leaf_label (OmToFsqMap.csv_label row) |} ].
Proof.
  destruct st as [[rows texts] idxs]. unfold OmToFsqMap.load_step. cbv zeta.
  destruct (OmToFsqMap.normalize_text (Some (OmToFsqMap.csv_label row)));
    destruct (OmToFsqMap.normalize_text
                (Some (OmToFsqMap.extract_leaf_label (OmToFsqMap.csv_label row))));
    try destruct (str_eqb _ _); reflexivity.
Qed.

Lemma load_fold_rows (file : list OmToFsqMap.csv_fsq) :
  forall st,
    map OmToFsqMap.category_label (fst (fst (fold_left OmToFsqMap.load_step file st)))
    = map OmToFsqMap.category_label (fst (fst st)) ++ map OmToFsqMap.csv_label file
    /\ (Forall (fun r => OmToFsqMap.leaf_label r
                         = OmToFsqMap.extract_leaf_label (OmToFsqMap.category_label r))
          (fst (fst st)) ->
        Forall (fun r => OmToFsqMap.leaf_label r
                         = OmToFsqMap.extract_leaf_label (OmToFsqMap.category_label r))
          (fst (fst (fold_left OmToFsqMap.load_step file st)))).
Proof.
  induction file as [|row file IH]; intro st; cbn [fold_left map].
  - rewrite app_nil_r. split; [reflexivity | trivial].
  - destruct (IH (OmToFsqMap.load_step st row)) as [E F]. split.
    + rewrite E, load_step_rows, map_app, <- app_assoc. reflexivity.
    + intro H. apply F. rewrite load_step_rows. apply Forall_app. split; [exact H|].
      constructor; [reflexivity | constructor].
Qed.

Lemma load_step_ok (st : list OmToFsqMap.FSQCategory * list pystr * list nat)
    (row : OmToFsqMap.csv_fsq) :
  tables_ok st -> tables_ok (OmToFsqMap.load_step st row).
Proof.
  destruct st as [[rows texts] idxs]. unfold tables_ok. cbn [fst snd].
  intros (L & R & T). unfold OmToFsqMap.load_step. cbv zeta.
  match goal with |- context [rows ++ [?f]] => set (fsq := f) end.
  assert (N : (List.length rows < List.length (rows ++ [fsq]))%nat).
  { rewrite length_app. cbn [List.length]. lia. }
  assert (R' : Forall (fun i => (i < List.length (rows ++ [fsq]))%nat) idxs).
  { eapply Forall_impl; [|exact R]. intros i Hi. cbv beta in *. lia. }
  clearbody fsq.
  destruct (OmToFsqMap.normalize_text (Some (OmToFsqMap.csv_label row))) as [|c full];
    destruct (OmToFsqMap.normalize_text
                (Some (OmToFsqMap.extract_leaf_label (OmToFsqMap.csv_label row))))
      as [|d leaf];
    try destruct (str_eqb _ _); cbv beta iota; cbn [fst snd];
    (split; [rewrite ?length_app; cbn [List.length]; lia|]);
    rewrite ?Forall_app; repeat split; try assumption;
    (constructor; [assumption || discriminate | constructor]).
Qed.

Lemma load_fsq_categories_ok (file : list OmToFsqMap.csv_fsq) :
  tables_ok (OmToFsqMap.load_fsq_categories file).
Proof.
  unfold OmToFsqMap.load_fsq_categories.
  apply (@fold_left_inv _ _ tables_ok).
  - intros st row _. apply load_step_ok.
  - unfold tables_ok. cbn [fst snd List.length]. repeat split; constructor.
Qed.

(** X8: [load_fsq_categories] keeps one row per row of the FSQ file, in
    file order and with the file's label and its leaf; the two candidate
    lists have the same length, every entry of [candidate_to_index] is the
    index of a row of [fsq_rows], and no candidate text is empty. *)
Theorem load_fsq_categories_tables (file : list OmToFsqMap.csv_fsq) :
  let fsq_rows := fst (fst (OmToFsqMap.load_fsq_categories file)) in
  let candidate_texts := snd (fst (OmToFsqMap.load_fsq_categories file)) in
  let candidate_to_index := snd (OmToFsqMap.load_fsq_categories file) in
  map OmToFsqMap.category_label fsq_rows = map OmToFsqMap.csv_label file
  /\ Forall (fun r => OmToFsqMap.leaf_label r
                      = OmToFsqMap.extract_leaf_label (OmToFsqMap.category_label r))
       fsq_rows
  /\ List.length candidate_texts = List.length candidate_to_index
  /\ Forall (fun i => (i < List.length fsq_rows)%nat) candidate_to_index
  /\ Forall (fun t => t <> []) candidate_texts.
Proof.
  cbv zeta. destruct (load_fold_rows file ([], [], [])) as [E F].
  destruct (load_fsq_categories_ok file) as (L & R & T).
  unfold OmToFsqMap.load_fsq_categories in *. cbn [fst snd map app] in E, F.
  repeat split; try assumption. apply F. constructor.
Qed.

(** ** om_to_fsq_map.py: the rows a source category may be matched to *)

Lemma primary_indices_range (fsq_rows : list OmToFsqMap.FSQCategory) (primary : pystr)
    (i : nat) :
  In i (OmToFsqMap.primary_indices fsq_rows primary) ->
  (i < List.length fsq_rows)%nat
  /\ OmToFsqMap.normalize_text
       (Some (OmToFsqMap.category_primary (nth i fsq_rows OmToFsqMap.blank_fsq)))
     = primary.
Proof.
  unfold OmToFsqMap.primary_indices. intro H.
  apply in_map_iff in H as ([j r] & <- & H). apply filter_In in H as [H E].
  apply (@In_indexed _ _ _ _ OmToFsqMap.blank_fsq) in H as [Hlt Hnth].
  cbn [fst snd] in *. split; [assumption|]. rewrite Hnth.
  now apply str_eqb_eq.
Qed.

Lemma allowed_indices_filtered (P : nat -> Prop) (all narrowed : list nat)
    (lodging : bool) (indices : list nat) :
  Forall P all ->
  match
    (if lodging
     then match narrowed with
          | [] => all
          | _ => filter (fun i => OmToFsqMap.in_set i narrowed) all
          end
     else all)
  with
  | [] => None
  | _ =>
      Some (if lodging
            then match narrowed with
                 | [] => all
                 | _ => filter (fun i => OmToFsqMap.in_set i narrowed) all
                 end
            else all)
  end = Some indices ->
  indices <> [] /\ Forall P indices.
Proof.
  intro A.
  assert (C : Forall P
                (if lodging
                 then match narrowed with
                      | [] => all
                      | _ => filter (fun i => OmToFsqMap.in_set i narrowed) all
                      end
                 else all)).
  { destruct lodging; [|exact A]. destruct narrowed; [exact A|].
    apply Forall_forall. intros i Hi. apply filter_In in Hi as [Hi _].
    rewrite Forall_forall in A. now apply A. }
  destruct (if lodging then _ else all) as [|i0 rest]; [discriminate|].
  intro H. injection H as <-. split; [discriminate | exact C].
Qed.

Lemma primary_indices_allowed (fsq_rows : list OmToFsqMap.FSQCategory)
    (prims : list pystr) :
  Forall (fun i =>
            (i < List.length fsq_rows)%nat
            /\ In (OmToFsqMap.normalize_text
                     (Some (OmToFsqMap.category_primary
                              (nth i fsq_rows OmToFsqMap.blank_fsq)))) prims)
    (flat_map (OmToFsqMap.primary_indices fsq_rows) prims).
Proof.
  apply Forall_forall. intros i Hi.
  apply in_flat_map in Hi as (p & Hp & Hi).
  apply primary_indices_range in Hi as [Hlt E]. split; [assumption|].
  now rewrite E.
Qed.

(** X9: when [allowed_indices_for_om] returns a set, the set is not empty,
    holds only indices of FSQ rows, and the normalized primary category of
    each such row is one allowed for the simplified category (or the one
    added for business-to-business). *)
Theorem allowed_indices_for_om_rows (fsq_rows : list OmToFsqMap.FSQCategory)
    (om_simplified om_updated : pystr) (indices : list nat) :
  OmToFsqMap.allowed_indices_for_om fsq_rows om_simplified om_updated = Some indices ->
  indices <> []
  /\ Forall (fun i =>
               (i < List.length fsq_rows)%nat
               /\ In (OmToFsqMap.normalize_text
                        (Some (OmToFsqMap.category_primary
                                 (nth i fsq_rows OmToFsqMap.blank_fsq))))
                    (u "business and professional services"
                     :: OmToFsqMap.dict_get OmToFsqMap.om_to_fsq_primary
                          (OmToFsqMap.normalize_text (Some om_simplified))))
       indices.
Proof.
  unfold OmToFsqMap.allowed_indices_for_om. cbv zeta.
  match goal with
  | |- context [if ?c then ?a :: ?p else ?p] =>
      generalize (fun q (H : In q (if c then a :: p else p)) =>
                    match c as c0 return In q (if c0 then a :: p else p) -> In q (a :: p)
                    with true => fun H => H | false => fun H => or_intror H end H);
      generalize (if c then a :: p else p)
  end.
  intros prims P.
  destruct prims as [|p0 prims']; [discriminate|].
  intro H.
  match type of H with
  | match (if ?c then match ?n with [] => ?a | _ => _ end else _) with _ => _ end = _ =>
      apply (@allowed_indices_filtered _ a n c indices
               (primary_indices_allowed fsq_rows (p0 :: prims'))) in H
  end.
  destruct H as [N F].
  split; [exact N|]. eapply Forall_impl; [|exact F].
  intros i [Hlt Hin]. split; [exact Hlt | now apply P].
Qed.

Lemma allowed_indices_for_om_rows_witness :
  [0%nat] <> []
  /\ Forall (fun i =>
               (i < List.length (fst (fst (OmToFsqMap.load_fsq_categories Sample.fsq_file'))))%nat
               /\ In (OmToFsqMap.normalize_text
                        (Some (OmToFsqMap.category_primary
                                 (nth i (fst (fst (OmToFsqMap.load_fsq_categories
                                                     Sample.fsq_file')))
                                    OmToFsqMap.blank_fsq))))
                    (u "business and professional services"
                     :: OmToFsqMap.dict_get OmToFsqMap.om_to_fsq_primary
                          (OmToFsqMap.normalize_text (Some (u "Food & Dining")))))
       [0%nat].
Proof.
  apply (@allowed_indices_for_om_rows
           (fst (fst (OmToFsqMap.load_fsq_categories Sample.fsq_file')))
           (u "Food & Dining") (u "Food & Dining") [0%nat]).
  vm_compute. reflexivity.
Defined.

(** ** om_to_fsq_map.py: the matches of a source category *)

Lemma extract_index (scorer : pystr -> pystr -> Q) (query : pystr)
    (choices : list pystr) (limit : nat) (r : pystr * Q * nat) :
  In r (extract scorer query choices limit) -> (snd r < List.length choices)%nat.
Proof.
  unfold extract. intro H. apply firstn_In, sort_desc_In, in_map_iff in H.
  destruct H as ([idx choice] & <- & H).
  apply (@In_indexed _ _ _ _ choice) in H as [H _]. exact H.
Qed.

Lemma search_space_range (texts : list pystr) (to_index : list nat)
    (allowed : option (list nat)) (n : nat) :
  List.length texts = List.length to_index ->
  Forall (fun i => (i < n)%nat) to_index ->
  List.length (fst (search_space texts to_index allowed))
  = List.length (snd (search_space texts to_index allowed))
  /\ Forall (fun i => (i < n)%nat) (snd (search_space texts to_index allowed)).
Proof.
  intros L R. unfold search_space. destruct allowed as [al|]; [|now split].
  destruct (filter _ _) as [|x f] eqn:E; [now split|]. cbn [fst snd].
  split; [now rewrite !length_map|].
  apply Forall_forall. intros i Hi. apply in_map_iff in Hi as ([t j] & <- & Hin).
  rewrite <- E in Hin. apply filter_In in Hin as [Hin _].
  apply in_combine_r in Hin. rewrite Forall_forall in R. now apply R.
Qed.

Lemma choose_best_matches_unfold (WRatio : pystr -> pystr -> Q) (query : pystr)
    (texts : list pystr) (to_index : list nat) (limit : nat)
    (allowed : option (list nat)) :
  OmToFsqMap.choose_best_matches WRatio query texts to_index limit allowed
  = firstn limit
      (sort_desc (fun x => snd (fst x))
         (map (fun '(fsq_idx, (sc, mt)) => (fsq_idx, sc, mt))
            (fold_left
               (fun grouped '(cand_text, score, cand_idx) =>
                  OmToFsqMap.grouped_update grouped
                    (nth cand_idx (snd (search_space texts to_index allowed)) 0%nat)
                    score cand_text)
               (extract WRatio query (fst (search_space texts to_index allowed))
                  (limit * 3))
               []))).
Proof.
  unfold OmToFsqMap.choose_best_matches, search_space.
  destruct allowed as [al|]; [|reflexivity].
  destruct (filter _ _); reflexivity.
Qed.

Lemma choose_best_matches_range (WRatio : pystr -> pystr -> Q) (query : pystr)
    (texts : list pystr) (to_index : list nat) (limit : nat)
    (allowed : option (list nat)) (n : nat) :
  List.length texts = List.length to_index ->
  Forall (fun i => (i < n)%nat) to_index ->
  Forall (fun m => (fst (fst m) < n)%nat)
    (OmToFsqMap.choose_best_matches WRatio query texts to_index limit allowed).
Proof.
  intros L R. rewrite choose_best_matches_unfold.
  destruct (@search_space_range _ _ allowed _ L R) as [L' R'].
  destruct (search_space texts to_index allowed) as [st sm]. cbn [fst snd] in *.
  set (results := extract WRatio query st (limit * 3)).
  assert (Hres : forall r, In r results -> (snd r < List.length sm)%nat).
  { intros r Hr. rewrite <- L'. exact (extract_index _ _ _ _ _ Hr). }
  clearbody results.
  set (step := fun grouped (r : pystr * Q * nat) =>
                 let '(cand_text, score, cand_idx) := r in
                 OmToFsqMap.grouped_update grouped (nth cand_idx sm 0%nat)
                   score cand_text).
  change (fold_left _ results []) with (fold_left step results []).
  assert (G : NoDup (map fst (fold_left step results []))
              /\ Forall (fun k => (k < n)%nat) (map fst (fold_left step results []))).
  { apply (@fold_left_inv _ _
             (fun g => NoDup (map fst g) /\ Forall (fun k => (k < n)%nat) (map fst g)));
      [|split; constructor].
    intros g [[ct sc] ci] Hin [Hn Hf].
    destruct (@grouped_update_keys g (nth ci sm 0%nat) sc ct Hn) as [N I].
    split; [exact N|]. apply Forall_forall. intros k Hk.
    apply I in Hk as [->|Hk].
    - rewrite Forall_forall in R'. apply R'. apply nth_In.
      exact (Hres _ Hin).
    - rewrite Forall_forall in Hf. now apply Hf. }
  destruct G as [_ G]. apply Forall_forall. intros m Hm.
  apply firstn_In, sort_desc_In, in_map_iff in Hm.
  destruct Hm as ([k [sc mt]] & <- & Hin). cbn [fst].
  rewrite Forall_forall in G. apply G. apply in_map_iff.
  now exists (k, (sc, mt)).
Qed.

Lemma choose_best_matches_descending (WRatio : pystr -> pystr -> Q) (query : pystr)
    (texts : list pystr) (to_index : list nat) (limit : nat)
    (allowed : option (list nat)) :
  descending
    (map (fun m => snd (fst m))
       (OmToFsqMap.choose_best_matches WRatio query texts to_index limit allowed)).
Proof.
  rewrite choose_best_matches_unfold, <- firstn_map.
  apply firstn_sorted, sort_desc_sorted.
Qed.

Lemma best_step_stays (top : list (nat * Q * pystr)) (i : nat) (sc : Q) (mt : pystr) :
  Forall (fun m => snd (fst m) <= sc) top ->
  fold_left OmToFsqMap.best_step top (Some i, sc, mt) = (Some i, sc, mt).
Proof.
  induction 1 as [|[[j s] t] top Hs _ IH]; [reflexivity|].
  cbn [fold_left OmToFsqMap.best_step]. cbn [fst snd] in Hs.
  apply Qltb_ge in Hs. rewrite Hs. exact IH.
Qed.

Lemma best_is_head (top : list (nat * Q * pystr)) (i : nat) (sc : Q) (mt : pystr) :
  0 <= sc ->
  descending (map (fun m => snd (fst m)) ((i, sc, mt) :: top)) ->
  fold_left OmToFsqMap.best_step ((i, sc, mt) :: top) (None, - (1), [])
  = (Some i, sc, mt).
Proof.
  intros Hsc D. cbn [fold_left OmToFsqMap.best_step].
  assert (E : Qltb (- (1)) sc = true) by (apply Qltb_lt; lra).
  rewrite E. apply best_step_stays.
  unfold descending in D. cbn [map fst snd] in D.
  apply StronglySorted_inv in D as [_ D].
  apply Forall_forall. intros m Hm. rewrite Forall_forall in D.
  apply D. exact (in_map (fun m0 : nat * Q * pystr => snd (fst m0)) top m Hm).
Qed.

(** X10: with the tables that [load_fsq_categories] builds, every match of
    [choose_best_matches] names a row of [fsq_rows], so that
    [fsq_rows[fsq_idx]] in [map_om_to_fsq] is always defined. *)
Theorem choose_best_matches_rows (WRatio : pystr -> pystr -> Q) (query : pystr)
    (file : list OmToFsqMap.csv_fsq) (limit : nat) (allowed : option (list nat)) :
  Forall (fun m =>
            (fst (fst m)
             < List.length (fst (fst (OmToFsqMap.load_fsq_categories file))))%nat)
    (OmToFsqMap.choose_best_matches WRatio query
       (snd (fst (OmToFsqMap.load_fsq_categories file)))
       (snd (OmToFsqMap.load_fsq_categories file)) limit allowed).
Proof.
  destruct (load_fsq_categories_ok file) as (L & R & _).
  now apply choose_best_matches_range.
Qed.

(** X11: in a row written by [map_om_to_fsq], the FSQ category, its id and
    MATCH_SCORE are those of the first alternate, no other alternate has a
    higher score, and there are at most five alternates.  The scorer is any
    function that returns no negative score. *)
Theorem written_match_is_best (WRatio : pystr -> pystr -> Q)
    (fsq_rows : list OmToFsqMap.FSQCategory) (candidate_texts : list pystr)
    (candidate_to_index : list nat) (row : OmToFsqMap.om_row)
    (out : OmToFsqMap.out_row) :
  (forall query choice, 0 <= WRatio query choice) ->
  OmToFsqMap.map_row WRatio fsq_rows candidate_texts candidate_to_index row = Some out ->
  exists rest,
    OmToFsqMap.ALTERNATES out
    = (OmToFsqMap.FSQ_CATEGORY_LABEL out, OmToFsqMap.FSQ_CATEGORY_ID out,
       OmToFsqMap.MATCH_SCORE out) :: rest
    /\ Forall (fun a => snd a <= OmToFsqMap.MATCH_SCORE out) rest
    /\ (List.length rest < 5)%nat.
Proof.
  intros Hnn. unfold OmToFsqMap.map_row. cbv zeta.
  destruct (OmToFsqMap.normalize_text (Some (OmToFsqMap.CATEGORY_LABEL row)))
    as [|c q]; [discriminate|].
  match goal with
  | |- context [OmToFsqMap.choose_best_matches WRatio ?q ?t ?i ?l ?a] =>
      pose proof (choose_best_matches_descending WRatio q t i l a) as D;
      pose proof (@choose_best_matches_scores WRatio Hnn q t i l a) as S;
      assert (Len : (List.length (OmToFsqMap.choose_best_matches WRatio q t i l a) <= 5)%nat)
        by (unfold OmToFsqMap.choose_best_matches;
            match goal with |- context [let '(_, _) := ?x in _] => destruct x end;
            apply firstn_le_length);
      generalize dependent (OmToFsqMap.choose_best_matches WRatio q t i l a)
  end.
  intros top D S Len.
  destruct top as [|[[i sc] mt] top]; [discriminate|].
  rewrite (@best_is_head top i sc mt); [|now inversion S|exact D].
  intro H. injection H as <-. cbn [OmToFsqMap.ALTERNATES OmToFsqMap.FSQ_CATEGORY_LABEL
    OmToFsqMap.FSQ_CATEGORY_ID OmToFsqMap.MATCH_SCORE map].
  eexists. split; [reflexivity|]. split.
  - unfold descending in D. cbn [map fst snd] in D.
    apply StronglySorted_inv in D as [_ D].
    apply Forall_forall. intros a Ha. apply in_map_iff in Ha as ([[j s] t] & <- & Hin).
    cbn [snd]. rewrite Forall_forall in D.
    apply (D s). apply in_map_iff. now exists (j, s, t).
  - rewrite length_map. cbn [List.length] in Len. lia.
Qed.

Lemma written_match_is_best_witness :
  let out :=
    {| OmToFsqMap.OM_CATEGORY_LABEL := u "Cafe";
       OmToFsqMap.OM_SIMPLIFIED_CATEGORY := u "Food & Dining";
       OmToFsqMap.OM_UPDATED_CATEGORY := u "Food & Dining";
       OmToFsqMap.FSQ_CATEGORY_ID := u "13032";
       OmToFsqMap.FSQ_CATEGORY_LABEL := u "Dining and Drinking > Cafe";
       OmToFsqMap.FSQ_CATEGORY_PRIMARY := u "Dining and Drinking";
       OmToFsqMap.FSQ_CATEGORY_SECONDARY := u "Cafe";
       OmToFsqMap.MATCH_SCORE := 100;
       OmToFsqMap.MATCHED_TEXT := u "cafe";
       OmToFsqMap.ALTERNATES := [(u "Dining and Drinking > Cafe", u "13032", 100)] |} in
  exists rest,
    OmToFsqMap.ALTERNATES out
    = (OmToFsqMap.FSQ_CATEGORY_LABEL out, OmToFsqMap.FSQ_CATEGORY_ID out,
       OmToFsqMap.MATCH_SCORE out) :: rest
    /\ Forall (fun a => snd a <= OmToFsqMap.MATCH_SCORE out) rest
    /\ (List.length rest < 5)%nat.
Proof.
  intro out.
  apply (@written_match_is_best Sample.scorer
           (fst (fst (OmToFsqMap.load_fsq_categories Sample.fsq_file')))
           (snd (fst (OmToFsqMap.load_fsq_categories Sample.fsq_file')))
           (snd (OmToFsqMap.load_fsq_categories Sample.fsq_file'))
           (Sample.om_row "Cafe") out).
  - intros query choice. unfold Sample.scorer.
    destruct (str_eqb query choice); unfold Qle; simpl; lia.
  - vm_compute. reflexivity.
Defined.

(** ** map_om_to_fsq.py: normalized labels and the tables read *)

(** X12: whatever the input, [normalize] of map_om_to_fsq.py returns a
    text made only of characters that NON_ALNUM keeps (lower-case ASCII
    letters, digits, the space and the ampersand), with no white space at
    either end and no two spaces in a row. *)
Theorem om_normalize_shape (text : option pystr) :
  Forall (fun c => MapOmToFsq.non_alnum c = false) (MapOmToFsq.normalize text)
  /\ trimmed (MapOmToFsq.normalize text)
  /\ single_spaced (MapOmToFsq.normalize text).
Proof.
  destruct text as [text|]; [|repeat split; constructor].
  unfold MapOmToFsq.normalize. cbv zeta.
  match goal with
  | |- context [sub_chars MapOmToFsq.non_alnum _ ?t] => generalize t
  end.
  intro t. change (u " ") with [32%N]. split; [|split].
  - apply strip_chars. unfold sub_runs. apply sub_runs_chars.
    + repeat constructor.
    + apply sub_chars_chars.
      * repeat constructor.
      * intros c Hc _. exact Hc.
  - apply strip_trimmed.
  - apply strip_single_spaced. apply sub_runs_space_single.
Qed.

(** X13: [load_fsq_categories] of map_om_to_fsq.py skips the rows of the
    FSQ file that have no label and keeps the others in file order; the
    two normalized texts of a row are those of its label and of the last
    part of its label. *)
Theorem load_fsq_categories_labels (file : list MapOmToFsq.csv_fsq) :
  map MapOmToFsq.Category_Label (MapOmToFsq.load_fsq_categories file)
  = filter (fun label => match label with [] => false | _ => true end)
      (map MapOmToFsq.csv_label file)
  /\ Forall (fun r =>
               MapOmToFsq.norm r = MapOmToFsq.normalize (Some (MapOmToFsq.Category_Label r))
               /\ MapOmToFsq.norm_leaf r
                  = MapOmToFsq.normalize
                      (Some (strip (last (split_on (u " > ") (MapOmToFsq.Category_Label r))
                                      (MapOmToFsq.Category_Label r)))))
       (MapOmToFsq.load_fsq_categories file).
Proof.
  unfold MapOmToFsq.load_fsq_categories.
  induction file as [|row file [IH1 IH2]]; [split; [reflexivity | constructor]|].
  cbn [flat_map map filter]. unfold MapOmToFsq.load_fsq_row at 1 3.
  destruct (MapOmToFsq.csv_label row) as [|c label] eqn:E.
  - cbn [app]. split; assumption.
  - cbn [app map MapOmToFsq.Category_Label]. split.
    + f_equal. exact IH1.
    + constructor; [|exact IH2]. split; reflexivity.
Qed.

Lemma unique_labels_spec (labels : list pystr) :
  forall seen,
    NoDup (MapOmToFsq.unique_labels seen labels)
    /\ (forall x, In x (MapOmToFsq.unique_labels seen labels)
                  <-> In x labels /\ x <> [] /\ ~ In x seen).
Proof.
  induction labels as [|label labels IH]; intro seen; cbn [MapOmToFsq.unique_labels].
  - split; [constructor | intro x; cbn [In]; tauto].
  - destruct label as [|c label].
    + destruct (IH seen) as [N I]. split; [exact N|]. intro x. rewrite I. cbn [In].
      split; [tauto|]. intros [[<-|H] [H1 H2]]; [congruence | tauto].
    + destruct (mem (c :: label) seen) eqn:M.
      * apply mem_In in M. destruct (IH seen) as [N I]. split; [exact N|].
        intro x. rewrite I. cbn [In]. split; [tauto|].
        intros [[<-|H] [H1 H2]]; [contradiction | tauto].
      * assert (M' : ~ In (c :: label) seen).
        { intro H. apply mem_In in H. congruence. }
        destruct (IH ((c :: label) :: seen)) as [N I]. split.
        -- constructor; [|exact N]. rewrite I. cbn [In]. tauto.
        -- intro x. cbn [In]. rewrite I. cbn [In]. split.
           ++ intros [<-|[H1 [H2 H3]]]; [|tauto].
              split; [now left|]. split; [discriminate | exact M'].
           ++ intros [[<-|H] [H1 H2]]; [now left|].
              destruct (list_eq_dec N.eq_dec (c :: label) x) as [->|Hne];
                [now left | right; tauto].
Qed.

Lemma write_row_label (fsq_rows : list MapOmToFsq.fsq_row) (om_label : pystr)
    (matches : list (nat * Q)) (r : MapOmToFsq.out_row) :
  MapOmToFsq.write_row fsq_rows om_label matches = Some r ->
  MapOmToFsq.OM_CATEGORY_LABEL r = om_label.
Proof.
  unfold MapOmToFsq.write_row.
  destruct (MapOmToFsq.pad 3 matches) as [|[i0 s0] [|[i1 s1] [|[i2 s2] [|m rest]]]];
    try discriminate.
  cbv zeta. intro H. injection H as <-. reflexivity.
Qed.

Lemma labels_of_rows (g : pystr -> option MapOmToFsq.out_row)
    (rows : list MapOmToFsq.out_row) :
  (forall l r, g l = Some r -> MapOmToFsq.OM_CATEGORY_LABEL r = l) ->
  forall labels,
    map Some rows = map g labels -> map MapOmToFsq.OM_CATEGORY_LABEL rows = labels.
Proof.
  intro G. induction rows as [|r rows IH]; intros [|l labels] E; cbn [map] in *;
    try discriminate; [reflexivity|].
  injection E as E1 E2. symmetry in E1. rewrite (G _ _ E1). f_equal. now apply IH.
Qed.

(** X14: [main] of map_om_to_fsq.py writes one row per distinct
    non-empty label of the OM file, in the order of [load_unique_om_labels]:
    no label is written twice, and a label is written exactly when it is
    in the file and is not empty. *)
Theorem main_one_row_per_label
    (token_set_ratio partial_ratio : pystr -> pystr -> Q)
    (set_iter : list nat -> list nat)
    (fsq_file : list MapOmToFsq.csv_fsq) (om_file : list pystr) :
  let labels :=
    map MapOmToFsq.OM_CATEGORY_LABEL
      (MapOmToFsq.main token_set_ratio partial_ratio set_iter fsq_file om_file) in
  labels = MapOmToFsq.load_unique_om_labels om_file
  /\ NoDup labels
  /\ (forall label, In label labels <-> In label om_file /\ label <> []).
Proof.
  cbv zeta.
  assert (E : map MapOmToFsq.OM_CATEGORY_LABEL
                (MapOmToFsq.main token_set_ratio partial_ratio set_iter fsq_file om_file)
              = MapOmToFsq.load_unique_om_labels om_file).
  { eapply labels_of_rows; [|apply main_rows].
    intros l r. cbv beta. apply write_row_label. }
  rewrite E. unfold MapOmToFsq.load_unique_om_labels.
  destruct (unique_labels_spec om_file []) as [N I].
  split; [reflexivity|]. split; [exact N|].
  intro label. rewrite I. cbn [In]. tauto.
Qed.

(** ** map_om_to_fsq.py: the matches and their scores *)

Lemma pad_Forall (P : nat * Q -> Prop) (n : nat) :
  P (0%nat, 0) ->
  forall matches, Forall P matches -> Forall P (MapOmToFsq.pad n matches).
Proof.
  intro H0. induction n as [|n IH]; intros matches H; cbn [MapOmToFsq.pad]; [exact H|].
  destruct (List.length matches <? 3)%nat; [|exact H].
  apply IH. apply Forall_app. split; [exact H | now constructor].
Qed.

Lemma write_row_scores (P : Q -> Prop) (fsq_rows : list MapOmToFsq.fsq_row)
    (om_label : pystr) (matches : list (nat * Q)) (r : MapOmToFsq.out_row) :
  P 0 -> Forall (fun m => P (snd m)) matches ->
  MapOmToFsq.write_row fsq_rows om_label matches = Some r ->
  P (MapOmToFsq.BEST_SCORE r)
  /\ P (MapOmToFsq.ALT1_SCORE r)
  /\ P (MapOmToFsq.ALT2_SCORE r).
Proof.
  intros H0 H. unfold MapOmToFsq.write_row.
  pose proof (@pad_Forall (fun m => P (snd m)) 3 H0 matches H) as F.
  destruct (MapOmToFsq.pad 3 matches) as [|[i0 s0] [|[i1 s1] [|[i2 s2] [|m rest]]]];
    try discriminate.
  cbv zeta. intro E. injection E as <-.
  cbn [MapOmToFsq.BEST_SCORE MapOmToFsq.ALT1_SCORE MapOmToFsq.ALT2_SCORE].
  inversion F as [|? ? F0 F']; subst. inversion F' as [|? ? F1 F'']; subst.
  inversion F'' as [|? ? F2 _]; subst. cbn [snd] in *. repeat split; assumption.
Qed.

Lemma combined_score_range (token_set_ratio partial_ratio : pystr -> pystr -> Q)
    (query candidate candidate_leaf : pystr) :
  (forall a b, 0 <= token_set_ratio a b <= 100) ->
  (forall a b, 0 <= partial_ratio a b <= 100) ->
  0 <= MapOmToFsq.combined_score token_set_ratio partial_ratio query candidate
         candidate_leaf <= 100.
Proof.
  intros T P. unfold MapOmToFsq.combined_score. cbv zeta.
  pose proof (T query candidate). pose proof (T query candidate_leaf).
  pose proof (P query candidate). pose proof (P query candidate_leaf).
  lra.
Qed.

Lemma match_one_scores (token_set_ratio partial_ratio : pystr -> pystr -> Q)
    (set_iter : list nat -> list nat) (query_label : pystr)
    (fsq_rows : list MapOmToFsq.fsq_row) (topn : nat) :
  Forall (fun m =>
            exists candidate candidate_leaf,
              snd m = MapOmToFsq.combined_score token_set_ratio partial_ratio
                        (MapOmToFsq.normalize (Some query_label)) candidate candidate_leaf)
    (MapOmToFsq.match_one token_set_ratio partial_ratio set_iter query_label fsq_rows topn).
Proof.
  unfold MapOmToFsq.match_one. cbv zeta. apply Forall_forall. intros m Hm.
  apply firstn_In, sort_desc_In, in_map_iff in Hm. destruct Hm as (idx & <- & _).
  cbn [snd]. eauto.
Qed.

(** X15: when the two RapidFuzz scorers return scores between 0 and 100,
    the three scores of every row written by [main] lie between 0 and
    100. *)
Theorem main_scores_in_range
    (token_set_ratio partial_ratio : pystr -> pystr -> Q)
    (set_iter : list nat -> list nat)
    (fsq_file : list MapOmToFsq.csv_fsq) (om_file : list pystr) :
  (forall a b, 0 <= token_set_ratio a b <= 100) ->
  (forall a b, 0 <= partial_ratio a b <= 100) ->
  Forall (fun r =>
            0 <= MapOmToFsq.BEST_SCORE r <= 100
            /\ 0 <= MapOmToFsq.ALT1_SCORE r <= 100
            /\ 0 <= MapOmToFsq.ALT2_SCORE r <= 100)
    (MapOmToFsq.main token_set_ratio partial_ratio set_iter fsq_file om_file).
Proof.
  intros T P. apply Forall_forall. intros r Hr.
  apply main_row_In in Hr as (label & _ & E).
  refine (@write_row_scores (fun s => 0 <= s <= 100) _ _ _ r _ _ E).
  - cbv beta. lra.
  - eapply Forall_impl; [|apply match_one_scores].
    intros m (c & l & ->). now apply combined_score_range.
Qed.

Lemma main_scores_in_range_witness :
  Forall (fun r =>
            0 <= MapOmToFsq.BEST_SCORE r <= 100
            /\ 0 <= MapOmToFsq.ALT1_SCORE r <= 100
            /\ 0 <= MapOmToFsq.ALT2_SCORE r <= 100)
    (MapOmToFsq.main Sample.scorer Sample.scorer Sample.set_iter Sample.fsq_file
       [u "cafe"; u "Cafe"]).
Proof.
  apply (@main_scores_in_range Sample.scorer Sample.scorer Sample.set_iter
           Sample.fsq_file [u "cafe"; u "Cafe"]);
    intros a b; unfold Sample.scorer; destruct (str_eqb a b); lra.
Defined.

(** X16: the matches of [match_one] name rows of the FSQ table, no row
    twice, in descending order of combined score, provided that iterating
    a set yields elements of the set, each once. *)
Theorem match_one_ranked
    (token_set_ratio partial_ratio : pystr -> pystr -> Q)
    (set_iter : list nat -> list nat) (query_label : pystr)
    (fsq_rows : list MapOmToFsq.fsq_row) (topn : nat) :
  (forall l i, In i (set_iter l) -> In i l) ->
  (forall l, NoDup (set_iter l)) ->
  let matches :=
    MapOmToFsq.match_one token_set_ratio partial_ratio set_iter query_label fsq_rows topn in
  Forall (fun m => (fst m < List.length fsq_rows)%nat) matches
  /\ NoDup (map fst matches)
  /\ descending (map snd matches).
Proof.
  intros Hin Hnd. unfold MapOmToFsq.match_one. cbv zeta.
  match goal with
  | |- context [set_iter ?l] =>
      assert (R : forall i, In i (set_iter l) -> (i < List.length fsq_rows)%nat);
      [|pose proof (Hnd l) as N; generalize dependent (set_iter l)]
  end.
  { intros i Hi. apply Hin in Hi. apply in_app_or in Hi as [Hi|Hi];
      apply in_map_iff in Hi as (r & <- & Hr); apply extract_index in Hr;
      now rewrite length_map in Hr. }
  intros indices R N. split; [|split].
  - apply Forall_forall. intros m Hm.
    apply firstn_In, sort_desc_In, in_map_iff in Hm. destruct Hm as (idx & <- & Hidx).
    cbn [fst]. now apply R.
  - rewrite <- firstn_map. apply firstn_NoDup, sort_desc_NoDup.
    rewrite map_map. cbn [fst]. now rewrite map_id.
  - rewrite <- firstn_map. apply firstn_sorted, sort_desc_sorted.
Qed.

Lemma match_one_ranked_witness :
  let matches :=
    MapOmToFsq.match_one Sample.scorer Sample.scorer Sample.set_iter (u "cafe")
      (MapOmToFsq.load_fsq_categories Sample.fsq_file) 3 in
  Forall (fun m =>
            (fst m < List.length (MapOmToFsq.load_fsq_categories Sample.fsq_file))%nat)
    matches
  /\ NoDup (map fst matches)
  /\ descending (map snd matches).
Proof.
  apply (@match_one_ranked Sample.scorer Sample.scorer Sample.set_iter (u "cafe")
           (MapOmToFsq.load_fsq_categories Sample.fsq_file) 3).
  - intros l i H. unfold Sample.set_iter in H. now apply nodup_In in H.
  - intro l. apply NoDup_nodup.
Defined.

Lemma map_Some_inj {A : Type} (l l' : list A) : map Some l = map Some l' -> l = l'.
Proof.
  revert l'. induction l as [|x l IH]; intros [|y l'] E; cbn [map] in E;
    try discriminate; [reflexivity|].
  injection E as -> E. f_equal. now apply IH.
Qed.

(** X17: when no FSQ row was loaded, [main] still writes one row per label
    of the OM file: the three slots are padded with (0, 0.0), index 0 is out
    of range, and [row_at] gives its blank dictionary, so every FSQ cell is
    empty, the three scores are 0 and NEEDS_REVIEW is TRUE. *)
Theorem main_without_fsq_rows
    (token_set_ratio partial_ratio : pystr -> pystr -> Q)
    (set_iter : list nat -> list nat)
    (fsq_file : list MapOmToFsq.csv_fsq) (om_file : list pystr) :
  (forall l i, In i (set_iter l) -> In i l) ->
  MapOmToFsq.load_fsq_categories fsq_file = [] ->
  MapOmToFsq.main token_set_ratio partial_ratio set_iter fsq_file om_file
  = map (fun om_label =>
           {| MapOmToFsq.OM_CATEGORY_LABEL := om_label;
              MapOmToFsq.FSQ_BEST_LABEL := [];
              MapOmToFsq.FSQ_BEST_ID := [];
              MapOmToFsq.FSQ_BEST_PRIMARY := [];
              MapOmToFsq.FSQ_BEST_SECONDARY := [];
              MapOmToFsq.BEST_SCORE := 0;
              MapOmToFsq.FSQ_ALT1_LABEL := [];
              MapOmToFsq.ALT1_ID := [];
              MapOmToFsq.ALT1_SCORE := 0;
              MapOmToFsq.FSQ_ALT2_LABEL := [];
              MapOmToFsq.ALT2_ID := [];
              MapOmToFsq.ALT2_SCORE := 0;
              MapOmToFsq.NEEDS_REVIEW := u "TRUE" |})
      (MapOmToFsq.load_unique_om_labels om_file).
Proof.
  intros Hin E. apply map_Some_inj. rewrite main_rows, E, map_map.
  apply map_ext. intro label.
  assert (M : MapOmToFsq.match_one token_set_ratio partial_ratio set_iter label [] 3 = []).
  { unfold MapOmToFsq.match_one. cbv zeta. cbn [map]. unfold extract, indexed.
    cbn [List.length seq combine map sort_desc fold_right]. rewrite firstn_nil.
    cbn [map app].
    destruct (set_iter []) as [|i l] eqn:S; [reflexivity|].
    exfalso. apply (Hin [] i). rewrite S. now left. }
  rewrite M. reflexivity.
Qed.

Lemma main_without_fsq_rows_witness :
  MapOmToFsq.main Sample.scorer Sample.scorer Sample.set_iter [] [u "cafe"; u "bar"]
  = map (fun om_label =>
           {| MapOmToFsq.OM_CATEGORY_LABEL := om_label;
              MapOmToFsq.FSQ_BEST_LABEL := [];
              MapOmToFsq.FSQ_BEST_ID := [];
              MapOmToFsq.FSQ_BEST_PRIMARY := [];
              MapOmToFsq.FSQ_BEST_SECONDARY := [];
              MapOmToFsq.BEST_SCORE := 0;
              MapOmToFsq.FSQ_ALT1_LABEL := [];
              MapOmToFsq.ALT1_ID := [];
              MapOmToFsq.ALT1_SCORE := 0;
              MapOmToFsq.FSQ_ALT2_LABEL := [];
              MapOmToFsq.ALT2_ID := [];
              MapOmToFsq.ALT2_SCORE := 0;
              MapOmToFsq.NEEDS_REVIEW := u "TRUE" |})
      (MapOmToFsq.load_unique_om_labels [u "cafe"; u "bar"]).
Proof.
  apply (@main_without_fsq_rows Sample.scorer Sample.scorer Sample.set_iter []
           [u "cafe"; u "bar"]).
  - intros l i H. unfold Sample.set_iter in H. now apply nodup_In in H.
  - reflexivity.
Defined.

(** ** map_categories.py: the three best matches *)

Lemma sorted_head_max (l : list Q) (x d : Q) :
  descending l -> In x l -> x <= hd d l.
Proof.
  unfold descending. intros D H. destruct l as [|y l]; [destruct H|].
  cbn [hd]. apply StronglySorted_inv in D as [_ D]. destruct H as [->|H].
  - apply Qle_refl.
  - rewrite Forall_forall in D. now apply D.
Qed.

Lemma mc_find_best_matches_length (om_category : pystr)
    (fsq_df : list MapCategoriesMain.fsq_row) (top_n : nat) :
  List.length (MapCategoriesMain.find_best_matches om_category fsq_df top_n)
  = Nat.min top_n (List.length fsq_df).
Proof.
  unfold MapCategoriesMain.find_best_matches. cbv zeta.
  now rewrite length_firstn, sort_desc_length, length_map.
Qed.

(** X18: [find_best_matches] of map_categories.py returns [top_n] matches,
    or one per FSQ row when the table is shorter, in descending order of
    score; each is the scored copy of a row of the table, and the first
    one has the highest score of the whole table. *)
Theorem mc_find_best_matches_ranked (om_category : pystr)
    (fsq_df : list MapCategoriesMain.fsq_row) (top_n : nat) :
  let matches := MapCategoriesMain.find_best_matches om_category fsq_df top_n in
  List.length matches = Nat.min top_n (List.length fsq_df)
  /\ descending (map MapCategoriesMain.similarity_score matches)
  /\ Forall (fun m => exists row,
                        In row fsq_df /\ m = MapCategoriesMain.score_row om_category row)
       matches
  /\ (forall best row,
        hd_error matches = Some best -> In row fsq_df ->
        MapCategoriesMain.similarity_score (MapCategoriesMain.score_row om_category row)
        <= MapCategoriesMain.similarity_score best).
Proof.
  cbv zeta. unfold MapCategoriesMain.find_best_matches. cbv zeta.
  set (sorted := sort_desc MapCategoriesMain.similarity_score
                   (map (MapCategoriesMain.score_row om_category) fsq_df)).
  assert (D : descending (map MapCategoriesMain.similarity_score sorted))
    by apply sort_desc_sorted.
  assert (I : forall m, In m sorted <->
                        In m (map (MapCategoriesMain.score_row om_category) fsq_df))
    by (intro m; apply sort_desc_In).
  assert (L : List.length sorted = List.length fsq_df)
    by (subst sorted; now rewrite sort_desc_length, length_map).
  clearbody sorted. split; [|split; [|split]].
  - now rewrite length_firstn, L.
  - rewrite <- firstn_map. now apply firstn_sorted.
  - apply Forall_forall. intros m Hm. apply firstn_In, I, in_map_iff in Hm.
    destruct Hm as (row & <- & Hrow). now exists row.
  - intros best row Hb Hrow.
    assert (Hin : In (MapCategoriesMain.score_row om_category row) sorted)
      by (apply I; now apply in_map).
    destruct top_n as [|n]; [discriminate|].
    destruct sorted as [|m sorted]; [destruct Hin|].
    cbn [firstn hd_error] in Hb. injection Hb as <-.
    apply (@sorted_head_max _ _ 0 D).
    exact (in_map MapCategoriesMain.similarity_score _ _ Hin).
Qed.

Lemma unique_values_In (column : list (option pystr)) :
  forall seen x,
    In x (MapCategoriesMain.unique_values seen column)
    <-> In (Some x) column /\ ~ In x seen.
Proof.
  induction column as [|[v|] column IH]; intros seen x;
    cbn [MapCategoriesMain.unique_values].
  - cbn [In]. tauto.
  - destruct (mem v seen) eqn:M.
    + apply mem_In in M. rewrite IH. cbn [In]. split; [tauto|].
      intros [[E|H] Hs]; [|tauto]. injection E as <-. contradiction.
    + assert (M' : ~ In v seen) by (intro H; apply mem_In in H; congruence).
      cbn [In]. rewrite IH. cbn [In]. split.
      * intros [<-|[H1 H2]]; [split; [now left | exact M'] | tauto].
      * intros [[E|H] Hs]; [injection E as <-; now left|].
        destruct (list_eq_dec N.eq_dec v x) as [->|Hne]; [now left | right; tauto].
  - rewrite IH. cbn [In]. split; [tauto|].
    intros [[E|H] Hs]; [discriminate | tauto].
Qed.

Lemma result_row_some (om_cat : pystr) (fsq_df : list MapCategoriesMain.fsq_row) :
  (3 <= List.length fsq_df)%nat ->
  exists r, MapCategoriesMain.result_row om_cat fsq_df = Some r
            /\ MapCategoriesMain.OM_Category r = om_cat.
Proof.
  intro H. unfold MapCategoriesMain.result_row.
  pose proof (mc_find_best_matches_length om_cat fsq_df 3) as L.
  destruct (MapCategoriesMain.find_best_matches om_cat fsq_df 3)
    as [|m1 [|m2 [|m3 rest]]]; cbn [List.length] in L; try lia.
  eexists. split; reflexivity.
Qed.

Lemma result_row_none (om_cat : pystr) (fsq_df : list MapCategoriesMain.fsq_row) :
  (List.length fsq_df < 3)%nat ->
  MapCategoriesMain.result_row om_cat fsq_df = None.
Proof.
  intro H. unfold MapCategoriesMain.result_row.
  pose proof (mc_find_best_matches_length om_cat fsq_df 3) as L.
  destruct (MapCategoriesMain.find_best_matches om_cat fsq_df 3)
    as [|m1 [|m2 [|m3 rest]]]; cbn [List.length] in L; try reflexivity; lia.
Qed.

Lemma main_loop_some (om_categories : list pystr)
    (fsq_df : list MapCategoriesMain.fsq_row) :
  (3 <= List.length fsq_df)%nat ->
  exists rs, MapCategoriesMain.main_loop om_categories fsq_df = Some rs
             /\ map MapCategoriesMain.OM_Category rs = om_categories.
Proof.
  intro H. induction om_categories as [|c cs (rs & E & M)];
    cbn [MapCategoriesMain.main_loop].
  - now exists [].
  - destruct (@result_row_some c fsq_df H) as (r & -> & Hr). rewrite E.
    exists (r :: rs). cbn [map]. now rewrite Hr, M.
Qed.

(** X19: [main] of map_categories.py indexes [top_matches[0]],
    [top_matches[1]] and [top_matches[2]]: it raises IndexError exactly
    when the FSQ table has fewer than three rows and the OM column holds a
    value; otherwise it collects one result per distinct value of the
    column, in order of first appearance. *)
Theorem mc_main_needs_three_rows (fsq_df : list MapCategoriesMain.fsq_row)
    (om_column : list (option pystr)) :
  (MapCategoriesMain.main fsq_df om_column = None
   <-> (List.length fsq_df < 3)%nat /\ exists v, In (Some v) om_column)
  /\ (forall results,
        MapCategoriesMain.main fsq_df om_column = Some results ->
        map MapCategoriesMain.OM_Category results
        = MapCategoriesMain.unique_values [] om_column).
Proof.
  unfold MapCategoriesMain.main.
  assert (U : MapCategoriesMain.unique_values [] om_column <> []
              <-> exists v, In (Some v) om_column).
  { split.
    - destruct (MapCategoriesMain.unique_values [] om_column) as [|v l] eqn:E;
        [congruence|]. intros _. exists v.
      apply (unique_values_In om_column [] v). rewrite E. now left.
    - intros (v & Hv) E.
      assert (H : In v (MapCategoriesMain.unique_values [] om_column)).
      { apply unique_values_In. split; [exact Hv | intros []]. }
      rewrite E in H. destruct H. }
  destruct (Nat.lt_ge_cases (List.length fsq_df) 3) as [Hlt|Hge].
  - split.
    + rewrite <- U. split.
      * intro E. split; [exact Hlt|]. intro N. rewrite N in E. discriminate.
      * intros [_ N]. destruct (MapCategoriesMain.unique_values [] om_column) as [|c cs];
          [congruence|]. cbn [MapCategoriesMain.main_loop].
        now rewrite (@result_row_none c fsq_df Hlt).
    + intros results E.
      destruct (MapCategoriesMain.unique_values [] om_column) as [|c cs];
        [injection E as <-; reflexivity|].
      cbn [MapCategoriesMain.main_loop] in E. rewrite (@result_row_none c fsq_df Hlt) in E.
      discriminate.
  - destruct (@main_loop_some (MapCategoriesMain.unique_values [] om_column) fsq_df Hge)
      as (rs & E & M). split.
    + split; [rewrite E; discriminate | intros [H _]; lia].
    + intros results E'. rewrite E in E'. injection E' as <-. exact M.
Qed.

(** ** category_mapper.py: the kinds of result rows *)

Lemma py_max_le (x y z : Q) : x <= z -> y <= z -> py_max x y <= z.
Proof. intros Hx Hy. unfold py_max. now destruct (Qltb x y). Qed.

Lemma semantic_step_bounds (matched : list nat) (fs : CategoryMapper.fs_cat)
    (ovs : list CategoryMapper.ov_cat) :
  forall acc,
    (fst acc <> None -> 0 < snd acc <= 1) ->
    fst (fold_left (CategoryMapper.semantic_step matched fs) ovs acc) <> None ->
    0 < snd (fold_left (CategoryMapper.semantic_step matched fs) ovs acc) <= 1.
Proof.
  induction ovs as [|ov ovs IH]; intros acc Hacc; cbn [fold_left]; [exact Hacc|].
  apply IH. unfold CategoryMapper.semantic_step. cbv zeta.
  destruct (CategoryMapper.in_set _ matched); [exact Hacc|].
  destruct (Qltb (snd acc) _ && Qle_bool (3 # 10) _) eqn:E; [|exact Hacc].
  intros _. cbn [snd]. apply andb_true_iff in E as [_ E]. apply Qle_bool_iff in E.
  split; [lra | apply cm_score_range].
Qed.

Lemma direct_step_bounds (matched : list nat) (fs_row : CategoryMapper.fsq_row)
    (ovs : list (nat * pystr)) :
  forall acc,
    (fst acc <> None -> 0 < snd acc <= 1) ->
    fst (fold_left (CategoryMapper.direct_step matched fs_row) ovs acc) <> None ->
    0 < snd (fold_left (CategoryMapper.direct_step matched fs_row) ovs acc) <= 1.
Proof.
  induction ovs as [|[ov_idx ov_row] ovs IH]; intros acc Hacc; cbn [fold_left];
    [exact Hacc|].
  apply IH. unfold CategoryMapper.direct_step. cbv zeta.
  destruct (CategoryMapper.in_set ov_idx matched); [exact Hacc|].
  destruct (Qltb (snd acc) _ && Qle_bool (4 # 10) _) eqn:E; [|exact Hacc].
  intros _. cbn [snd]. apply andb_true_iff in E as [_ E]. apply Qle_bool_iff in E.
  split; [lra | apply py_max_le; apply cm_score_range].
Qed.

Lemma semantic_fs_coherent (g : CategoryMapper.group_data) (st : CategoryMapper.state)
    (fs : CategoryMapper.fs_cat) :
  Forall row_coherent (CategoryMapper.mapping_results st) ->
  Forall row_coherent (CategoryMapper.mapping_results (CategoryMapper.semantic_fs g st fs)).
Proof.
  intro H. unfold CategoryMapper.semantic_fs.
  pose proof (@semantic_step_bounds (CategoryMapper.matched_overture st) fs
                (CategoryMapper.overture_categories g) (None, 0)) as B.
  destruct (fold_left _ _ _) as [[best|] score]; [|exact H].
  cbn [CategoryMapper.mapping_results]. apply Forall_app. split; [exact H|].
  constructor; [|constructor]. left. cbn [fst snd] in B. repeat split.
  - discriminate.
  - apply B; [intro C; exfalso; now apply C | discriminate].
  - apply B; [intro C; exfalso; now apply C | discriminate].
Qed.

Lemma direct_fs_coherent (unmatched_ov : list (nat * pystr)) (st : CategoryMapper.state)
    (fs_row : CategoryMapper.fsq_row) :
  Forall row_coherent (CategoryMapper.mapping_results st) ->
  Forall row_coherent
    (CategoryMapper.mapping_results (CategoryMapper.direct_fs unmatched_ov st fs_row)).
Proof.
  intro H. unfold CategoryMapper.direct_fs.
  pose proof (@direct_step_bounds (CategoryMapper.matched_overture st) fs_row
                unmatched_ov (None, 0)) as B.
  destruct (fold_left _ _ _) as [[[i best]|] score]; [|exact H].
  cbn [CategoryMapper.mapping_results]. apply Forall_app. split; [exact H|].
  constructor; [|constructor]. right. left. cbn [fst snd] in B. repeat split.
  - discriminate.
  - apply B; [intro C; exfalso; now apply C | discriminate].
  - apply B; [intro C; exfalso; now apply C | discriminate].
Qed.

Lemma passes_coherent (foursquare_data : list CategoryMapper.fsq_row)
    (overture_data : list pystr) (groups : list CategoryMapper.group_data) :
  Forall row_coherent
    (CategoryMapper.mapping_results
       (CategoryMapper.unmatched_pass foursquare_data
          (CategoryMapper.direct_pass foursquare_data overture_data
             (CategoryMapper.semantic_pass groups
                {| CategoryMapper.matched_overture := [];
                   CategoryMapper.mapping_results := [] |})))).
Proof.
  unfold CategoryMapper.unmatched_pass. cbv zeta. cbn [CategoryMapper.mapping_results].
  apply Forall_app. split.
  - unfold CategoryMapper.direct_pass. cbv zeta.
    apply (@fold_left_inv _ _
             (fun st => Forall row_coherent (CategoryMapper.mapping_results st))).
    + intros st row _. apply direct_fs_coherent.
    + unfold CategoryMapper.semantic_pass.
      apply (@fold_left_inv _ _
               (fun st => Forall row_coherent (CategoryMapper.mapping_results st)));
        [|constructor].
      intros st g _ Hst. unfold CategoryMapper.semantic_group_pass.
      apply (@fold_left_inv _ _
               (fun st => Forall row_coherent (CategoryMapper.mapping_results st)));
        [|exact Hst].
      intros st' fs _. apply semantic_fs_coherent.
  - apply Forall_forall. intros m Hm. apply in_map_iff in Hm as (row & <- & _).
    right. right. repeat split.
Qed.

(** X20: every row that [find_best_matches] of category_mapper.py records
    is of one of three kinds: a semantic-group match with an Overture
    category and a score above 0, at most 1; a direct match (group "none")
    with an Overture category and a score above 0, at most 1; or a no-match
    row (group "none") without Overture category and with score 0. *)
Theorem find_best_matches_row_kinds (foursquare_data : list CategoryMapper.fsq_row)
    (overture_data : list pystr) (groups : list CategoryMapper.group_data) :
  Forall row_coherent
    (CategoryMapper.find_best_matches foursquare_data overture_data groups).
Proof.
  unfold CategoryMapper.find_best_matches. cbv zeta. apply passes_coherent.
Qed.

Ltac bin_cases :=
  repeat match goal with
         | |- context [Qltb ?a ?b] =>
             let E := fresh "E" in
             destruct (Qltb a b) eqn:E; [apply Qltb_lt in E | apply Qltb_ge in E]
         end;
  repeat match goal with
         | |- context [Qle_bool ?a ?b] =>
             let E := fresh "E" in
             destruct (Qle_bool a b) eqn:E;
             [apply Qle_bool_iff in E
             | apply not_true_iff_false in E; rewrite Qle_bool_iff in E;
               apply Qnot_le_lt in E]
         end;
  cbn [andb].

Lemma match_quality_none (score : Q) :
  MasterTable.match_quality score = None <-> score <= 0 \/ 1 < score.
Proof.
  unfold MasterTable.match_quality. split.
  - bin_cases; intro H; try discriminate H; lra.
  - intro H. bin_cases; try reflexivity; exfalso; lra.
Qed.

(** X21: in the master table, [match_quality] is missing exactly on the rows
    without Overture match: their score 0 lies outside the bins of [pd.cut],
    which are open on the left, and the score of a matched row lies in one
    of them. *)
Theorem master_table_columns (foursquare_data : list CategoryMapper.fsq_row)
    (overture_data : list pystr) :
  Forall (fun m =>
            MasterTable.match_quality (CategoryMapper.similarity_score m) = None
            <-> MasterTable.has_overture_match m = false)
    (CategoryMapper.run_mapping foursquare_data overture_data).
Proof.
  unfold CategoryMapper.run_mapping, CategoryMapper.find_best_matches. cbv zeta.
  eapply Forall_impl; [|apply passes_coherent].
  intros m. rewrite match_quality_none.
  unfold row_coherent, MasterTable.has_overture_match.
  intros [(T & O & S)|[(T & G & O & S)|(T & G & O & S)]].
  - destruct (CategoryMapper.overture_category m); [|congruence]. split.
    + intro H. lra.
    + discriminate.
  - destruct (CategoryMapper.overture_category m); [|congruence]. split.
    + intro H. lra.
    + discriminate.
  - rewrite O, S. split.
    + reflexivity.
    + intros _. left. lra.
Qed.

(** ** category_mapper.py: an empty Overture table *)

Lemma semantic_fs_no_candidates (g : CategoryMapper.group_data)
    (st : CategoryMapper.state) (fs : CategoryMapper.fs_cat) :
  CategoryMapper.overture_categories g = [] ->
  CategoryMapper.semantic_fs g st fs = st.
Proof. intro E. unfold CategoryMapper.semantic_fs. now rewrite E. Qed.

Lemma fold_left_fixed {A B : Type} (f : A -> B -> A) (l : list B) (a : A) :
  (forall b, In b l -> f a b = a) -> fold_left f l a = a.
Proof.
  induction l as [|b l IH]; intro H; cbn [fold_left]; [reflexivity|].
  rewrite (H b (or_introl eq_refl)). apply IH. intros b' Hb'. apply H. now right.
Qed.

(** X22: with an empty Overture table, the mapping is one no-match row per
    Foursquare row, in table order. *)
Theorem run_mapping_without_overture (foursquare_data : list CategoryMapper.fsq_row) :
  CategoryMapper.run_mapping foursquare_data []
  = map CategoryMapper.no_match foursquare_data.
Proof.
  unfold CategoryMapper.run_mapping, CategoryMapper.find_best_matches. cbv zeta.
  assert (G : groups_ok []
                (CategoryMapper.categorize_by_semantics foursquare_data []
                   CategoryMapper.semantic_groups)).
  { apply categorize_by_semantics_ok. unfold groups_ok.
    apply Forall_forall. intros g Hg.
    repeat (destruct Hg as [<-|Hg]; [constructor|]). destruct Hg. }
  set (groups := CategoryMapper.categorize_by_semantics foursquare_data []
                   CategoryMapper.semantic_groups) in *.
  clearbody groups.
  assert (S : CategoryMapper.semantic_pass groups
                {| CategoryMapper.matched_overture := [];
                   CategoryMapper.mapping_results := [] |}
              = {| CategoryMapper.matched_overture := [];
                   CategoryMapper.mapping_results := [] |}).
  { unfold CategoryMapper.semantic_pass. apply fold_left_fixed. intros g Hg.
    unfold CategoryMapper.semantic_group_pass. apply fold_left_fixed. intros fs _.
    apply semantic_fs_no_candidates.
    unfold groups_ok in G. rewrite Forall_forall in G. specialize (G g Hg).
    destruct (CategoryMapper.overture_categories g) as [|e l]; [reflexivity|].
    inversion G as [|? ? [Hlt _] _]. cbn [List.length] in Hlt. lia. }
  rewrite S.
  assert (D : CategoryMapper.direct_pass foursquare_data []
                {| CategoryMapper.matched_overture := [];
                   CategoryMapper.mapping_results := [] |}
              = {| CategoryMapper.matched_overture := [];
                   CategoryMapper.mapping_results := [] |}).
  { unfold CategoryMapper.direct_pass. cbv zeta. apply fold_left_fixed.
    intros row _. reflexivity. }
  rewrite D. unfold CategoryMapper.unmatched_pass. cbv zeta.
  cbn [CategoryMapper.mapping_results CategoryMapper.matched_ids map app]. f_equal.
  clear. induction foursquare_data as [|row rows IH]; [reflexivity|].
  cbn [filter]. change (mem (CategoryMapper.category_id row) []) with false.
  cbn [negb]. f_equal. exact IH.
Qed.

(** ** om_to_fsq_map.py: the output rows name categories of the FSQ file *)

Lemma best_step_member (top : list (nat * Q * pystr)) :
  forall done acc,
    (forall j, fst (fst acc) = Some j -> In (j, snd (fst acc), snd acc) done) ->
    forall i sc mt,
      fold_left OmToFsqMap.best_step top acc = (Some i, sc, mt) ->
      In (i, sc, mt) (done ++ top).
Proof.
  induction top as [|[[j s] t] top IH]; intros done acc Hacc i sc mt E;
    cbn [fold_left] in E.
  - rewrite app_nil_r. subst acc. now apply Hacc.
  - replace (done ++ (j, s, t) :: top) with ((done ++ [(j, s, t)]) ++ top)
      by (rewrite <- app_assoc; reflexivity).
    refine (IH (done ++ [(j, s, t)]) (OmToFsqMap.best_step acc (j, s, t)) _ i sc mt E).
    destruct acc as [[o q] x]. cbn [OmToFsqMap.best_step fst snd] in *. intros k.
    destruct (Qltb q s); cbn [fst snd]; intro Hk; apply in_or_app.
    + right. injection Hk as <-. now left.
    + left. now apply (Hacc k).
Qed.

Lemma load_rows_map (file : list OmToFsqMap.csv_fsq) :
  forall st,
    fst (fst (fold_left OmToFsqMap.load_step file st))
    = fst (fst st)
      ++ map (fun row =>
                {| OmToFsqMap.category_id := OmToFsqMap.csv_id row;
                   OmToFsqMap.category_label := OmToFsqMap.csv_label row;
                   OmToFsqMap.category_primary := OmToFsqMap.csv_primary row;
                   OmToFsqMap.category_secondary := OmToFsqMap.csv_secondary row;
                   OmToFsqMap.leaf_label :=
                     OmToFsqMap.extract_leaf_label (OmToFsqMap.csv_label row) |}) file.
Proof.
  induction file as [|row file IH]; intro st; cbn [fold_left map].
  - now rewrite app_nil_r.
  - rewrite IH, load_step_rows, <- app_assoc. reflexivity.
Qed.

Lemma map_row_names_row (WRatio : pystr -> pystr -> Q)
    (fsq_rows : list OmToFsqMap.FSQCategory) (texts : list pystr)
    (to_index : list nat) (row : OmToFsqMap.om_row) (out : OmToFsqMap.out_row) :
  List.length texts = List.length to_index ->
  Forall (fun i => (i < List.length fsq_rows)%nat) to_index ->
  OmToFsqMap.map_row WRatio fsq_rows texts to_index row = Some out ->
  exists fsq,
    In fsq fsq_rows
    /\ OmToFsqMap.FSQ_CATEGORY_ID out = OmToFsqMap.category_id fsq
    /\ OmToFsqMap.FSQ_CATEGORY_LABEL out = OmToFsqMap.category_label fsq
    /\ OmToFsqMap.FSQ_CATEGORY_PRIMARY out = OmToFsqMap.category_primary fsq
    /\ OmToFsqMap.FSQ_CATEGORY_SECONDARY out = OmToFsqMap.category_secondary fsq.
Proof.
  intros L R. unfold OmToFsqMap.map_row. cbv zeta.
  destruct (OmToFsqMap.normalize_text (Some (OmToFsqMap.CATEGORY_LABEL row)))
    as [|c q]; [discriminate|].
  match goal with
  | |- context [OmToFsqMap.choose_best_matches WRatio ?q ?t ?i ?l ?a] =>
      pose proof (@choose_best_matches_range WRatio q t i l a _ L R) as G;
      generalize dependent (OmToFsqMap.choose_best_matches WRatio q t i l a)
  end.
  intros top G.
  destruct (fold_left OmToFsqMap.best_step top (None, - (1), [])) as [[[i|] sc] mt] eqn:E;
    [|discriminate].
  assert (H0 : forall j,
             fst (fst (@None nat, - (1), @nil N)) = Some j ->
             In (j, snd (fst (@None nat, - (1), @nil N)), snd (@None nat, - (1), @nil N))
               []) by (intros j Hj; discriminate Hj).
  apply (@best_step_member top [] _ H0) in E.
  cbn [app] in E. rewrite Forall_forall in G. apply G in E. cbn [fst] in E.
  intro H. injection H as <-.
  exists (nth i fsq_rows OmToFsqMap.blank_fsq). split; [now apply nth_In|].
  repeat split.
Qed.

(** X23: every row that [map_om_to_fsq] writes carries the id, label,
    primary and secondary category of one row of the FSQ file, and the
    ambiguous file holds the written rows whose score is below the
    threshold. *)
Theorem written_rows_name_fsq_categories (WRatio : pystr -> pystr -> Q)
    (om_file : list OmToFsqMap.om_row) (fsq_file : list OmToFsqMap.csv_fsq)
    (threshold : Q) :
  let written := fst (OmToFsqMap.map_om_to_fsq WRatio om_file fsq_file threshold) in
  let ambiguous := snd (OmToFsqMap.map_om_to_fsq WRatio om_file fsq_file threshold) in
  Forall (fun out =>
            exists row,
              In row fsq_file
              /\ OmToFsqMap.FSQ_CATEGORY_ID out = OmToFsqMap.csv_id row
              /\ OmToFsqMap.FSQ_CATEGORY_LABEL out = OmToFsqMap.csv_label row
              /\ OmToFsqMap.FSQ_CATEGORY_PRIMARY out = OmToFsqMap.csv_primary row
              /\ OmToFsqMap.FSQ_CATEGORY_SECONDARY out = OmToFsqMap.csv_secondary row)
    written
  /\ Forall (fun out => In out written /\ OmToFsqMap.MATCH_SCORE out < threshold)
       ambiguous.
Proof.
  cbv zeta. unfold OmToFsqMap.map_om_to_fsq.
  pose proof (load_fsq_categories_ok fsq_file) as (L & R & _).
  pose proof (load_rows_map fsq_file ([], [], [])) as M.
  fold (OmToFsqMap.load_fsq_categories fsq_file) in M.
  destruct (OmToFsqMap.load_fsq_categories fsq_file) as [[fsq_rows texts] to_index].
  cbn [fst snd app] in *. split.
  - apply Forall_forall. intros out Hout.
    apply in_flat_map in Hout as (om & _ & Hout).
    destruct (OmToFsqMap.map_row WRatio fsq_rows texts to_index om) as [out'|] eqn:E;
      [|destruct Hout].
    destruct Hout as [<-|[]].
    destruct (@map_row_names_row WRatio fsq_rows texts to_index om out' L R E)
      as (fsq & Hin & H1 & H2 & H3 & H4).
    rewrite M in Hin. apply in_map_iff in Hin as (row & <- & Hrow).
    exists row. repeat split; assumption.
  - apply Forall_forall. intros out Hout. apply filter_In in Hout as [Hin Hs].
    split; [exact Hin | now apply Qltb_lt].
Qed.

(** ** map_categories.py: sample runs *)

Lemma mc_find_best_matches_ranked_witness :
  let cafe :=
    {| MapCategoriesMain.Category_ID := u "1";
       MapCategoriesMain.Category_Name := u "Cafe";
       MapCategoriesMain.Category_Label := u "Dining and Drinking > Cafe" |} in
  let bank :=
    {| MapCategoriesMain.Category_ID := u "2";
       MapCategoriesMain.Category_Name := u "Bank";
       MapCategoriesMain.Category_Label := u "Business > Bank" |} in
  MapCategoriesMain.similarity_score (MapCategoriesMain.score_row (u "cafe") bank)
  <= MapCategoriesMain.similarity_score (MapCategoriesMain.score_row (u "cafe") cafe).
Proof.
  intros cafe bank.
  apply (proj2 (proj2 (proj2
           (mc_find_best_matches_ranked (u "cafe") [bank; cafe] 3)))
           (MapCategoriesMain.score_row (u "cafe") cafe) bank).
  - vm_compute. reflexivity.
  - now left.
Defined.

Lemma mc_main_needs_three_rows_witness :
  MapCategoriesMain.main [] [Some (u "cafe")] = None.
Proof.
  apply (proj1 (mc_main_needs_three_rows [] [Some (u "cafe")])).
  split; [cbn [List.length]; lia | exists (u "cafe"); now left].
Defined.
